(** * senlib: sensor drivers and acquisition loop

    A shallow embedding of [senlib/i2c/sensors/bmex.py] (the Bosch BME280
    driver), [senlib/i2c/sensors/six.py] (the Silicon Labs SI7021 driver),
    [senlib/mock.py], and the acquisition loop and the output of
    [senlib/cli.py], followed by the properties of the design document that
    concern them and by further properties of the code.

    Conventions of the embedding.
    - Python integers are [Z]; bit operations are [Z.lor], [Z.land],
      [Z.shiftl], [Z.shiftr].
    - Python floats are an interface, [PyFloat]: the driver is written once
      over it and runs both in IEEE 754 binary64 (Rocq's primitive floats)
      and in exact rational arithmetic ([Q]).
    - An [int] that meets a float in an arithmetic expression, or is given
      to [float()], is converted first; the conversion raises
      [OverflowError] for an int that no float can hold.
    - A Python call either returns or raises: [result A].  Methods that read
      or assign attributes of [self], or talk to the I2C controller, live in
      the monad [M], which threads the mutated objects through and keeps
      every assignment made before an exception was raised. *)

From Stdlib Require Import ZArith QArith List String Bool Lia Lqa Floats.
From Stdlib Require Uint63.
From Stdlib Require Import Permutation Sorted.
Import ListNotations.

Set Implicit Arguments.
Local Open Scope Z_scope.

(** ** Exceptions and results *)

Inductive exn : Type :=
| ZeroDivisionError
| OverflowError
| ValueError
| IndexError
| StructError                 (* struct.error *)
| OSError                     (* raised by the I2C controller *)
| Exception (name : string).  (* any other exception *)

Inductive result (A : Type) : Type :=
| Ok (a : A)
| Raise (e : exn).
Arguments Ok {A} a.
Arguments Raise {A} e.

Definition rbind {A B} (r : result A) (k : A -> result B) : result B :=
  match r with
  | Ok a => k a
  | Raise e => Raise e
  end.

Definition is_ok {A} (r : result A) : bool :=
  match r with Ok _ => true | Raise _ => false end.

(** The monad of methods: state [S] in, outcome and state out. *)
Definition M (S A : Type) : Type := S -> result A * S.

Definition ret {S A} (a : A) : M S A := fun s => (Ok a, s).
Definition raise {S A} (e : exn) : M S A := fun s => (Raise e, s).
Definition bind {S A B} (m : M S A) (k : A -> M S B) : M S B :=
  fun s => match m s with
           | (Ok a, s') => k a s'
           | (Raise e, s') => (Raise e, s')
           end.
Definition get {S} : M S S := fun s => (Ok s, s).
Definition modify {S} (f : S -> S) : M S unit := fun s => (Ok tt, f s).
Definition lift {S A} (r : result A) : M S A := fun s => (r, s).

Declare Scope py_scope.
Delimit Scope py_scope with py.
Notation "x <- m ;; k" := (bind m (fun x => k))
  (at level 61, m at next level, right associativity) : py_scope.
Notation "m ;; k" := (bind m (fun _ => k))
  (at level 61, right associativity) : py_scope.
Notation "' p <- m ;; k" := (bind m (fun x => let 'p := x in k))
  (at level 61, p pattern, m at next level, right associativity) : py_scope.

(** ** Python floats *)

Class PyFloat (F : Type) : Type := {
  float : Z -> F;              (* the float nearest to n: the literal n.0 *)
  overflows : Z -> bool;       (* n is too large to convert to a float *)
  int : F -> result Z;         (* int(x): truncates towards zero *)
  fadd : F -> F -> F;
  fsub : F -> F -> F;
  fmul : F -> F -> F;
  fdiv : F -> F -> F;          (* the quotient when the divisor is not zero *)
  feqb : F -> F -> bool;       (* x == y *)
  fltb : F -> F -> bool        (* x < y *)
}.

(** Exact rational arithmetic.  [int] rounds towards zero, as Python's
    [int(x)] does. *)
Definition Qtruncate (x : Q) : Z := Z.quot (Qnum x) (Zpos (Qden x)).

#[export] Instance PyFloat_Q : PyFloat Q := {
  float := inject_Z;
  overflows := fun _ => false;
  int := fun x => Ok (Qtruncate x);
  fadd := Qplus;
  fsub := Qminus;
  fmul := Qmult;
  fdiv := Qdiv;
  feqb := Qeq_bool;
  fltb := fun x y => negb (Qle_bool y x)
}.

(** IEEE 754 binary64, the float of CPython.  [binary64_of_Z n] is the
    integer [n] rounded to the nearest float, ties to even.  CPython
    converts an int to a float by that rounding and raises [OverflowError]
    when the result is not finite, which is the case from
    [2^1024 - 2^970] on: [binary64_overflows].  [int] raises on infinities
    and NaN. *)
Definition binary64_of_Z (n : Z) : PrimFloat.float :=
  SF2Prim (binary_normalize prec emax n 0 false).

Definition binary64_overflows (n : Z) : bool :=
  match binary_normalize prec emax n 0 false with
  | S754_infinity _ => true
  | _ => false
  end.

Definition binary64_int (x : PrimFloat.float) : result Z :=
  match Prim2SF x with
  | S754_zero _ => Ok 0
  | S754_infinity _ => Raise OverflowError
  | S754_nan => Raise ValueError
  | S754_finite s m e =>
      let a := if 0 <=? e then Z.shiftl (Zpos m) e
               else Z.shiftr (Zpos m) (- e) in
      Ok (if s then - a else a)
  end.

#[export] Instance PyFloat_binary64 : PyFloat PrimFloat.float := {
  float := binary64_of_Z;
  overflows := binary64_overflows;
  int := binary64_int;
  fadd := PrimFloat.add;
  fsub := PrimFloat.sub;
  fmul := PrimFloat.mul;
  fdiv := PrimFloat.div;
  feqb := PrimFloat.eqb;
  fltb := PrimFloat.ltb
}.

(** Float expressions.  The value of an operand is an [int] or a [float].
    Operands are evaluated left to right and the first exception wins; the
    operator then converts an [int] operand to a float, the left one first,
    which raises [OverflowError] when the int is too large, and operates on
    the two floats.  [x / y] is Python's true division: after the
    conversions it raises [ZeroDivisionError] when the divisor compares
    equal to zero.  The operators below are those of the drivers'
    expressions that have a float among their operands; a product of two
    ints is an int and is computed in [Z]. *)
Section Expr.
Context {F : Type} `{PyFloat F}.

Inductive number : Type :=
| py_int (n : Z)
| py_float (x : F).

(** The conversion applied to an operand, and by [float(v)]. *)
Definition as_float (v : number) : result F :=
  match v with
  | py_float x => Ok x
  | py_int n => if overflows n then Raise OverflowError else Ok (float n)
  end.

Definition lift2 (op : F -> F -> F) (a b : result number) : result number :=
  rbind a (fun u => rbind b (fun v =>
  rbind (as_float u) (fun x => rbind (as_float v) (fun y =>
    Ok (py_float (op x y)))))).

Definition truediv (a b : result number) : result number :=
  rbind a (fun u => rbind b (fun v =>
  rbind (as_float u) (fun x => rbind (as_float v) (fun y =>
    if feqb y (float 0) then Raise ZeroDivisionError
    else Ok (py_float (fdiv x y)))))).

(** A float literal [n.0], a float held by a variable, an int held by a
    variable or an attribute. *)
Definition lit (n : Z) : result number := Ok (py_float (float n)).
Definition val (x : F) : result number := Ok (py_float x).
Definition ival (n : Z) : result number := Ok (py_int n).

(** The float an expression evaluates to, and the call [float(e)] as an
    operand. *)
Definition evalf (e : result number) : result F := rbind e as_float.
Definition float_call (e : result number) : result number :=
  rbind (evalf e) (fun x => Ok (py_float x)).
End Expr.

Arguments number : clear implicits.

Notation "a + b" := (lift2 fadd a b) : py_scope.
Notation "a - b" := (lift2 fsub a b) : py_scope.
Notation "a * b" := (lift2 fmul a b) : py_scope.
Notation "a / b" := (truediv a b) : py_scope.
Notation "# n" := (lit n) (at level 5, n at level 0, format "# n") : py_scope.
Notation "$ x" := (val x) (at level 5, x at level 0, format "$ x") : py_scope.

(** ** The [struct] module, little-endian standard layout ([<]) *)

Inductive fmt : Type :=
| fmt_H   (* unsigned short, 2 bytes *)
| fmt_h   (* short, 2 bytes *)
| fmt_B   (* unsigned char *)
| fmt_b.  (* signed char *)

(** Two's-complement reading of a [w]-bit pattern. *)
Definition signed (w : Z) (v : Z) : Z :=
  if v <? 2 ^ (w - 1) then v else v - 2 ^ w.

Definition le16 (lo hi : Z) : Z := Z.lor lo (Z.shiftl hi 8).

Fixpoint unpack (fs : list fmt) (bs : list Z) : result (list Z) :=
  match fs, bs with
  | [], [] => Ok []
  | fmt_H :: fs', lo :: hi :: bs' =>
      rbind (unpack fs' bs') (fun vs => Ok (le16 lo hi :: vs))
  | fmt_h :: fs', lo :: hi :: bs' =>
      rbind (unpack fs' bs') (fun vs => Ok (signed 16 (le16 lo hi) :: vs))
  | fmt_B :: fs', b :: bs' =>
      rbind (unpack fs' bs') (fun vs => Ok (b :: vs))
  | fmt_b :: fs', b :: bs' =>
      rbind (unpack fs' bs') (fun vs => Ok (signed 8 b :: vs))
  | _, _ => Raise StructError
  end.

Definition is_byte (b : Z) : bool := (0 <=? b) && (b <? 256).

(** [bytearray(l)] and [bytes(l)] of a list of ints: [ValueError] unless
    every element is in [range(256)]. *)
Definition bytearray (l : list Z) : result (list Z) :=
  if forallb is_byte l then Ok l else Raise ValueError.

(** [l[i]] *)
Definition index {A} (l : list A) (i : nat) : result A :=
  match nth_error l i with
  | Some a => Ok a
  | None => Raise IndexError
  end.

(** A Python [dict] with string keys, in insertion order; [getitem d k] is
    [d[k]]. *)
Definition dict (V : Type) : Type := list (string * V).

Fixpoint getitem {V} (d : dict V) (k : string) : option V :=
  match d with
  | [] => None
  | (k', v) :: d' => if String.eqb k' k then Some v else getitem d' k
  end.

(** ** The I2C controller

    [senlib.core.i2c] is outside the modelled sources; the driver only uses
    two operations of the controller object, taken here as an interface.
    [I2C] is the state of the controller together with the device behind it. *)

Class I2CController (I2C : Type) : Type := {
  read_i2c_block_data : Z -> Z -> Z -> M I2C (list Z);  (* addr, register, length *)
  write_byte_data : Z -> Z -> Z -> M I2C unit           (* addr, register, value *)
}.

(** ** The BME280 driver ([senlib/i2c/sensors/bmex.py]) *)

Module BME280.

Definition DRIVER_NAME : string := "bme280".
Definition ADDR : Z := 0x77.
Definition DEFAULT_ADDR : Z := ADDR.

Definition REG_TEMP : Z := 0xFA.
Definition REG_PRESS : Z := 0xF7.
Definition REG_HUM : Z := 0xFD.

Definition REG_CONFIG : Z := 0xF5.
Definition REG_CTRL_MEAS : Z := 0xF4.
Definition REG_CTRL_HUM : Z := 0xF2.

(** The calibration constants of one device. *)
Record CalibrationSet : Type := mkCal {
  dig_T1 : Z; dig_T2 : Z; dig_T3 : Z;
  dig_P1 : Z; dig_P2 : Z; dig_P3 : Z; dig_P4 : Z; dig_P5 : Z;
  dig_P6 : Z; dig_P7 : Z; dig_P8 : Z; dig_P9 : Z;
  dig_H1 : Z; dig_H2 : Z; dig_H3 : Z; dig_H4 : Z; dig_H5 : Z; dig_H6 : Z
}.

Definition cal_zero : CalibrationSet :=
  mkCal 0 0 0 0 0 0 0 0 0 0 0 0 0 0 0 0 0 0.

Section Driver.
Context {F : Type} `{PyFloat F}.
Context {I2C : Type} `{I2CController I2C}.

(** The attributes of a driver object.  [t_fine] holds [0.0] after
    construction and an [int] after every temperature compensation; both
    enter the formulas as the same float, so the attribute is an integer
    here. *)
Record self_t : Type := mkSelf {
  addr : Z;
  cal : CalibrationSet;
  t_fine : Z;
  _temperature : F;
  _humidity : F;
  _pressure : F;
  osrs_h : Z; osrs_t : Z; osrs_p : Z;
  power_mode : Z; filter : Z; t_sb : Z
}.

(** A method runs on the driver object and its controller. *)
Definition Method : Type -> Type := M (self_t * I2C).

Definition self : Method self_t := fun s => (Ok (fst s), s).
Definition assign (f : self_t -> self_t) : Method unit :=
  fun s => (Ok tt, (f (fst s), snd s)).
Definition i2c_ctrl {A} (m : M I2C A) : Method A :=
  fun s => let (r, c) := m (snd s) in (r, (fst s, c)).

Definition set_cal (c : CalibrationSet) (o : self_t) : self_t :=
  mkSelf (addr o) c (t_fine o) (_temperature o) (_humidity o) (_pressure o)
         (osrs_h o) (osrs_t o) (osrs_p o) (power_mode o) (filter o) (t_sb o).
Definition set_t_fine (v : Z) (o : self_t) : self_t :=
  mkSelf (addr o) (cal o) v (_temperature o) (_humidity o) (_pressure o)
         (osrs_h o) (osrs_t o) (osrs_p o) (power_mode o) (filter o) (t_sb o).
Definition set_temperature (v : F) (o : self_t) : self_t :=
  mkSelf (addr o) (cal o) (t_fine o) v (_humidity o) (_pressure o)
         (osrs_h o) (osrs_t o) (osrs_p o) (power_mode o) (filter o) (t_sb o).
Definition set_humidity (v : F) (o : self_t) : self_t :=
  mkSelf (addr o) (cal o) (t_fine o) (_temperature o) v (_pressure o)
         (osrs_h o) (osrs_t o) (osrs_p o) (power_mode o) (filter o) (t_sb o).
Definition set_pressure (v : F) (o : self_t) : self_t :=
  mkSelf (addr o) (cal o) (t_fine o) (_temperature o) (_humidity o) v
         (osrs_h o) (osrs_t o) (osrs_p o) (power_mode o) (filter o) (t_sb o).
Definition set_settings (h t p mode flt sb : Z) (o : self_t) : self_t :=
  mkSelf (addr o) (cal o) (t_fine o) (_temperature o) (_humidity o)
         (_pressure o) h t p mode flt sb.

(** The tuple assignment of the block at 0x88: twelve 16-bit words, one
    unused byte and [dig_H1]. *)
Definition set_cal_88 (t1 t2 t3 p1 p2 p3 p4 p5 p6 p7 p8 p9 h1 : Z)
           (c : CalibrationSet) : CalibrationSet :=
  mkCal t1 t2 t3 p1 p2 p3 p4 p5 p6 p7 p8 p9 h1
        (dig_H2 c) (dig_H3 c) (dig_H4 c) (dig_H5 c) (dig_H6 c).
Definition set_H2_H3 (h2 h3 : Z) (c : CalibrationSet) : CalibrationSet :=
  mkCal (dig_T1 c) (dig_T2 c) (dig_T3 c) (dig_P1 c) (dig_P2 c) (dig_P3 c)
        (dig_P4 c) (dig_P5 c) (dig_P6 c) (dig_P7 c) (dig_P8 c) (dig_P9 c)
        (dig_H1 c) h2 h3 (dig_H4 c) (dig_H5 c) (dig_H6 c).
Definition set_H4 (h4 : Z) (c : CalibrationSet) : CalibrationSet :=
  mkCal (dig_T1 c) (dig_T2 c) (dig_T3 c) (dig_P1 c) (dig_P2 c) (dig_P3 c)
        (dig_P4 c) (dig_P5 c) (dig_P6 c) (dig_P7 c) (dig_P8 c) (dig_P9 c)
        (dig_H1 c) (dig_H2 c) (dig_H3 c) h4 (dig_H5 c) (dig_H6 c).
Definition set_H5 (h5 : Z) (c : CalibrationSet) : CalibrationSet :=
  mkCal (dig_T1 c) (dig_T2 c) (dig_T3 c) (dig_P1 c) (dig_P2 c) (dig_P3 c)
        (dig_P4 c) (dig_P5 c) (dig_P6 c) (dig_P7 c) (dig_P8 c) (dig_P9 c)
        (dig_H1 c) (dig_H2 c) (dig_H3 c) (dig_H4 c) h5 (dig_H6 c).
Definition set_H6 (h6 : Z) (c : CalibrationSet) : CalibrationSet :=
  mkCal (dig_T1 c) (dig_T2 c) (dig_T3 c) (dig_P1 c) (dig_P2 c) (dig_P3 c)
        (dig_P4 c) (dig_P5 c) (dig_P6 c) (dig_P7 c) (dig_P8 c) (dig_P9 c)
        (dig_H1 c) (dig_H2 c) (dig_H3 c) (dig_H4 c) (dig_H5 c) h6.
Definition assign_cal (f : CalibrationSet -> CalibrationSet) : Method unit :=
  assign (fun o => set_cal (f (cal o)) o).

Local Open Scope py_scope.

Definition _set_meas : Method unit :=
  o <- self ;;
  let settings := 0 in
  let settings := Z.lor settings (Z.shiftl (osrs_t o) 5) in
  let settings := Z.lor settings (Z.shiftl (osrs_p o) 2) in
  let settings := Z.lor settings (power_mode o) in
  i2c_ctrl (write_byte_data (addr o) REG_CTRL_MEAS settings).

Definition _set_hum : Method unit :=
  o <- self ;;
  let settings := 0 in
  let settings := Z.lor settings (osrs_h o) in
  i2c_ctrl (write_byte_data (addr o) REG_CTRL_HUM settings).

Definition _set_meas_and_hum : Method unit :=
  _set_hum ;; _set_meas.

Definition _set_config : Method unit :=
  o <- self ;;
  let config := 0 in
  let config := Z.lor config (Z.shiftl (t_sb o) 5) in
  let config := Z.lor config (Z.shiftl (filter o) 2) in
  i2c_ctrl (write_byte_data (addr o) REG_CONFIG config).

(** [struct.unpack('<b', bytes([x]))[0]] *)
Definition unpack_b (x : Z) : result Z :=
  rbind (bytearray [x]) (fun bs =>
  rbind (unpack [fmt_b] bs) (fun t => index t 0)).

Definition _read_calibration_data : Method unit :=
  o <- self ;;
  dig_88_A1 <- i2c_ctrl (read_i2c_block_data (addr o) 0x88 26) ;;
  dig_88_A1 <- lift (rbind (bytearray dig_88_A1)
                 (unpack [fmt_H; fmt_h; fmt_h; fmt_H; fmt_h; fmt_h; fmt_h;
                          fmt_h; fmt_h; fmt_h; fmt_h; fmt_h; fmt_B; fmt_B])) ;;
  match dig_88_A1 with
  | [t1; t2; t3; p1; p2; p3; p4; p5; p6; p7; p8; p9; _; h1] =>
      assign_cal (set_cal_88 t1 t2 t3 p1 p2 p3 p4 p5 p6 p7 p8 p9 h1)
  | _ => raise ValueError
  end ;;
  dig_e1_e7 <- i2c_ctrl (read_i2c_block_data (addr o) 0xE1 7) ;;
  h23 <- lift (rbind (bytearray (firstn 3 dig_e1_e7))
                     (unpack [fmt_h; fmt_B])) ;;
  match h23 with
  | [h2; h3] => assign_cal (set_H2_H3 h2 h3)
  | _ => raise ValueError
  end ;;
  e4 <- lift (index dig_e1_e7 3) ;;
  e4_sign <- lift (unpack_b e4) ;;
  e5 <- lift (index dig_e1_e7 4) ;;
  assign_cal (set_H4 (Z.lor (Z.shiftl e4_sign 4) (Z.land e5 0xF))) ;;
  e6 <- lift (index dig_e1_e7 5) ;;
  e6_sign <- lift (unpack_b e6) ;;
  e5 <- lift (index dig_e1_e7 4) ;;
  assign_cal (set_H5 (Z.lor (Z.shiftl e6_sign 4) (Z.shiftr e5 4))) ;;
  e7 <- lift (index dig_e1_e7 6) ;;
  h6 <- lift (unpack_b e7) ;;
  assign_cal (set_H6 h6).

(** Tuple assignment from a list of exactly three, resp. two, items. *)
Definition unpack3 (l : list Z) : result (Z * Z * Z) :=
  match l with
  | [a; b; c] => Ok (a, b, c)
  | _ => Raise ValueError
  end.
Definition unpack2 (l : list Z) : result (Z * Z) :=
  match l with
  | [a; b] => Ok (a, b)
  | _ => Raise ValueError
  end.

Definition _read_raw_sensor_data : Method (Z * Z * Z) :=
  o <- self ;;
  p <- i2c_ctrl (read_i2c_block_data (addr o) REG_PRESS 3) ;;
  '(press_msb, press_lsb, press_xlsb) <- lift (unpack3 p) ;;
  t <- i2c_ctrl (read_i2c_block_data (addr o) REG_TEMP 3) ;;
  '(temp_msb, temp_lsb, temp_xlsb) <- lift (unpack3 t) ;;
  h <- i2c_ctrl (read_i2c_block_data (addr o) REG_HUM 2) ;;
  '(hum_msb, hum_lsb) <- lift (unpack2 h) ;;
  let adc_p := Z.lor (Z.lor (Z.shiftl press_msb 12) (Z.shiftl press_lsb 4))
                     (Z.shiftr press_xlsb 4) in
  let adc_t := Z.lor (Z.lor (Z.shiftl temp_msb 12) (Z.shiftl temp_lsb 4))
                     (Z.shiftr temp_xlsb 4) in
  let adc_h := Z.lor (Z.shiftl hum_msb 8) hum_lsb in
  ret (adc_p, adc_t, adc_h).

Definition _compensate_temperature (adc_t : Z) : Method F :=
  o <- self ;;
  UT <- lift (evalf (float_call (ival adc_t))) ;;
  var1 <- lift (evalf (($UT / #16384 - ival (dig_T1 (cal o)) / #1024)
                       * float_call (ival (dig_T2 (cal o))))) ;;
  var2 <- lift (evalf ((($UT / #131072 - ival (dig_T1 (cal o)) / #8192)
                        * ($UT / #131072 - ival (dig_T1 (cal o)) / #8192))
                       * float_call (ival (dig_T3 (cal o))))) ;;
  tf <- lift (rbind (evalf ($var1 + $var2)) int) ;;
  assign (set_t_fine tf) ;;
  temp <- lift (evalf (($var1 + $var2) / #5120)) ;;
  ret temp.

(** Lines 124-130 of [_compensate_pressure]: [var1] and [var2] as they stand
    at the test [var1 == 0]. *)
Definition pressure_vars : Method (F * F) :=
  o <- self ;;
  var1 <- lift (evalf (ival (t_fine o) / #2 - #64000)) ;;
  var2 <- lift (evalf ($var1 * $var1 * ival (dig_P6 (cal o)) / #32768)) ;;
  var2 <- lift (evalf ($var2 + $var1 * ival (dig_P5 (cal o)) * #2)) ;;
  var2 <- lift (evalf ($var2 / #4 + ival (dig_P4 (cal o)) * #65536)) ;;
  var1 <- lift (evalf ((ival (dig_P3 (cal o)) * $var1 * $var1 / #524288
                        + ival (dig_P2 (cal o)) * $var1) / #524288)) ;;
  var1 <- lift (evalf ((#1 + $var1 / #32768) * ival (dig_P1 (cal o)))) ;;
  ret (var1, var2).

Definition _compensate_pressure (adc_p : Z) : Method F :=
  '(var1, var2) <- pressure_vars ;;
  o <- self ;;
  if feqb var1 (float 0) then
    ret (float 0)
  else
    p <- lift (evalf (#1048576 - ival adc_p)) ;;
    p <- lift (evalf ((($p - $var2 / #4096) * #6250) / $var1)) ;;
    var1 <- lift (evalf (ival (dig_P9 (cal o)) * $p * $p / #2147483648)) ;;
    var2 <- lift (evalf ($p * ival (dig_P8 (cal o)) / #32768)) ;;
    p <- lift (evalf ($p + ($var1 + $var2 + ival (dig_P7 (cal o))) / #16)) ;;
    ret p.

(** Lines 141-145 of [_compensate_humidity]: [h] as the formula leaves it,
    before the range test. *)
Definition humidity_raw (adc_h : Z) : Method F :=
  o <- self ;;
  h <- lift (evalf (ival (t_fine o) - #76800)) ;;
  h <- lift (evalf
         ((ival adc_h - (ival (dig_H4 (cal o)) * #64
                         + ival (dig_H5 (cal o)) / #16384 * $h))
          * (ival (dig_H2 (cal o)) / #65536
             * (#1 + ival (dig_H6 (cal o)) / #67108864 * $h
                     * (#1 + ival (dig_H3 (cal o)) / #67108864 * $h))))) ;;
  h <- lift (evalf ($h * (#1 - ival (dig_H1 (cal o)) * $h / #524288))) ;;
  ret h.

Definition _compensate_humidity (adc_h : Z) : Method F :=
  h <- humidity_raw adc_h ;;
  let h := if fltb (float 100) h then float 100
           else if fltb h (float 0) then float 0
           else h in
  ret h.

Definition read_temperature : Method F :=
  '(adc_p, adc_t, adc_h) <- _read_raw_sensor_data ;;
  _compensate_temperature adc_t.

Definition read_pressure : Method F :=
  '(adc_p, adc_t, adc_h) <- _read_raw_sensor_data ;;
  _compensate_temperature adc_t ;;
  _compensate_pressure adc_p.

Definition read_humidity : Method F :=
  '(adc_p, adc_t, adc_h) <- _read_raw_sensor_data ;;
  _compensate_temperature adc_t ;;
  _compensate_humidity adc_h.

Definition measure : Method (dict F) :=
  '(adc_p, adc_t, adc_h) <- _read_raw_sensor_data ;;
  t <- _compensate_temperature adc_t ;;
  assign (set_temperature t) ;;
  p <- _compensate_pressure adc_p ;;
  assign (set_pressure p) ;;
  h <- _compensate_humidity adc_h ;;
  assign (set_humidity h) ;;
  o <- self ;;
  ret [("temperature"%string, _temperature o);
       ("humidity"%string, _humidity o);
       ("pressure"%string, _pressure o)].

Definition temperature : Method F := o <- self ;; ret (_temperature o).
Definition pressure : Method F := o <- self ;; ret (_pressure o).
Definition humidity : Method F := o <- self ;; ret (_humidity o).

(** The attributes as [__init__] first assigns them. *)
Definition blank (a : Z) : self_t :=
  mkSelf a cal_zero 0 (float 0) (float 0) (float 0) 0 0 0 0 0 0.

(** [BME280(i2c_ctrl, addr)]: the object under construction starts with the
    address bound by the base class; an exception aborts the construction. *)
Definition __init__ (a : Z) : Method unit :=
  assign (fun _ => blank a) ;;
  _read_calibration_data ;;
  assign (set_settings 1 1 1 3 0 5) ;;
  _set_meas_and_hum ;;
  _set_config.

Definition new (a : Z) (c : I2C) : result self_t * I2C :=
  match __init__ a (blank a, c) with
  | (Ok _, (o, c')) => (Ok o, c')
  | (Raise e, (_, c')) => (Raise e, c')
  end.

End Driver.

Arguments self_t : clear implicits.
Arguments Method : clear implicits.

End BME280.

(** ** The mock sensor ([senlib/mock.py]) *)

Module Mock.
Section Sensor.
Context {F : Type} `{PyFloat F}.

Definition DRIVER_NAME : string := "mock-sensor".

(** The literals 28.5 and 25.2 are the correctly rounded quotients 285/10
    and 252/10. *)
Definition measure_data : dict F :=
  [("temperature"%string, fdiv (float 285) (float 10));
   ("humidity"%string, fdiv (float 252) (float 10))].

(** The sensor object has no attributes. *)
Definition measure : M unit (dict F) :=
  ret measure_data.

End Sensor.

Arguments measure_data F {_}.

End Mock.

(** A decimal float literal [n/d], [d] a power of ten: Python reads it as
    the float nearest to the quotient, which is also what the correctly
    rounded division of the two integers returns. *)
Definition decimal {F : Type} `{PyFloat F} (n d : Z) : F :=
  fdiv (float n) (float d).

(** ** The SMBus and the clock

    The SI7021 driver talks to the bus object it was constructed with
    ([self._bus], bound by the base class of [senlib.core.i2c], which is
    outside the modelled sources) byte by byte, and waits for the
    conversions with [time.sleep].  [W] is the world the driver runs in:
    the bus with the device behind it, and the time that passes. *)

Class SMBus (W : Type) : Type := {
  write_byte : Z -> Z -> M W unit;   (* addr, value *)
  read_byte : Z -> M W Z             (* addr *)
}.

Class Clock (W F : Type) : Type := {
  sleep : F -> M W unit              (* time.sleep(secs) *)
}.

(** ** The SI7021 driver ([senlib/i2c/sensors/six.py])

    The calls to [logger.debug] are left out. *)

Module SI7021.

Definition DRIVER_NAME : string := "si7021".
Definition ADDR : Z := 0x40.
Definition DEFAULT_ADDR : Z := ADDR.

Definition CMD_MEASURE_HUM : Z := 0xF5.
Definition CMD_MEASURE_TEMP : Z := 0xF3.
Definition CMD_LAST_TEMP : Z := 0xE0.

Section Driver.
Context {F : Type} `{PyFloat F}.
Context {W : Type} `{SMBus W} `{Clock W F}.

Record self_t : Type := mkSelf {
  addr : Z;
  _temperature : F;
  _humidity : F
}.

Definition Method : Type -> Type := M (self_t * W).

Definition self : Method self_t := fun s => (Ok (fst s), s).
Definition assign (f : self_t -> self_t) : Method unit :=
  fun s => (Ok tt, (f (fst s), snd s)).
(** A call on [self._bus] or on the [time] module. *)
Definition world {A} (m : M W A) : Method A :=
  fun s => let (r, w) := m (snd s) in (r, (fst s, w)).

Definition set_temperature (v : F) (o : self_t) : self_t :=
  mkSelf (addr o) v (_humidity o).
Definition set_humidity (v : F) (o : self_t) : self_t :=
  mkSelf (addr o) (_temperature o) v.

Local Open Scope py_scope.

Definition read_temperature : Method F :=
  o <- self ;;
  world (write_byte (addr o) CMD_MEASURE_TEMP) ;;
  world (sleep (decimal 5 100)) ;;
  msb <- world (read_byte (addr o)) ;;
  lsb <- world (read_byte (addr o)) ;;
  let data := Z.lor (Z.shiftl msb 8) lsb in
  temp <- lift (evalf (($(decimal 17572 100) * ival data) / #65536
                       - $(decimal 4685 100))) ;;
  ret temp.

Definition read_humidity : Method F :=
  o <- self ;;
  world (write_byte (addr o) CMD_MEASURE_HUM) ;;
  world (sleep (decimal 5 100)) ;;
  msb <- world (read_byte (addr o)) ;;
  lsb <- world (read_byte (addr o)) ;;
  let data := Z.lor (Z.shiftl msb 8) lsb in
  hum <- lift (evalf (ival (125 * data) / #65536 - ival 6)) ;;
  ret hum.

Definition measure : Method (dict F) :=
  h <- read_humidity ;;
  assign (set_humidity h) ;;
  world (sleep (decimal 1 100)) ;;
  t <- read_temperature ;;
  assign (set_temperature t) ;;
  o <- self ;;
  ret [("temperature"%string, _temperature o);
       ("humidity"%string, _humidity o)].

Definition temperature : Method F := o <- self ;; ret (_temperature o).
Definition humidity : Method F := o <- self ;; ret (_humidity o).

(** [SI7021(bus, addr)]: the base class binds the bus and the address; no
    byte goes over the bus. *)
Definition new (a : Z) : self_t := mkSelf a (float 0) (float 0).

End Driver.

Arguments self_t : clear implicits.
Arguments Method : clear implicits.

End SI7021.

(** ** asyncio's event loop

    The part of the loop the application drives: [call_soon], [call_later],
    [stop] and [run_forever].  A handle is a callback with its arguments; the
    only callback this program ever hands to the loop is the closure
    [callback] of [Application._start], so a handle is its argument [num]. *)

Module asyncio.

Record loop_t : Type := mkLoop {
  _ready : list Z;            (* handles to run on the next iteration *)
  _scheduled : list (Q * Z);  (* timer handles, ordered by due time *)
  _stopping : bool;
  time : Q;
  _reported : list exn        (* passed to the loop's exception handler *)
}.

Definition new_event_loop : loop_t := mkLoop [] [] false 0 [].

Definition call_soon (h : Z) (l : loop_t) : loop_t :=
  mkLoop (_ready l ++ [h]) (_scheduled l) (_stopping l) (time l) (_reported l).

Fixpoint push (t : Q * Z) (ts : list (Q * Z)) : list (Q * Z) :=
  match ts with
  | [] => [t]
  | t' :: ts' => if Qle_bool (fst t') (fst t) then t' :: push t ts'
                 else t :: ts
  end.

Definition call_later (delay : Q) (h : Z) (l : loop_t) : loop_t :=
  mkLoop (_ready l) (push (time l + delay, h)%Q (_scheduled l)) (_stopping l)
         (time l) (_reported l).

Definition stop (l : loop_t) : loop_t :=
  mkLoop (_ready l) (_scheduled l) true (time l) (_reported l).

(** [run_forever] clears the flag on its way out. *)
Definition clear_stopping (l : loop_t) : loop_t :=
  mkLoop (_ready l) (_scheduled l) false (time l) (_reported l).

Definition call_exception_handler (e : exn) (l : loop_t) : loop_t :=
  mkLoop (_ready l) (_scheduled l) (_stopping l) (time l) (_reported l ++ [e]).

(** With nothing ready, nothing scheduled and no stop requested, the loop
    sleeps in its selector without a timeout. *)
Definition sleeps_forever (l : loop_t) : bool :=
  match _ready l, _scheduled l with
  | [], [] => negb (_stopping l)
  | _, _ => false
  end.

(** The first half of [_run_once]: sleep until the earliest timer is due when
    there is nothing else to do, then move the due timers to the ready
    queue.  Returns the handles to run in this iteration and the loop with
    its ready queue emptied. *)
Definition wake (l : loop_t) : list Z * loop_t :=
  let now :=
    match _ready l, _scheduled l with
    | [], (when, _) :: _ =>
        if _stopping l then time l
        else if Qle_bool when (time l) then time l else when
    | _, _ => time l
    end in
  let due := filter (fun t => Qle_bool (fst t) now) (_scheduled l) in
  let later := filter (fun t => negb (Qle_bool (fst t) now)) (_scheduled l) in
  (_ready l ++ map snd due, mkLoop [] later (_stopping l) now (_reported l)).

End asyncio.

(** ** The application ([senlib/cli.py]) *)

(** What the application needs of its sensor object: [measure()]. *)
Class Sensor (S D : Type) : Type := {
  sensor_measure : M S D
}.

(** The method subclasses override: [_handle_data(data)].  [K] stands for
    the attributes the subclass adds and whatever the method acts on. *)
Class Handler (K D : Type) : Type := {
  _handle_data : D -> M K unit
}.

Module Application.

(** The parsed arguments the loop reads.  [poll] is [None] when [-p] is
    given without a value. *)
Record args_t : Type := mkArgs {
  poll : option Z;
  interval : Q
}.

(** Calls made by the scheduler callback, in order, with their outcome. *)
Inductive event (D : Type) : Type :=
| Measure (r : result D)
| HandleData (data : D) (r : result unit).
Arguments Measure {D} r.
Arguments HandleData {D} data r.

Definition is_Measure {D} (e : event D) : bool :=
  match e with Measure _ => true | HandleData _ _ => false end.
Definition is_HandleData {D} (e : event D) : bool :=
  match e with Measure _ => false | HandleData _ _ => true end.

Section App.
Context {S K D : Type} `{Sensor S D} `{Handler K D}.

Record app_t : Type := mkApp {
  _args : args_t;
  _sensor : S;
  _this : K;
  _loop : asyncio.loop_t;
  journal : list (event D)    (* calls made so far; not an attribute *)
}.

Definition on_loop (f : asyncio.loop_t -> asyncio.loop_t) : M app_t unit :=
  modify (fun a => mkApp (_args a) (_sensor a) (_this a) (f (_loop a))
                         (journal a)).

(** [self._sensor.measure()] *)
Definition measure : M app_t D :=
  fun a => let (r, s) := sensor_measure (_sensor a) in
           (r, mkApp (_args a) s (_this a) (_loop a)
                     (journal a ++ [Measure r])).

(** [self._handle_data(data)] *)
Definition handle_data (data : D) : M app_t unit :=
  fun a => let (r, k) := _handle_data data (_this a) in
           (r, mkApp (_args a) (_sensor a) k (_loop a)
                     (journal a ++ [HandleData data r])).

(** [num != self._args.poll] *)
Definition ne_poll (num : Z) (p : option Z) : bool :=
  match p with
  | Some n => negb (num =? n)
  | None => true
  end.

Local Open Scope py_scope.

(** The closure [callback] of [_start]. *)
Definition callback (num : Z) : M app_t unit :=
  sensor_data <- measure ;;
  handle_data sensor_data ;;
  a <- get ;;
  if ne_poll num (poll (_args a)) then
    on_loop (asyncio.call_later (interval (_args a)) (num + 1))
  else
    on_loop asyncio.stop.

Definition _start : M app_t unit :=
  on_loop (asyncio.call_soon 1).

(** Running a handle: an exception that leaves the callback is caught by
    the loop and passed to its exception handler. *)
Definition _run (num : Z) (a : app_t) : app_t :=
  match callback num a with
  | (Ok _, a') => a'
  | (Raise e, a') => snd (on_loop (asyncio.call_exception_handler e) a')
  end.

(** One iteration of the loop. *)
Definition _run_once (a : app_t) : app_t :=
  let (todo, l) := asyncio.wake (_loop a) in
  fold_left (fun a' h => _run h a') todo (snd (on_loop (fun _ => l) a)).

(** How [run_forever] ends within a given number of iterations. *)
Inductive status : Type :=
| Stopped      (* [stop()] was called: [run_forever] returned *)
| Asleep       (* nothing left to run: the loop sleeps for ever *)
| Running.     (* still iterating *)

Fixpoint run_forever (fuel : nat) (a : app_t) : status * app_t :=
  match fuel with
  | O => (Running, a)
  | Datatypes.S fuel' =>
      if asyncio.sleeps_forever (_loop a) then (Asleep, a)
      else
        let a' := _run_once a in
        if asyncio._stopping (_loop a')
        then (Stopped, snd (on_loop asyncio.clear_stopping a'))
        else run_forever fuel' a'
  end.

(** [run()], with the hooks [_before_start] and [_after_stop] left out. *)
Definition run (fuel : nat) (a : app_t) : status * app_t :=
  run_forever fuel (snd (_start a)).

(** The application object once [__init__] has bound its sensor. *)
Definition init (args : args_t) (s : S) (k : K) : app_t :=
  mkApp args s k asyncio.new_event_loop [].

End App.

Arguments app_t : clear implicits.

End Application.

(** [Application._handle_data]: [pass]. *)
Definition Application_handle_data {D} : Handler unit D :=
  {| _handle_data := fun _ => ret tt |}.

(** ** [SensorNode]: fan-out to the web server and the MQTT publisher

    [senlib.web] and [senlib.mqtt] are outside the modelled sources; the
    node only calls [broadcast] and [publish] on them. *)

Class WebServer (WS D : Type) : Type := {
  broadcast : D -> M WS unit
}.

Class Publisher (PUB D : Type) : Type := {
  publish : D -> M PUB unit
}.

Module SensorNode.
Section Node.
Context {WS PUB D : Type} `{WebServer WS D} `{Publisher PUB D}.

(** [_publisher] stays [None] unless an MQTT address is configured. *)
Record node_t : Type := mkNode {
  _webserver : option WS;
  _publisher : option PUB
}.

Definition webserver_broadcast (data : D) : M node_t unit :=
  fun n => match _webserver n with
           | Some ws => let (r, ws') := broadcast data ws in
                        (r, mkNode (Some ws') (_publisher n))
           | None => (Ok tt, n)
           end.

Definition publisher_publish (data : D) : M node_t unit :=
  fun n => match _publisher n with
           | Some pb => let (r, pb') := publish data pb in
                        (r, mkNode (_webserver n) (Some pb'))
           | None => (Ok tt, n)
           end.

Local Open Scope py_scope.

Definition handle_data (data : D) : M node_t unit :=
  webserver_broadcast data ;;
  publisher_publish data.

#[export] Instance Handler_SensorNode : Handler node_t D :=
  Build_Handler handle_data.

End Node.

Arguments node_t : clear implicits.

End SensorNode.

(** ** [SenlibCLI]: printing a measurement ([senlib/cli.py]) *)

(** The escape [\n] of a Python string. *)
Definition newline : string := String (Ascii.ascii_of_nat 10) EmptyString.

(** [d[k] = v] on a dict: the value of an existing key is replaced where
    it stands, a new key goes to the end. *)
Fixpoint setitem {V : Type} (d : dict V) (k : string) (v : V) : dict V :=
  match d with
  | [] => [(k, v)]
  | (k', v') :: d' =>
      if String.eqb k' k then (k', v) :: d' else (k', v') :: setitem d' k v
  end.

(** [sorted(d.items())]: the items in ascending order of their keys, which
    Python compares code point by code point.  The keys of a dict are
    distinct, so the comparison of two items never reaches their values. *)
Fixpoint insert_item {V : Type} (kv : string * V) (l : list (string * V))
  : list (string * V) :=
  match l with
  | [] => [kv]
  | kv' :: l' =>
      if String.ltb (fst kv) (fst kv') then kv :: l
      else kv' :: insert_item kv l'
  end.

Definition sorted_items {V : Type} (d : dict V) : list (string * V) :=
  fold_right insert_item [] d.

(** What Python's strings contribute: ['{}'.format(v)] of a measured value
    and [str.lower]. *)
Class PyStr (V : Type) : Type := {
  format_value : V -> string;
  lower : string -> string
}.

(** The [OrderedDict] that [_generate_output] fills. *)
Record document (V : Type) : Type := mkDocument {
  doc_name : string;
  doc_timestamp : string;
  doc_measurements : dict V
}.

(** [dicttoxml] returns [bytes], the other renderers [str]; [print] shows
    the two differently. *)
Inductive printable : Type :=
| Str (s : string)
| Bytes (b : string).

(** The serializers [json.dumps], [dicttoxml] and [minidom], which are
    outside the modelled sources. *)
Class Serializers (V : Type) : Type := {
  json_dumps : document V -> option Z -> result string;   (* data, indent *)
  dicttoxml : document V -> result string;
  toprettyxml : string -> result string   (* parseString(xml).toprettyxml() *)
}.

(** The terminal and the clock: [print(out)] and [str(datetime.now())]. *)
Class Console (W : Type) : Type := {
  print : printable -> M W unit;
  datetime_now : M W string
}.

Module SenlibCLI.

(** The parsed arguments the output depends on. *)
Record args_t : Type := mkArgs {
  sensor : string;
  format : string;
  pretty_print : bool;
  output : option string
}.

Section Output.
Context {V : Type} `{PyStr V} `{Serializers V}.
Context {W : Type} `{Console W}.

Local Open Scope py_scope.
Local Open Scope string_scope.

Definition _generate_json (args : args_t) (data : document V)
  : result printable :=
  let indent := if pretty_print args then Some 4%Z else None in
  rbind (json_dumps data indent) (fun json_data => Ok (Str json_data)).

Definition _generate_xml (args : args_t) (data : document V)
  : result printable :=
  rbind (dicttoxml data) (fun xml =>
    if pretty_print args
    then rbind (toprettyxml xml) (fun s => Ok (Str s))
    else Ok (Bytes xml)).

Definition _generate_text (args : args_t) (data : document V)
  : result printable :=
  let out := "timestamp: " ++ doc_timestamp data ++ newline in
  let out :=
    fold_left (fun out kv =>
                 out ++ (fst kv ++ ": " ++ format_value (snd kv)
                         ++ newline))
              (doc_measurements data) out in
  Ok (Str out).

(** The parameter [sensor], here [sensor_], is not used. *)
Definition _generate_output {S : Type} (args : args_t) (sensor_ : S)
    (sensor_data : dict V) : M W unit :=
  let name := lower (sensor args) in
  timestamp <- datetime_now ;;
  let measurements :=
    fold_left (fun m kv => setitem m (fst kv) (snd kv))
              (sorted_items sensor_data) [] in
  let data := mkDocument name timestamp measurements in
  out <- lift (if String.eqb (format args) "json"
               then _generate_json args data
               else if String.eqb (format args) "xml"
               then _generate_xml args data
               else _generate_text args data) ;;
  print out.

(** [self._args] and [self._sensor] are the first two arguments. *)
Definition _handle_data {S : Type} (args : args_t) (sensor_ : S)
    (data : dict V) : M W unit :=
  _generate_output args sensor_ data.

End Output.

End SenlibCLI.

(** ** The sensors as the application sees them *)

#[export] Instance Sensor_BME280 {F I2C} `{PyFloat F} `{I2CController I2C} :
  Sensor (BME280.self_t F * I2C) (dict F) :=
  Build_Sensor BME280.measure.

#[export] Instance Sensor_Mock {F} `{PyFloat F} : Sensor unit (dict F) :=
  Build_Sensor Mock.measure.

#[export] Instance Sensor_SI7021 {F W} `{PyFloat F} `{SMBus W} `{Clock W F} :
  Sensor (SI7021.self_t F * W) (dict F) :=
  Build_Sensor SI7021.measure.

(** ** Devices, sensors and sinks to run the model on *)

Module Bench.

(** A device as a register file, behind a controller that always answers:
    register blocks given by their first address. *)
Definition regs_t : Type := list (Z * list Z).

Fixpoint peek (d : regs_t) (reg : Z) : Z :=
  match d with
  | [] => 0
  | (base, bytes) :: d' =>
      if (base <=? reg) && (reg <? base + Z.of_nat (List.length bytes))
      then nth (Z.to_nat (reg - base)) bytes 0
      else peek d' reg
  end.

Fixpoint block (d : regs_t) (reg : Z) (n : nat) : list Z :=
  match n with
  | O => []
  | Datatypes.S n' => peek d reg :: block d (reg + 1) n'
  end.

#[export] Instance I2C_regs : I2CController regs_t := {
  read_i2c_block_data := fun _ reg len d => (Ok (block d reg (Z.to_nat len)), d);
  write_byte_data := fun _ reg v d => (Ok tt, (reg, [v]) :: d)
}.

(** A controller with no device answering. *)
Inductive dead_t : Type := dead.

#[export] Instance I2C_dead : I2CController dead_t := {
  read_i2c_block_data := fun _ _ _ => raise OSError;
  write_byte_data := fun _ _ _ => raise OSError
}.

(** Calibration T1 = 27504, T2 = 26435, T3 = -1000, P1 = 36477,
    P2 = -10685, P3 = 3024, P4 = 2855, P5 = 140, P6 = -7, P7 = 15500,
    P8 = -14600, P9 = 6000, H1 = 75, H2 = 363, H3 = 0, H4 = 315, H5 = 50,
    H6 = 30; sample adc_p = 415148, adc_t = 519888, adc_h = 30000. *)
Definition bme280_device : regs_t :=
  [ (0x88, [112; 107; 67; 103; 24; 252; 125; 142; 67; 214; 208; 11; 39; 11;
            140; 0; 249; 255; 140; 60; 248; 198; 112; 23; 0; 75]);
    (0xE1, [107; 1; 0; 19; 43; 3; 30]);
    (0xF7, [101; 90; 192; 126; 237; 0; 117; 48]) ].

Definition bme280_cal : BME280.CalibrationSet :=
  BME280.mkCal 27504 26435 (-1000)
               36477 (-10685) 3024 2855 140 (-7) 15500 (-14600) 6000
               75 363 0 315 50 30.

(** The driver object [BME280(i2c_ctrl, 0x77)] makes of that device. *)
Definition bme280_object (F : Type) `{PyFloat F} : BME280.self_t F :=
  BME280.set_settings 1 1 1 3 0 5
    (BME280.set_cal bme280_cal (BME280.blank 0x77)).
Arguments bme280_object F {_}.

(** The same object after [dig_P6] has been given an int that no float
    can hold. *)
Definition oversized_object (F : Type) `{PyFloat F} : BME280.self_t F :=
  BME280.set_settings 1 1 1 3 0 5
    (BME280.set_cal
       (BME280.mkCal 27504 26435 (-1000)
                     36477 (-10685) 3024 2855 140 (2 ^ 1024) 15500 (-14600)
                     6000 75 363 0 315 50 30)
       (BME280.blank 0x77)).
Arguments oversized_object F {_}.

(** The same device with every signed 16-bit word at its extremes:
    T2 = P2 = ... = -1 in the first block; the second device carries
    [0x00, 0x80] instead. *)
Definition ones_device : regs_t :=
  [ (0x88, [112; 107; 255; 255; 255; 255; 125; 142; 255; 255; 255; 255;
            255; 255; 255; 255; 255; 255; 255; 255; 255; 255; 255; 255;
            0; 75]);
    (0xE1, [255; 255; 0; 19; 43; 3; 30]);
    (0xF7, [101; 90; 192; 126; 237; 0; 117; 48]) ].

Definition min_device : regs_t :=
  [ (0x88, [112; 107; 0; 128; 0; 128; 125; 142; 0; 128; 0; 128; 0; 128;
            0; 128; 0; 128; 0; 128; 0; 128; 0; 128; 0; 75]);
    (0xE1, [0; 128; 0; 19; 43; 3; 30]);
    (0xF7, [101; 90; 192; 126; 237; 0; 117; 48]) ].

(** A device whose calibration registers read zero: [dig_P1 = 0]. *)
Definition zero_device : regs_t :=
  [ (0xF7, [101; 90; 192; 126; 237; 0; 117; 48]) ].

(** A sensor whose second measurement fails on the bus; the state counts
    the calls made. *)
Definition flaky_measure : M nat (dict Q) :=
  fun n => (if Nat.eqb n 1 then Raise OSError
            else Ok [("temperature"%string, Qmake 57 2)], Datatypes.S n).

(** A sink that keeps what it receives, and one that always fails. *)
Definition record {D} (data : D) : M (list D) unit :=
  modify (fun l => l ++ [data]).

Inductive broken_t : Type := broken.

Definition fail {D} (_ : D) : M broken_t unit :=
  raise (Exception "ConnectionError").

#[export] Instance Sensor_flaky : Sensor nat (dict Q) :=
  Build_Sensor flaky_measure.

#[export] Instance Handler_record {D} : Handler (list D) D :=
  Build_Handler record.

#[export] Instance WebServer_record {D} : WebServer (list D) D :=
  Build_WebServer record.

#[export] Instance WebServer_broken {D} : WebServer broken_t D :=
  Build_WebServer fail.

#[export] Instance Publisher_record {D} : Publisher (list D) D :=
  Build_Publisher record.

#[export] Instance Publisher_broken {D} : Publisher broken_t D :=
  Build_Publisher fail.

End Bench.

(** A controller whose answers can be cut short: each read returns at most
    the number of bytes next in [limits], and all of them once the list is
    used up. *)
Module Faults.

Record clipped_t : Type := mkClipped {
  limits : list nat;
  regs : Bench.regs_t
}.

Definition clipped_read (reg len : Z) : M clipped_t (list Z) :=
  fun d =>
    let answer := Bench.block (regs d) reg (Z.to_nat len) in
    match limits d with
    | [] => (Ok answer, d)
    | n :: rest => (Ok (firstn n answer), mkClipped rest (regs d))
    end.

#[export] Instance I2C_clipped : I2CController clipped_t := {
  read_i2c_block_data := fun _ reg len => clipped_read reg len;
  write_byte_data := fun _ reg v d =>
    (Ok tt, mkClipped (limits d) ((reg, [v]) :: regs d))
}.

(** A device that answers every read with [0xFF]. *)
Definition saturated_device : Bench.regs_t :=
  [ (0x88, repeat 255 26); (0xE1, repeat 255 7); (0xF7, repeat 255 8) ].

End Faults.

(** An SI7021 on its bus.  A measurement command latches the 16-bit code
    of the quantity asked for; the two bytes are then read most significant
    first.  A read with nothing latched is not acknowledged.  [budget] is
    the number of bus transfers the device still answers: a device that
    drops off the bus has run out of it. *)
Module Breadboard.

Inductive io (F : Type) : Type :=
| Wrote (addr value : Z)
| Read (addr : Z)
| Slept (secs : F).
Arguments Wrote {F} addr value.
Arguments Read {F} addr.
Arguments Slept {F} secs.

Record si7021_t (F : Type) : Type := mkDevice {
  rh_code : Z;
  temp_code : Z;
  latched : list Z;
  budget : nat;
  trace : list (io F)
}.
Arguments mkDevice {F}.

Section Device.
Context {F : Type}.

Definition transfer (e : io F) (latch : list Z) (d : si7021_t F) : si7021_t F :=
  mkDevice (rh_code d) (temp_code d) latch (Nat.pred (budget d))
           (trace d ++ [e]).

Definition bytes_of (code : Z) : list Z :=
  [Z.shiftr code 8; Z.land code 0xFF].

Definition device_write (a v : Z) : M (si7021_t F) unit :=
  fun d =>
    match budget d with
    | O => (Raise OSError, d)
    | Datatypes.S _ =>
        let latch := if v =? 0xF5 then bytes_of (rh_code d)
                     else if v =? 0xF3 then bytes_of (temp_code d)
                     else latched d in
        (Ok tt, transfer (Wrote a v) latch d)
    end.

Definition device_read (a : Z) : M (si7021_t F) Z :=
  fun d =>
    match budget d, latched d with
    | Datatypes.S _, b :: rest => (Ok b, transfer (Read a) rest d)
    | _, _ => (Raise OSError, d)
    end.

Definition device_sleep (secs : F) : M (si7021_t F) unit :=
  fun d => (Ok tt, mkDevice (rh_code d) (temp_code d) (latched d) (budget d)
                            (trace d ++ [Slept secs])).

#[export] Instance SMBus_si7021 : SMBus (si7021_t F) :=
  Build_SMBus device_write device_read.

#[export] Instance Clock_si7021 : Clock (si7021_t F) F :=
  Build_Clock device_sleep.

End Device.

(** Codes for 45.0 %RH and about 23.9 degrees. *)
Definition si7021_device (F : Type) : si7021_t F :=
  mkDevice 26739 26376 [] 100 [].

End Breadboard.

(** A terminal that keeps what is printed, with a clock that has stopped;
    values that are their own text; no serializer installed. *)
Module Desk.

Record console_t : Type := mkConsole {
  clock : string;
  printed : list printable
}.

#[export] Instance Console_desk : Console console_t := {
  print := fun p w => (Ok tt, mkConsole (clock w) (printed w ++ [p]));
  datetime_now := fun w => (Ok (clock w), w)
}.

#[export] Instance PyStr_string : PyStr string := {
  format_value := fun s => s;
  lower := fun s => s
}.

#[export] Instance Serializers_none : Serializers string := {
  json_dumps := fun _ _ => Raise (Exception "ImportError");
  dicttoxml := fun _ => Raise (Exception "ImportError");
  toprettyxml := fun _ => Raise (Exception "ImportError")
}.

End Desk.

(** ** Vocabulary of the properties *)

(** The register map of the data sheet, read off two blocks: the constants
    the decoder is expected to produce from the block at 0x88 and the block
    at 0xE1. *)
Definition register_map (b88 bE1 : list Z) : BME280.CalibrationSet :=
  let b i := nth i b88 0 in
  let e i := nth i bE1 0 in
  BME280.mkCal
    (le16 (b 0%nat) (b 1%nat))
    (signed 16 (le16 (b 2%nat) (b 3%nat)))
    (signed 16 (le16 (b 4%nat) (b 5%nat)))
    (le16 (b 6%nat) (b 7%nat))
    (signed 16 (le16 (b 8%nat) (b 9%nat)))
    (signed 16 (le16 (b 10%nat) (b 11%nat)))
    (signed 16 (le16 (b 12%nat) (b 13%nat)))
    (signed 16 (le16 (b 14%nat) (b 15%nat)))
    (signed 16 (le16 (b 16%nat) (b 17%nat)))
    (signed 16 (le16 (b 18%nat) (b 19%nat)))
    (signed 16 (le16 (b 20%nat) (b 21%nat)))
    (signed 16 (le16 (b 22%nat) (b 23%nat)))
    (b 25%nat)
    (signed 16 (le16 (e 0%nat) (e 1%nat)))
    (e 2%nat)
    (Z.lor (Z.shiftl (signed 8 (e 3%nat)) 4) (Z.land (e 4%nat) 0xF))
    (Z.lor (Z.shiftl (signed 8 (e 5%nat)) 4) (Z.shiftr (e 4%nat) 4))
    (signed 8 (e 6%nat)).

(** The signed 16-bit calibration fields, the register of their low byte
    and their place in a calibration set. *)
Inductive s16_field : Type :=
| T2 | T3 | P2 | P3 | P4 | P5 | P6 | P7 | P8 | P9 | H2.

Definition s16_register (f : s16_field) : Z :=
  match f with
  | T2 => 0x8A | T3 => 0x8C
  | P2 => 0x90 | P3 => 0x92 | P4 => 0x94 | P5 => 0x96
  | P6 => 0x98 | P7 => 0x9A | P8 => 0x9C | P9 => 0x9E
  | H2 => 0xE1
  end.

Definition s16_value (f : s16_field) (c : BME280.CalibrationSet) : Z :=
  match f with
  | T2 => BME280.dig_T2 c | T3 => BME280.dig_T3 c
  | P2 => BME280.dig_P2 c | P3 => BME280.dig_P3 c
  | P4 => BME280.dig_P4 c | P5 => BME280.dig_P5 c
  | P6 => BME280.dig_P6 c | P7 => BME280.dig_P7 c
  | P8 => BME280.dig_P8 c | P9 => BME280.dig_P9 c
  | H2 => BME280.dig_H2 c
  end.

(** The byte pair (low, high) of a field in the blocks read at 0x88 and at
    0xE1. *)
Definition s16_bytes (f : s16_field) (b88 bE1 : list Z) : list Z :=
  let r := s16_register f in
  if r <? 0xE1 then firstn 2 (skipn (Z.to_nat (r - 0x88)) b88)
  else firstn 2 (skipn (Z.to_nat (r - 0xE1)) bE1).

(** The float literals the driver divides by. *)
Definition divisors : list Z :=
  [16384; 1024; 131072; 8192; 5120; 2; 32768; 4; 524288; 4096; 2147483648;
   16; 65536; 67108864].

(** An arithmetic in which none of them compares equal to zero. *)
Definition divisors_nonzero (F : Type) `{PyFloat F} : Prop :=
  Forall (fun n => feqb (float n) (float 0) = false) divisors.
Arguments divisors_nonzero F {_}.

(** The ints a method converts to floats are all small enough for the
    conversion: the stored [t_fine], the raw sample and the constants that
    enter the formula of the pressure, of the humidity and of the
    temperature. *)
Definition converts (F : Type) `{PyFloat F} (ns : list Z) : Prop :=
  Forall (fun n => overflows n = false) ns.
Arguments converts F {_} ns.

Definition pressure_operands {F} (o : BME280.self_t F) (adc_p : Z) : list Z :=
  let c := BME280.cal o in
  [BME280.t_fine o; adc_p;
   BME280.dig_P1 c; BME280.dig_P2 c; BME280.dig_P3 c; BME280.dig_P4 c;
   BME280.dig_P5 c; BME280.dig_P6 c; BME280.dig_P7 c; BME280.dig_P8 c;
   BME280.dig_P9 c].

Definition humidity_operands {F} (o : BME280.self_t F) (adc_h : Z) : list Z :=
  let c := BME280.cal o in
  [BME280.t_fine o; adc_h;
   BME280.dig_H1 c; BME280.dig_H2 c; BME280.dig_H3 c; BME280.dig_H4 c;
   BME280.dig_H5 c; BME280.dig_H6 c].

Definition temperature_operands {F} (o : BME280.self_t F) (adc_t : Z)
  : list Z :=
  let c := BME280.cal o in
  [adc_t; BME280.dig_T1 c; BME280.dig_T2 c; BME280.dig_T3 c].

(** A method that leaves the stored [t_fine] as it found it, whatever its
    outcome. *)
Definition keeps_t_fine {F I2C A} (m : M (BME280.self_t F * I2C) A) : Prop :=
  forall s, BME280.t_fine (fst (snd (m s))) = BME280.t_fine (fst s).

(** The loop is about to run [callback num] and nothing else: the handle
    sits in the ready queue, or it is the only timer. *)
Definition pending (num : Z) (l : asyncio.loop_t) : Prop :=
  asyncio._stopping l = false /\
  ((asyncio._ready l = [num] /\ asyncio._scheduled l = []) \/
   (asyncio._ready l = [] /\ exists w, asyncio._scheduled l = [(w, num)])).

(** The journal of the cycles that delivered the measurements [ds]. *)
Definition delivered {D} (ds : list D) : list (Application.event D) :=
  flat_map (fun d => [Application.Measure (Ok d);
                      Application.HandleData d (Ok tt)]) ds.

(** Magnitudes in binary64.  [fits m e k]: the mantissa [m] at exponent [e]
    stands for a value below [2^k].  [sf_bounded k x]: [x] is a zero or a
    finite float below [2^k] in absolute value; [finite64 k] is the same of
    a primitive float. *)
Definition fits (m e k : Z) : Prop := 0 <= m /\ Zdigits2 m + e <= k.

Definition sf_bounded (k : Z) (x : spec_float) : Prop :=
  match x with
  | S754_zero _ => True
  | S754_finite _ m e => Zpos (digits2_pos m) + e <= k
  | _ => False
  end.

Definition finite64 (k : Z) (x : PrimFloat.float) : Prop :=
  sf_bounded k (Prim2SF x).

(** The humidity constants within the widths of their registers: dig_H1,
    dig_H3 one byte, dig_H2 sixteen bits, dig_H4 and dig_H5 twelve bits,
    dig_H6 one byte. *)
Definition humidity_range (c : BME280.CalibrationSet) : Prop :=
  Z.abs (BME280.dig_H1 c) < 2 ^ 8 /\ Z.abs (BME280.dig_H2 c) < 2 ^ 16 /\
  Z.abs (BME280.dig_H3 c) < 2 ^ 8 /\ Z.abs (BME280.dig_H4 c) < 2 ^ 12 /\
  Z.abs (BME280.dig_H5 c) < 2 ^ 12 /\ Z.abs (BME280.dig_H6 c) < 2 ^ 8.

(** The pressure constants within sixteen bits. *)
Definition pressure_range (c : BME280.CalibrationSet) : Prop :=
  Z.abs (BME280.dig_P1 c) < 2 ^ 16 /\ Z.abs (BME280.dig_P2 c) < 2 ^ 16 /\
  Z.abs (BME280.dig_P3 c) < 2 ^ 16 /\ Z.abs (BME280.dig_P4 c) < 2 ^ 16 /\
  Z.abs (BME280.dig_P5 c) < 2 ^ 16 /\ Z.abs (BME280.dig_P6 c) < 2 ^ 16 /\
  Z.abs (BME280.dig_P7 c) < 2 ^ 16 /\ Z.abs (BME280.dig_P8 c) < 2 ^ 16 /\
  Z.abs (BME280.dig_P9 c) < 2 ^ 16.

(** The temperature constants within sixteen bits. *)
Definition temperature_range (c : BME280.CalibrationSet) : Prop :=
  Z.abs (BME280.dig_T1 c) < 2 ^ 16 /\ Z.abs (BME280.dig_T2 c) < 2 ^ 16 /\
  Z.abs (BME280.dig_T3 c) < 2 ^ 16.

(** The next [n] measurements of a sensor, up to the first that fails, and
    the state the sensor is left in. *)
Fixpoint readings {S D : Type} `{Sensor S D} (n : nat) (s : S) : list D * S :=
  match n with
  | O => ([], s)
  | Datatypes.S n' =>
      match sensor_measure s with
      | (Ok d, s') => let (ds, s'') := readings n' s' in (d :: ds, s'')
      | (Raise _, s') => ([], s')
      end
  end.

(** The attributes of the handler after it has been given [ds], one
    measurement after the other. *)
Definition handled {K D : Type} `{Handler K D} (ds : list D) (k : K) : K :=
  fold_left (fun k' d => snd (_handle_data d k')) ds k.

(** The cycles of the scheduler callback as a sensor and a handler make
    them.  A cycle calls [measure] and, when it returns, [_handle_data] on
    the measurement; the first call that raises ends the run.
    [cycles n s k] follows at most [n] cycles from the sensor [s] and the
    handler [k]: the calls made with their outcomes, the sensor and the
    handler as the last call left them, and the exception that ended the
    run, if one did. *)
Record cycles_t (S K D : Type) : Type := mkCycles {
  calls : list (Application.event D);
  sensor_left : S;
  handler_left : K;
  failure : option exn
}.

Fixpoint cycles {S K D : Type} `{Sensor S D} `{Handler K D}
    (n : nat) (s : S) (k : K) : cycles_t S K D :=
  match n with
  | O => mkCycles [] s k None
  | Datatypes.S n' =>
      match sensor_measure s with
      | (Raise e, s') =>
          mkCycles [Application.Measure (Raise e)] s' k (Some e)
      | (Ok d, s') =>
          match _handle_data d k with
          | (Raise e, k') =>
              mkCycles [Application.Measure (Ok d);
                        Application.HandleData d (Raise e)] s' k' (Some e)
          | (Ok u, k') =>
              let c := cycles n' s' k' in
              mkCycles (Application.Measure (Ok d)
                        :: Application.HandleData d (Ok u) :: calls c)
                       (sensor_left c) (handler_left c) (failure c)
          end
      end
  end.

(** How the loop is found once the cycles are over: stopped when none of
    them raised, idle for ever otherwise; and what it has passed to its
    exception handler. *)
Definition ending (f : option exn) : Application.status :=
  match f with
  | None => Application.Stopped
  | Some _ => Application.Asleep
  end.

Definition reports (f : option exn) : list exn :=
  match f with
  | None => []
  | Some e => [e]
  end.

(** [p] holds of every integer from [base] to [base + 2^k - 1]. *)
Fixpoint all_codes (k : nat) (base : Z) (p : Z -> bool) : bool :=
  match k with
  | O => p base
  | Datatypes.S k' =>
      all_codes k' base p && all_codes k' (base + 2 ^ Z.of_nat k') p
  end.

(** The conversion of a natural number below [2^63] as the processor does
    it; it agrees with [binary64_of_Z] there. *)
Definition f64 (n : Z) : PrimFloat.float :=
  PrimFloat.of_uint63 (Uint63.of_Z n).


Definition temperature_of_code (d : Z) : PrimFloat.float :=
  ((f64 17572 / f64 100) * f64 d / f64 65536 - f64 4685 / f64 100)%float.


Definition temperature_code_ok (d : Z) : bool :=
  let t := temperature_of_code d in
  (- (f64 4685 / f64 100) <=? t)%float && (t <? f64 12887 / f64 100)%float
  && Bool.eqb (t <? 0)%float (d <=? 17473).

(** One line of the text format. *)
Definition text_line {V : Type} `{PyStr V} (kv : string * V) : string :=
  (fst kv ++ ": " ++ format_value (snd kv) ++ newline)%string.

(** The measurement lines of the text format, one after the other. *)
Definition text_lines {V : Type} `{PyStr V} (ms : list (string * V)) : string :=
  fold_right (fun kv rest => (text_line kv ++ rest)%string) EmptyString ms.

(** Items in strictly ascending order of their keys. *)
Definition ascending {V : Type} (l : list (string * V)) : Prop :=
  StronglySorted (fun a b => String.ltb (fst a) (fst b) = true) l.

(** ** The monad *)

Lemma bind_ok {S A B} (m : M S A) (k : A -> M S B) s a s' :
  m s = (Ok a, s') -> bind m k s = k a s'.
Proof. intros E. unfold bind. now rewrite E. Qed.

Lemma bind_raise {S A B} (m : M S A) (k : A -> M S B) s e s' :
  m s = (Raise e, s') -> bind m k s = (Raise e, s').
Proof. intros E. unfold bind. now rewrite E. Qed.

Lemma bind_inv_ok {S A B} (m : M S A) (k : A -> M S B) s b s2 :
  bind m k s = (Ok b, s2) ->
  exists a s1, m s = (Ok a, s1) /\ k a s1 = (Ok b, s2).
Proof.
  unfold bind. destruct (m s) as [[a|e] s1]; intros E.
  - now exists a, s1.
  - discriminate.
Qed.

(** ** The calibration decoder *)

Section Decoder.
Context {F : Type} `{PyFloat F}.
Context {I2C : Type} `{I2CController I2C}.

Import BME280.

Lemma bytearray_inv (l l' : list Z) :
  bytearray l = Ok l' -> l' = l /\ forallb is_byte l = true.
Proof.
  unfold bytearray. destruct (forallb is_byte l); intros E.
  - now inversion E.
  - discriminate.
Qed.

Lemma unpack_b_inv (x v : Z) :
  unpack_b x = Ok v -> v = signed 8 x.
Proof.
  unfold unpack_b, bytearray. destruct (forallb is_byte [x]); simpl; intros E.
  - now inversion E.
  - discriminate.
Qed.

Lemma index_inv {A} (l : list A) (i : nat) (a d : A) :
  index l i = Ok a -> nth i l d = a.
Proof.
  unfold index. destruct (nth_error l i) eqn:E; intros E'.
  - inversion E'; subst. now apply nth_error_nth.
  - discriminate.
Qed.

Local Arguments is_byte : simpl never.
Local Arguments signed : simpl never.
Local Arguments le16 : simpl never.
Local Arguments Z.lor : simpl never.
Local Arguments Z.land : simpl never.
Local Arguments Z.shiftl : simpl never.
Local Arguments Z.shiftr : simpl never.

Ltac split_if E :=
  match type of E with
  | context [if ?b then _ else _] => destruct b eqn:?; cbn in E
  end.

(** Whenever the decoder returns, the calibration it has stored is the one
    of the register map. *)
Lemma read_calibration_data_inv (o : self_t F) (c c1 c2 : I2C) b88 bE1 st' :
  read_i2c_block_data (addr o) 0x88 26 c = (Ok b88, c1) ->
  read_i2c_block_data (addr o) 0xE1 7 c1 = (Ok bE1, c2) ->
  _read_calibration_data (o, c) = (Ok tt, st') ->
  st' = (set_cal (register_map b88 bE1) o, c2) /\
  List.length b88 = 26%nat /\ (7 <= List.length bE1)%nat.
Proof.
  intros R1 R2 E.
  unfold _read_calibration_data, bind, self, i2c_ctrl, lift, assign_cal,
    assign, raise in E.
  cbn [fst snd] in E. rewrite R1 in E.
  destruct (bytearray b88) as [l|] eqn:B; cbn [rbind] in E; [|discriminate].
  apply bytearray_inv in B. destruct B as [-> B].
  do 26 (destruct b88 as [|? b88]; [cbn in E; discriminate|]).
  destruct b88; [|cbn in E; discriminate].
  cbn [unpack rbind fst snd] in E. rewrite R2 in E.
  unfold unpack_b, bytearray in E.
  destruct bE1 as [|e1 [|e2 [|e3 [|e4 [|e5 [|e6 [|e7 rest]]]]]]];
    cbn in E; repeat split_if E; try discriminate.
  inversion E; subst st'; clear E.
  repeat split; try reflexivity. cbn. lia.
Qed.

(** The decoder returns on every pair of well-formed blocks. *)
Lemma read_calibration_data_run (o : self_t F) (c c1 c2 : I2C) b88 bE1 :
  read_i2c_block_data (addr o) 0x88 26 c = (Ok b88, c1) ->
  read_i2c_block_data (addr o) 0xE1 7 c1 = (Ok bE1, c2) ->
  List.length b88 = 26%nat -> forallb is_byte b88 = true ->
  List.length bE1 = 7%nat -> forallb is_byte bE1 = true ->
  _read_calibration_data (o, c)
  = (Ok tt, (set_cal (register_map b88 bE1) o, c2)).
Proof.
  intros R1 R2 L1 B1 L2 B2.
  do 26 (destruct b88 as [|? b88]; [discriminate|]).
  destruct b88; [|discriminate].
  destruct bE1 as [|e1 [|e2 [|e3 [|e4 [|e5 [|e6 [|e7 [|]]]]]]]];
    try discriminate.
  unfold _read_calibration_data, bind, self, i2c_ctrl, lift, assign_cal,
    assign, raise.
  cbn [fst snd]. rewrite R1. unfold bytearray at 1. rewrite B1.
  cbn [unpack rbind fst snd]. rewrite R2.
  cbn [forallb] in B2. rewrite !andb_true_iff in B2.
  destruct B2 as (B1' & B2' & B3' & B4' & B5' & B6' & B7' & _).
  unfold unpack_b, bytearray. cbn [firstn forallb].
  rewrite B1', B2', B3'. cbn. rewrite B4'. cbn. rewrite B6'. cbn.
  rewrite B7'. reflexivity.
Qed.

Lemma lor_shiftl_nibble (s x : Z) :
  0 <= x < 16 -> Z.lor (Z.shiftl s 4) x = s * 16 + x.
Proof.
  intros Hx.
  rewrite Z.shiftl_mul_pow2 by lia. change (2 ^ 4) with 16.
  assert (L : Z.land (s * 16) x = 0).
  { apply Z.bits_inj'. intros n Hn.
    rewrite Z.land_spec, Z.bits_0.
    destruct (Z.lt_ge_cases n 4) as [Lt|Ge].
    - change 16 with (2 ^ 4). rewrite Z.mul_pow2_bits_low by lia. reflexivity.
    - destruct Hx as [Hx0 Hx1].
      apply Z.le_lteq in Hx0. destruct Hx0 as [Hx0| <-].
      + rewrite (Z.bits_above_log2 x n), andb_false_r; [reflexivity|lia|].
        apply Z.lt_le_trans with 4; [|assumption].
        apply Z.log2_lt_pow2; [assumption|]. change (2 ^ 4) with 16. lia.
      + rewrite Z.bits_0, andb_false_r. reflexivity. }
  rewrite <- Z.lxor_lor by assumption.
  symmetry. apply Z.add_nocarry_lxor. assumption.
Qed.

Lemma is_byte_range (b : Z) : is_byte b = true -> 0 <= b < 256.
Proof. unfold is_byte. rewrite andb_true_iff. lia. Qed.

(** C3.  Every signed 16-bit calibration field (dig_T2, dig_T3, dig_P2 to
    dig_P9, dig_H2) is decoded from its little-endian byte pair by
    two's-complement sign extension: on well-formed register blocks the
    decoder returns, and a field whose bytes are [0xFF, 0xFF] is -1, one
    whose bytes are [0x00, 0x80] is -32768. *)
Theorem calibration_s16_sign_extension
    (o : self_t F) (c c1 c2 : I2C) (b88 bE1 : list Z) (f : s16_field) :
  read_i2c_block_data (addr o) 0x88 26 c = (Ok b88, c1) ->
  read_i2c_block_data (addr o) 0xE1 7 c1 = (Ok bE1, c2) ->
  List.length b88 = 26%nat -> forallb is_byte b88 = true ->
  List.length bE1 = 7%nat -> forallb is_byte bE1 = true ->
  let r := _read_calibration_data (o, c) in
  fst r = Ok tt /\
  (s16_bytes f b88 bE1 = [0xFF; 0xFF] ->
   s16_value f (cal (fst (snd r))) = -1) /\
  (s16_bytes f b88 bE1 = [0x00; 0x80] ->
   s16_value f (cal (fst (snd r))) = -32768).
Proof.
  intros R1 R2 L1 B1 L2 B2 r. subst r.
  rewrite (read_calibration_data_run o c R1 R2 L1 B1 L2 B2).
  clear R1 R2 B1 B2.
  do 26 (destruct b88 as [|? b88]; [discriminate|]).
  destruct b88; [|discriminate].
  destruct bE1 as [|e1 [|e2 [|e3 [|e4 [|e5 [|e6 [|e7 [|]]]]]]]];
    try discriminate.
  split; [reflexivity|].
  split; intros E; destruct f; cbn in E; inversion E; subst; reflexivity.
Qed.

(** C4.  From the seven bytes E1..E7 read at register 0xE1 the decoder
    produces dig_H4 = signext8(E4) * 16 + (E5 & 0x0F) and
    dig_H5 = signext8(E6) * 16 + (E5 >> 4): each nibble of the shared byte
    E5 is isolated by its mask or shift and then combined with the
    sign-extended high byte. *)
Theorem calibration_H4_H5_packing
    (o : self_t F) (c c1 c2 : I2C) (b88 : list Z) (e1 e2 e3 e4 e5 e6 e7 : Z) :
  read_i2c_block_data (addr o) 0x88 26 c = (Ok b88, c1) ->
  read_i2c_block_data (addr o) 0xE1 7 c1
  = (Ok [e1; e2; e3; e4; e5; e6; e7], c2) ->
  List.length b88 = 26%nat -> forallb is_byte b88 = true ->
  forallb is_byte [e1; e2; e3; e4; e5; e6; e7] = true ->
  let r := _read_calibration_data (o, c) in
  fst r = Ok tt /\
  dig_H4 (cal (fst (snd r))) = signed 8 e4 * 16 + Z.land e5 0x0F /\
  dig_H5 (cal (fst (snd r))) = signed 8 e6 * 16 + Z.shiftr e5 4.
Proof.
  intros R1 R2 L1 B1 B2 r. subst r.
  rewrite (read_calibration_data_run o c R1 R2 L1 B1 eq_refl B2).
  assert (B5 : 0 <= e5 < 256).
  { cbn [forallb] in B2. rewrite !andb_true_iff in B2.
    apply is_byte_range. tauto. }
  split; [reflexivity|].
  cbn [fst snd cal set_cal register_map dig_H4 dig_H5 nth].
  split; apply lor_shiftl_nibble.
  - change 15 with (Z.ones 4). rewrite Z.land_ones by lia.
    change (2 ^ 4) with 16. apply Z.mod_pos_bound. lia.
  - rewrite Z.shiftr_div_pow2 by lia. change (2 ^ 4) with 16.
    split; [apply Z.div_pos; lia | apply Z.div_lt_upper_bound; lia].
Qed.

(** The decoder keeps every constant within the width of its register. *)
Lemma nth_is_byte (l : list Z) (i : nat) :
  forallb is_byte l = true -> 0 <= nth i l 0 < 256.
Proof.
  revert i. induction l as [|b l IH]; intros i Hl.
  - destruct i; cbn; lia.
  - cbn [forallb] in Hl. apply andb_true_iff in Hl. destruct Hl as [Hb Hl].
    destruct i; cbn [nth]; [apply is_byte_range; assumption|apply IH; assumption].
Qed.

Lemma le16_range (lo hi : Z) :
  0 <= lo < 256 -> 0 <= hi < 256 -> 0 <= le16 lo hi < 65536.
Proof.
  intros Hlo Hhi. unfold le16.
  assert (E : Z.lor lo (Z.shiftl hi 8) = hi * 256 + lo).
  { rewrite Z.lor_comm, Z.shiftl_mul_pow2 by lia. change (2 ^ 8) with 256.
    assert (L : Z.land (hi * 256) lo = 0).
    { apply Z.bits_inj'. intros n Hn.
      rewrite Z.land_spec, Z.bits_0.
      destruct (Z.lt_ge_cases n 8) as [Lt|Ge].
      - change 256 with (2 ^ 8). rewrite Z.mul_pow2_bits_low by lia.
        reflexivity.
      - destruct (Z.eq_dec lo 0) as [->|Hz];
          [rewrite Z.bits_0, andb_false_r; reflexivity|].
        rewrite (Z.bits_above_log2 lo n), andb_false_r; [reflexivity|lia|].
        apply Z.lt_le_trans with 8; [|assumption].
        apply Z.log2_lt_pow2; [lia|]. change (2 ^ 8) with 256. lia. }
    rewrite <- Z.lxor_lor by assumption.
    symmetry. apply Z.add_nocarry_lxor. assumption. }
  rewrite E. lia.
Qed.

Lemma signed16_range (v : Z) :
  0 <= v < 65536 -> -32768 <= signed 16 v < 32768.
Proof.
  intros Hv. unfold signed. change (2 ^ (16 - 1)) with 32768.
  change (2 ^ 16) with 65536. destruct (Z.ltb_spec v 32768); lia.
Qed.

Lemma signed8_range (v : Z) : 0 <= v < 256 -> -128 <= signed 8 v < 128.
Proof.
  intros Hv. unfold signed. change (2 ^ (8 - 1)) with 128.
  change (2 ^ 8) with 256. destruct (Z.ltb_spec v 128); lia.
Qed.

Lemma register_map_range (b88 bE1 : list Z) :
  forallb is_byte b88 = true -> forallb is_byte bE1 = true ->
  humidity_range (register_map b88 bE1) /\
  temperature_range (register_map b88 bE1).
Proof.
  intros B1 B2.
  pose proof (fun i => nth_is_byte b88 i B1) as N1.
  pose proof (fun i => nth_is_byte bE1 i B2) as N2.
  pose proof (fun i j => signed16_range (le16_range (N1 i) (N1 j))) as S1.
  pose proof (fun i j => le16_range (N1 i) (N1 j)) as U1.
  pose proof (fun i j => signed16_range (le16_range (N2 i) (N2 j))) as S2.
  pose proof (fun i => signed8_range (N2 i)) as S8.
  unfold humidity_range, temperature_range, register_map.
  cbn [dig_T1 dig_T2 dig_T3 dig_H1 dig_H2 dig_H3 dig_H4 dig_H5 dig_H6].
  change (2 ^ 8) with 256. change (2 ^ 16) with 65536.
  change (2 ^ 12) with 4096.
  assert (H4 : 0 <= Z.land (nth 4 bE1 0) 15 < 16).
  { change 15 with (Z.ones 4). rewrite Z.land_ones by lia.
    change (2 ^ 4) with 16. apply Z.mod_pos_bound. lia. }
  assert (H5 : 0 <= Z.shiftr (nth 4 bE1 0) 4 < 16).
  { rewrite Z.shiftr_div_pow2 by lia. change (2 ^ 4) with 16.
    pose proof (N2 4%nat).
    split; [apply Z.div_pos; lia | apply Z.div_lt_upper_bound; lia]. }
  rewrite !lor_shiftl_nibble by assumption.
  pose proof (N1 25%nat). pose proof (N2 2%nat).
  pose proof (S2 0%nat 1%nat). pose proof (S8 3%nat). pose proof (S8 5%nat).
  pose proof (S8 6%nat). pose proof (U1 0%nat 1%nat).
  pose proof (S1 2%nat 3%nat). pose proof (S1 4%nat 5%nat).
  repeat split; lia.
Qed.

End Decoder.

(** ** Compensation *)

(** Split the hypothesis on the divisors into one fact per literal. *)
Ltac literals Hd :=
  unfold divisors_nonzero, divisors in Hd;
  repeat match type of Hd with
         | Forall _ (_ :: _) =>
             let E := fresh "E" in
             apply Forall_cons_iff in Hd; destruct Hd as [E Hd]
         end;
  clear Hd.

(** Evaluate a method body whose divisors are known not to be zero. *)
Ltac run :=
  repeat (unfold bind, BME280.self, lift, ret, BME280.assign, raise,
            evalf, float_call, lit, val, ival;
          cbn [rbind lift2 truediv as_float fst snd];
          repeat match goal with
                 | E : feqb ?x (float 0) = false
                   |- context [feqb ?x (float 0)] => rewrite E
                 | E : overflows ?n = false
                   |- context [overflows ?n] => rewrite E
                 end).

(** Name each conversion that a list of operands is known to allow. *)
Ltac operands Hc :=
  cbv [converts pressure_operands humidity_operands temperature_operands]
    in Hc;
  repeat match type of Hc with
         | Forall _ (_ :: _) =>
             let E := fresh "V" in
             let Hc' := fresh "Hc" in
             pose proof (Forall_inv Hc) as E;
             pose proof (Forall_inv_tail Hc) as Hc';
             clear Hc; rename Hc' into Hc; cbv beta in E
         end;
  clear Hc.

Section Compensation.
Context {F : Type} `{PyFloat F}.
Context {I2C : Type} `{I2CController I2C}.

Import BME280.



(** Follow a method body through every outcome of its steps. *)
Ltac cases :=
  repeat (unfold bind, self, lift, ret, assign, raise, i2c_ctrl;
          cbn [rbind lift2 truediv lit val ival evalf float_call as_float
               fst snd
               addr cal t_fine set_t_fine set_temperature set_pressure
               set_humidity];
          match goal with
          | |- context [read_i2c_block_data ?a ?r ?l ?c] =>
              destruct (read_i2c_block_data a r l c) as [[?|?] ?]
          | |- context [match ?e with Ok _ => _ | Raise _ => _ end] =>
              destruct e eqn:?
          | |- context [if ?b then _ else _] => destruct b eqn:?
          | |- context [let (_, _) := ?e in _] => destruct e eqn:?
          end).

(** Follow a float expression through the conversions of its int
    operands. *)
Ltac outcomes :=
  repeat (run;
          match goal with
          | |- context [overflows ?n] => destruct (overflows n) eqn:?
          end);
  run.

Lemma pressure_vars_run (o : self_t F) (c : I2C) (adc_p : Z) :
  divisors_nonzero F -> converts F (pressure_operands o adc_p) ->
  exists var1 var2, pressure_vars (o, c) = (Ok (var1, var2), (o, c)).
Proof.
  intros Hd Hc. literals Hd. operands Hc. unfold pressure_vars. run.
  eexists. eexists. reflexivity.
Qed.

(** Whatever the operands, the only exception of [pressure_vars] is the
    [OverflowError] of a conversion. *)
Lemma pressure_vars_outcome (o : self_t F) (c : I2C) :
  divisors_nonzero F ->
  (exists var1 var2, pressure_vars (o, c) = (Ok (var1, var2), (o, c))) \/
  pressure_vars (o, c) = (Raise OverflowError, (o, c)).
Proof.
  intros Hd. literals Hd. unfold pressure_vars.
  outcomes; try (right; reflexivity).
  left. eexists. eexists. reflexivity.
Qed.

Lemma compensate_pressure_run (o : self_t F) (c : I2C) (adc_p : Z) :
  divisors_nonzero F -> converts F (pressure_operands o adc_p) ->
  exists var1 var2 p,
    pressure_vars (o, c) = (Ok (var1, var2), (o, c)) /\
    _compensate_pressure adc_p (o, c) = (Ok p, (o, c)) /\
    (feqb var1 (float 0) = true -> p = float 0).
Proof.
  intros Hd Hc.
  destruct (pressure_vars_run c Hd Hc) as (var1 & var2 & Ev).
  exists var1, var2. unfold _compensate_pressure.
  erewrite bind_ok by exact Ev. literals Hd. operands Hc.
  cbn beta iota.
  destruct (feqb var1 (float 0)) eqn:Hz.
  - exists (float 0). split; [assumption|]. split; [|reflexivity].
    reflexivity.
  - eexists. split; [assumption|]. split; [|discriminate].
    run. reflexivity.
Qed.

(** The guard of line 131: once [var1] compares equal to zero the method
    returns 0 at once, whatever [var2], [adc_p] and the remaining
    constants. *)
Lemma compensate_pressure_guard
    (o : self_t F) (c : I2C) (adc_p : Z) (var1 var2 : F) :
  pressure_vars (o, c) = (Ok (var1, var2), (o, c)) ->
  feqb var1 (float 0) = true ->
  _compensate_pressure adc_p (o, c) = (Ok (float 0), (o, c)).
Proof.
  intros Ev Hz. unfold _compensate_pressure.
  erewrite bind_ok by exact Ev. cbn beta iota.
  unfold bind, self. cbn [fst snd]. rewrite Hz. reflexivity.
Qed.

(** Whatever the operands, pressure compensation returns a value or raises
    the [OverflowError] of a conversion, and nothing else. *)
Lemma compensate_pressure_outcome (o : self_t F) (c : I2C) (adc_p : Z) :
  divisors_nonzero F ->
  (exists p, _compensate_pressure adc_p (o, c) = (Ok p, (o, c))) \/
  _compensate_pressure adc_p (o, c) = (Raise OverflowError, (o, c)).
Proof.
  intros Hd. unfold _compensate_pressure.
  destruct (pressure_vars_outcome o c Hd) as [(var1 & var2 & Ev) | Ev].
  - erewrite bind_ok by exact Ev. literals Hd. cbn beta iota.
    destruct (feqb var1 (float 0)) eqn:Hz.
    + left. exists (float 0). reflexivity.
    + outcomes; try (right; reflexivity).
      left. eexists. reflexivity.
  - right. unfold bind at 1. rewrite Ev. reflexivity.
Qed.

Lemma humidity_raw_run (o : self_t F) (c : I2C) (adc_h : Z) :
  divisors_nonzero F -> converts F (humidity_operands o adc_h) ->
  exists raw, humidity_raw adc_h (o, c) = (Ok raw, (o, c)).
Proof.
  intros Hd Hc. literals Hd. operands Hc. unfold humidity_raw. run.
  eexists. reflexivity.
Qed.

Lemma humidity_raw_outcome (o : self_t F) (c : I2C) (adc_h : Z) :
  divisors_nonzero F ->
  (exists raw, humidity_raw adc_h (o, c) = (Ok raw, (o, c))) \/
  humidity_raw adc_h (o, c) = (Raise OverflowError, (o, c)).
Proof.
  intros Hd. literals Hd. unfold humidity_raw.
  outcomes; try (right; reflexivity).
  left. eexists. reflexivity.
Qed.

Lemma compensate_humidity_run (o : self_t F) (c : I2C) (adc_h : Z) :
  divisors_nonzero F -> converts F (humidity_operands o adc_h) ->
  exists raw,
    humidity_raw adc_h (o, c) = (Ok raw, (o, c)) /\
    _compensate_humidity adc_h (o, c)
    = (Ok (if fltb (float 100) raw then float 100
           else if fltb raw (float 0) then float 0
           else raw), (o, c)).
Proof.
  intros Hd Hc. destruct (humidity_raw_run c Hd Hc) as (raw & Er).
  exists raw. split; [assumption|].
  unfold _compensate_humidity. erewrite bind_ok by exact Er. reflexivity.
Qed.

Lemma compensate_humidity_outcome (o : self_t F) (c : I2C) (adc_h : Z) :
  divisors_nonzero F ->
  (exists h, _compensate_humidity adc_h (o, c) = (Ok h, (o, c))) \/
  _compensate_humidity adc_h (o, c) = (Raise OverflowError, (o, c)).
Proof.
  intros Hd. unfold _compensate_humidity.
  destruct (humidity_raw_outcome o c adc_h Hd) as [(raw & Er) | Er].
  - left. erewrite bind_ok by exact Er. eexists. reflexivity.
  - right. unfold bind at 1. rewrite Er. reflexivity.
Qed.

(** What the two compensations return is a function of the calibration and
    of the stored [t_fine] alone. *)
Lemma compensate_pressure_frame (o o' : self_t F) (c c' : I2C) (adc_p : Z) :
  cal o' = cal o -> t_fine o' = t_fine o ->
  fst (_compensate_pressure adc_p (o', c'))
  = fst (_compensate_pressure adc_p (o, c)).
Proof.
  intros Ec Et. destruct o, o'. cbn in Ec, Et. subst.
  unfold _compensate_pressure, pressure_vars.
  cases; reflexivity.
Qed.

Lemma compensate_humidity_frame (o o' : self_t F) (c c' : I2C) (adc_h : Z) :
  cal o' = cal o -> t_fine o' = t_fine o ->
  fst (_compensate_humidity adc_h (o', c'))
  = fst (_compensate_humidity adc_h (o, c)).
Proof.
  intros Ec Et. destruct o, o'. cbn in Ec, Et. subst.
  unfold _compensate_humidity, humidity_raw.
  cases; reflexivity.
Qed.

(** Neither of them assigns an attribute. *)
Lemma compensate_pressure_pure (s : self_t F * I2C) (adc_p : Z) :
  snd (_compensate_pressure adc_p s) = s.
Proof.
  destruct s as [o c]. unfold _compensate_pressure, pressure_vars.
  cases; reflexivity.
Qed.

Lemma compensate_humidity_pure (s : self_t F * I2C) (adc_h : Z) :
  snd (_compensate_humidity adc_h s) = s.
Proof.
  destruct s as [o c]. unfold _compensate_humidity, humidity_raw.
  cases; reflexivity.
Qed.

(** Temperature compensation overwrites [t_fine]: run on objects that
    differ in the stored [t_fine] only, it ends in the same state, unless
    it raises, and then before the assignment. *)
Lemma compensate_temperature_frame (o : self_t F) (c : I2C) (adc_t x : Z) :
  _compensate_temperature adc_t (set_t_fine x o, c)
  = _compensate_temperature adc_t (o, c)
  \/ exists e,
       fst (_compensate_temperature adc_t (set_t_fine x o, c)) = Raise e /\
       fst (_compensate_temperature adc_t (o, c)) = Raise e.
Proof.
  unfold _compensate_temperature.
  cases; try (left; reflexivity); right; eexists; split; reflexivity.
Qed.

(** Reading the registers neither consults nor changes [t_fine]. *)
Lemma read_raw_sensor_data_frame (o : self_t F) (c : I2C) :
  exists r c',
    _read_raw_sensor_data (o, c) = (r, (o, c')) /\
    forall x, _read_raw_sensor_data (set_t_fine x o, c)
              = (r, (set_t_fine x o, c')).
Proof.
  unfold _read_raw_sensor_data.
  cases; eexists; eexists; split; reflexivity.
Qed.

(** C2.  Pressure compensation never divides by zero.  For every
    calibration set, stored [t_fine] and [adc_p]: when the normalization
    factor [var1] has been computed and compares equal to zero, the method
    returns 0 at once, which it could not do had it divided by [var1]; the
    method returns a value or raises the [OverflowError] of an int too
    large to convert to a float, so no [ZeroDivisionError] leaves it; and
    it returns a value whenever the ints it converts are small enough.
    This holds in any float arithmetic in which the literals used as
    divisors are not zero. *)
Theorem compensate_pressure_zero_guard
    (o : self_t F) (c : I2C) (adc_p : Z) :
  divisors_nonzero F ->
  (forall var1 var2,
     pressure_vars (o, c) = (Ok (var1, var2), (o, c)) ->
     feqb var1 (float 0) = true ->
     _compensate_pressure adc_p (o, c) = (Ok (float 0), (o, c))) /\
  ((exists var1 var2, pressure_vars (o, c) = (Ok (var1, var2), (o, c))) \/
   pressure_vars (o, c) = (Raise OverflowError, (o, c))) /\
  ((exists p, _compensate_pressure adc_p (o, c) = (Ok p, (o, c))) \/
   _compensate_pressure adc_p (o, c) = (Raise OverflowError, (o, c))) /\
  fst (_compensate_pressure adc_p (o, c)) <> Raise ZeroDivisionError /\
  (converts F (pressure_operands o adc_p) ->
   exists var1 var2 p,
     pressure_vars (o, c) = (Ok (var1, var2), (o, c)) /\
     _compensate_pressure adc_p (o, c) = (Ok p, (o, c))).
Proof.
  intros Hd. split; [|split; [|split; [|split]]].
  - intros var1 var2 Ev Hz. exact (compensate_pressure_guard adc_p Ev Hz).
  - exact (pressure_vars_outcome o c Hd).
  - exact (compensate_pressure_outcome o c adc_p Hd).
  - destruct (compensate_pressure_outcome o c adc_p Hd) as [(p & E) | E];
      rewrite E; discriminate.
  - intros Hc.
    destruct (compensate_pressure_run c Hd Hc)
      as (var1 & var2 & p & Ev & Ep & _).
    exists var1, var2, p. split; assumption.
Qed.

(** C5.  The public operations that produce a pressure or a humidity run
    temperature compensation first, on the [adc_t] of the sample they have
    just read.  Hence what [read_pressure], [read_humidity] and [measure]
    return does not depend on the [t_fine] stored before the call, and it is
    what the compensation returns in the state left by the temperature
    compensation of that same sample. *)
Theorem t_fine_from_same_sample (o : self_t F) (c : I2C) :
  (forall stale,
     fst (read_pressure (set_t_fine stale o, c)) = fst (read_pressure (o, c))
     /\ fst (read_humidity (set_t_fine stale o, c))
        = fst (read_humidity (o, c))
     /\ fst (measure (set_t_fine stale o, c)) = fst (measure (o, c)))
  /\
  (forall adc_p adc_t adc_h c' t st1,
     _read_raw_sensor_data (o, c) = (Ok (adc_p, adc_t, adc_h), (o, c')) ->
     _compensate_temperature adc_t (o, c') = (Ok t, st1) ->
     read_pressure (o, c) = _compensate_pressure adc_p st1
     /\ read_humidity (o, c) = _compensate_humidity adc_h st1
     /\ forall m st2,
          measure (o, c) = (Ok m, st2) ->
          exists p h,
            fst (_compensate_pressure adc_p st1) = Ok p /\
            fst (_compensate_humidity adc_h st1) = Ok h /\
            getitem m "pressure" = Some p /\
            getitem m "humidity" = Some h).
Proof.
  split.
  - intros stale.
    destruct (read_raw_sensor_data_frame o c) as (r & c' & E0 & Ex).
    specialize (Ex stale).
    unfold read_pressure, read_humidity, measure, bind.
    rewrite E0, Ex.
    destruct r as [[[adc_p adc_t] adc_h]|e]; [|repeat split; reflexivity].
    destruct (compensate_temperature_frame o c' adc_t stale)
      as [E|(e & E1 & E2)].
    + rewrite E. repeat split; reflexivity.
    + destruct (_compensate_temperature adc_t (set_t_fine stale o, c'))
        as [[?|?] ?]; [discriminate|].
      destruct (_compensate_temperature adc_t (o, c'))
        as [[?|?] ?]; [discriminate|].
      cbn in E1, E2. inversion E1; inversion E2; subst.
      repeat split; reflexivity.
  - intros adc_p adc_t adc_h c' t st1 E0 Et.
    unfold read_pressure, read_humidity, measure.
    erewrite !bind_ok by exact E0. cbn beta iota.
    erewrite !bind_ok by exact Et.
    split; [reflexivity|]. split; [reflexivity|].
    intros m st2 Em. destruct st1 as [o1 c1].
    unfold measure, bind, assign, self, ret in Em.
    rewrite E0 in Em. cbn beta iota in Em. rewrite Et in Em.
    cbn [fst snd] in Em.
    pose proof (@compensate_pressure_frame o1 (set_temperature t o1) c1 c1
                  adc_p eq_refl eq_refl) as Fp.
    pose proof (compensate_pressure_pure (set_temperature t o1, c1) adc_p)
      as Pp.
    destruct (_compensate_pressure adc_p (set_temperature t o1, c1))
      as [[p|e] s2]; [|cbn in Em; discriminate].
    cbn [fst snd] in Em, Fp, Pp. subst s2. cbn [fst snd] in Em.
    pose proof (@compensate_humidity_frame o1
                  (set_pressure p (set_temperature t o1)) c1 c1
                  adc_h eq_refl eq_refl) as Fh.
    pose proof (compensate_humidity_pure
                  (set_pressure p (set_temperature t o1), c1) adc_h) as Ph.
    destruct (_compensate_humidity adc_h
                (set_pressure p (set_temperature t o1), c1))
      as [[h|e] s3]; [|cbn in Em; discriminate].
    cbn [fst snd] in Em, Fh, Ph. subst s3. cbn [fst snd] in Em.
    inversion Em; subst m st2; clear Em.
    exists p, h. repeat split; auto.
Qed.

(** C10.  After [measure()] has returned the mapping [m], the accessors
    return the values stored under the three keys of [m], and calling them
    changes nothing, so they keep agreeing with [m] until the next
    measurement. *)
Theorem accessors_agree_with_measure
    (o : self_t F) (c : I2C) (m : dict F) (st' : self_t F * I2C) :
  measure (o, c) = (Ok m, st') ->
  exists t p h,
    getitem m "temperature" = Some t /\
    getitem m "pressure" = Some p /\
    getitem m "humidity" = Some h /\
    temperature st' = (Ok t, st') /\
    pressure st' = (Ok p, st') /\
    humidity st' = (Ok h, st').
Proof.
  intros E. unfold measure in E.
  apply bind_inv_ok in E. destruct E as ([[adc_p adc_t] adc_h] & s1 & _ & E).
  do 6 (apply bind_inv_ok in E; destruct E as (? & ? & _ & E)).
  apply bind_inv_ok in E. destruct E as (o' & s' & Es & E).
  unfold self in Es. unfold ret in E.
  inversion Es; subst; clear Es. inversion E; subst; clear E.
  destruct st' as [o' c'].
  exists (_temperature o'), (_pressure o'), (_humidity o').
  repeat split; reflexivity.
Qed.

(** Construction leaves [t_fine] at the [0.0] it starts with. *)
Lemma keeps_bind {A B} (m : Method F I2C A) (k : A -> Method F I2C B) :
  keeps_t_fine m -> (forall a, keeps_t_fine (k a)) -> keeps_t_fine (bind m k).
Proof.
  intros Hm Hk s. unfold bind. specialize (Hm s).
  destruct (m s) as [[a|e] s1]; cbn [fst snd] in *.
  - rewrite (Hk a s1). assumption.
  - assumption.
Qed.

Lemma keeps_self : keeps_t_fine (self (F:=F) (I2C:=I2C)).
Proof. intros s. reflexivity. Qed.

Lemma keeps_lift {A} (r : result A) : keeps_t_fine (lift (S:=self_t F * I2C) r).
Proof. intros s. reflexivity. Qed.

Lemma keeps_raise {A} (e : exn) :
  keeps_t_fine (raise (S:=self_t F * I2C) (A:=A) e).
Proof. intros s. reflexivity. Qed.

Lemma keeps_i2c_ctrl {A} (m : M I2C A) :
  keeps_t_fine (i2c_ctrl (F:=F) m).
Proof.
  intros s. unfold i2c_ctrl. destruct (m (snd s)). reflexivity.
Qed.

Lemma keeps_assign_cal f :
  keeps_t_fine (assign_cal (F:=F) (I2C:=I2C) f).
Proof. intros s. reflexivity. Qed.

Lemma keeps_set_settings h t p mode flt sb :
  keeps_t_fine (assign (I2C:=I2C) (set_settings (F:=F) h t p mode flt sb)).
Proof. intros s. reflexivity. Qed.

Ltac keeps :=
  repeat first
    [ apply keeps_self | apply keeps_lift | apply keeps_raise
    | apply keeps_i2c_ctrl | apply keeps_assign_cal
    | apply keeps_set_settings
    | apply keeps_bind; [|intros ?]
    | match goal with
      | |- keeps_t_fine (match ?l with _ => _ end) => destruct l
      end ].

Lemma keeps_read_calibration_data :
  keeps_t_fine (_read_calibration_data (F:=F) (I2C:=I2C)).
Proof. unfold _read_calibration_data. keeps. Qed.

Lemma new_t_fine (a : Z) (c c' : I2C) (o : self_t F) :
  new a c = (Ok o, c') -> t_fine o = 0.
Proof.
  unfold new. intros E.
  assert (K : keeps_t_fine (F:=F) (I2C:=I2C)
                           (_read_calibration_data ;;
                            assign (set_settings 1 1 1 3 0 5) ;;
                            _set_meas_and_hum ;;
                            _set_config)%py).
  { apply keeps_bind; [apply keeps_read_calibration_data|intros _].
    unfold _set_meas_and_hum, _set_hum, _set_meas, _set_config. keeps. }
  specialize (K (blank a, c)).
  unfold __init__ in E. unfold bind at 1 in E. unfold assign at 1 in E.
  cbn [fst snd] in E.
  destruct ((_read_calibration_data ;;
             assign (set_settings 1 1 1 3 0 5) ;;
             _set_meas_and_hum ;;
             _set_config)%py (blank a, c)) as [[u|e] [o1 c1]].
  - inversion E; subst. exact K.
  - discriminate.
Qed.

(** C6, as the code has it.  The driver has no [CompensationError] and keeps
    no record of whether temperature compensation has run.  Pressure and
    humidity compensation called on their own compute the value of their
    formula for whatever [t_fine] the object holds, which is the [0.0] of
    the constructor on a new object and otherwise the value left by the last
    temperature compensation, and they leave the object as it is.  They
    return that value whenever the ints they convert to floats are small
    enough; the one exception that can leave them is the [OverflowError] of
    such a conversion. *)
Theorem compensation_uses_stored_t_fine
    (o : self_t F) (c : I2C) (adc_p adc_h : Z) :
  divisors_nonzero F ->
  ((exists p, _compensate_pressure adc_p (o, c) = (Ok p, (o, c))) \/
   _compensate_pressure adc_p (o, c) = (Raise OverflowError, (o, c))) /\
  ((exists h, _compensate_humidity adc_h (o, c) = (Ok h, (o, c))) \/
   _compensate_humidity adc_h (o, c) = (Raise OverflowError, (o, c))) /\
  (converts F (pressure_operands o adc_p) ->
   exists p, _compensate_pressure adc_p (o, c) = (Ok p, (o, c))) /\
  (converts F (humidity_operands o adc_h) ->
   exists h, _compensate_humidity adc_h (o, c) = (Ok h, (o, c))) /\
  (forall (o' : self_t F) (c' : I2C),
     cal o' = cal o -> t_fine o' = t_fine o ->
     fst (_compensate_pressure adc_p (o', c'))
     = fst (_compensate_pressure adc_p (o, c)) /\
     fst (_compensate_humidity adc_h (o', c'))
     = fst (_compensate_humidity adc_h (o, c))) /\
  (forall a (c0 c1 : I2C) (o0 : self_t F),
     new a c0 = (Ok o0, c1) -> t_fine o0 = 0).
Proof.
  intros Hd. split; [|split; [|split; [|split; [|split]]]].
  - exact (compensate_pressure_outcome o c adc_p Hd).
  - exact (compensate_humidity_outcome o c adc_h Hd).
  - intros Hc.
    destruct (compensate_pressure_run c Hd Hc) as (? & ? & p & _ & E & _).
    exists p. exact E.
  - intros Hc.
    destruct (compensate_humidity_run c Hd Hc) as (? & _ & E).
    eexists. exact E.
  - intros o' c' Ec Et. split.
    + apply compensate_pressure_frame; assumption.
    + apply compensate_humidity_frame; assumption.
  - intros a c0 c1 o0. apply new_t_fine.
Qed.

End Compensation.

(** ** Humidity, in exact arithmetic *)

Section Humidity.
Context {I2C : Type} `{I2CController I2C}.

Import BME280.

Lemma divisors_nonzero_Q : divisors_nonzero Q.
Proof. repeat constructor. Qed.

(** Every int converts to a rational. *)
Lemma converts_Q (ns : list Z) : converts Q ns.
Proof. apply Forall_forall. intros n _. reflexivity. Qed.

Lemma Qle_bool_false (x y : Q) : Qle_bool x y = false -> (y < x)%Q.
Proof.
  intros E. apply Qnot_le_lt. intros L.
  apply Qle_bool_iff in L. congruence.
Qed.

(** In exact arithmetic the comparison is total and nothing needs to be
    assumed of the constants: for every calibration set, every stored
    [t_fine] and every [adc_h], humidity compensation returns a value in
    [0, 100]. *)
Lemma compensate_humidity_clamped_exact (o : self_t Q) (c : I2C) (adc_h : Z) :
  exists raw h,
    humidity_raw adc_h (o, c) = (Ok raw, (o, c)) /\
    _compensate_humidity adc_h (o, c) = (Ok h, (o, c)) /\
    (0 <= h <= 100)%Q /\
    ((100 < raw)%Q -> h = 100%Q) /\
    ((raw < 0)%Q -> h = 0%Q) /\
    ((0 <= raw <= 100)%Q -> h = raw).
Proof.
  destruct (compensate_humidity_run c divisors_nonzero_Q
              (converts_Q (humidity_operands o adc_h)))
    as (raw & Er & Eh).
  exists raw. eexists. split; [exact Er|]. split; [exact Eh|].
  change (fltb (float 100) raw) with (negb (Qle_bool raw 100)).
  change (fltb raw (float 0)) with (negb (Qle_bool 0 raw)).
  change (float 100) with 100%Q. change (float 0) with 0%Q.
  destruct (Qle_bool raw 100) eqn:E1; destruct (Qle_bool 0 raw) eqn:E2;
    cbn [negb];
    try apply Qle_bool_iff in E1; try apply Qle_bool_iff in E2;
    try apply Qle_bool_false in E1; try apply Qle_bool_false in E2;
    repeat split; intros; try reflexivity; try lra.
Qed.

End Humidity.

(** ** Humidity, in binary64

    In IEEE arithmetic the range test of [_compensate_humidity] lets a NaN
    through, so the interval property needs the raw value to be a number.
    It is: with the constants within the widths of their registers no
    intermediate result of the formula comes near the overflow threshold.
    The bound is established on the specification of the primitive floats
    ([SpecFloat]), by following magnitudes through rounding. *)

Unset Implicit Arguments.

Section Magnitudes.
Lemma digits2_size (p : positive) : digits2_pos p = Pos.size p.
Proof. induction p; cbn; congruence. Qed.

Lemma Zdigits2_nonneg (m : Z) : 0 <= Zdigits2 m.
Proof. destruct m; cbn; lia. Qed.

Lemma Zdigits2_pos (m : Z) : 0 < m -> 0 < Zdigits2 m.
Proof. destruct m; cbn; lia. Qed.

Lemma Zdigits2_gt (m : Z) : 0 <= m -> m < 2 ^ Zdigits2 m.
Proof.
  destruct m as [|p|p]; intros Hm; [reflexivity| |lia].
  cbn [Zdigits2]. rewrite digits2_size.
  pose proof (Pos.size_gt p) as G.
  apply Pos2Z.pos_lt_pos in G. rewrite Pos2Z.inj_pow in G. exact G.
Qed.

Lemma Zdigits2_le (m : Z) : 0 < m -> 2 ^ (Zdigits2 m - 1) <= m.
Proof.
  destruct m as [|p|p]; intros Hm; try lia.
  cbn [Zdigits2]. rewrite digits2_size.
  pose proof (Pos.size_le p) as G.
  apply Pos2Z.pos_le_pos in G. rewrite Pos2Z.inj_pow in G.
  change (Zpos p~0) with (2 * Zpos p) in G.
  assert (E : 2 ^ Zpos (Pos.size p) = 2 * 2 ^ (Zpos (Pos.size p) - 1)).
  { rewrite <- Z.pow_succ_r by lia. f_equal. lia. }
  lia.
Qed.

(** [m] has at most [k] binary digits iff it is below [2^k]. *)
Lemma Zdigits2_bound (m k : Z) :
  0 <= m -> 0 <= k -> (Zdigits2 m <= k <-> m < 2 ^ k).
Proof.
  intros Hm Hk. split; intros Hd.
  - apply Z.lt_le_trans with (2 ^ Zdigits2 m).
    + apply Zdigits2_gt; assumption.
    + apply Z.pow_le_mono_r; lia.
  - destruct (Z.eq_dec m 0) as [->|Hn]; [cbn; lia|].
    destruct (Z.le_gt_cases (Zdigits2 m) k) as [L|G]; [assumption|exfalso].
    pose proof (Zdigits2_le m ltac:(lia)) as Lo.
    assert (2 ^ k <= 2 ^ (Zdigits2 m - 1)) by (apply Z.pow_le_mono_r; lia).
    lia.
Qed.

Lemma shr_1_m (mrs : shr_record) :
  0 <= shr_m mrs -> shr_m (shr_1 mrs) = Z.div2 (shr_m mrs).
Proof.
  destruct mrs as [m r s]. cbn [shr_m]. intros Hm.
  destruct m as [|[p|p|]|p]; cbn; try reflexivity; lia.
Qed.

Lemma iter_pos_shr_m (p : positive) :
  forall mrs, 0 <= shr_m mrs ->
    shr_m (iter_pos shr_1 p mrs) = shr_m mrs / 2 ^ Zpos p.
Proof.
  induction p as [p IH|p IH|]; intros mrs Hm; cbn [iter_pos].
  - assert (H1 : 0 <= shr_m (shr_1 mrs)).
    { rewrite shr_1_m by assumption. rewrite Z.div2_div.
      apply Z.div_pos; lia. }
    assert (H2 : 0 <= shr_m (iter_pos shr_1 p (shr_1 mrs))).
    { rewrite IH by assumption. apply Z.div_pos; lia. }
    rewrite IH, IH, shr_1_m by assumption.
    rewrite Z.div2_div, !Z.div_div by lia.
    f_equal. rewrite <- Z.pow_add_r, <- Z.pow_succ_r by lia.
    f_equal. lia.
  - assert (H2 : 0 <= shr_m (iter_pos shr_1 p mrs)).
    { rewrite IH by assumption. apply Z.div_pos; lia. }
    rewrite IH, IH by assumption.
    rewrite !Z.div_div by lia.
    f_equal. rewrite <- Z.pow_add_r by lia.
    f_equal. lia.
  - rewrite shr_1_m by assumption. rewrite Z.div2_div. reflexivity.
Qed.

Lemma fits_shr (m e k n : Z) :
  fits m e k -> 0 < n -> e + n <= k -> fits (m / 2 ^ n) (e + n) k.
Proof.
  intros [Hm Hd] Hn He.
  assert (H0 : 0 <= m / 2 ^ n) by (apply Z.div_pos; lia).
  split; [assumption|].
  destruct (Z.eq_dec (m / 2 ^ n) 0) as [->|Hz]; [cbn; lia|].
  assert (Hge : 2 ^ n <= m).
  { destruct (Z.le_gt_cases (2 ^ n) m); [assumption|].
    rewrite Z.div_small in Hz by lia. lia. }
  assert (Hdn : n < Zdigits2 m).
  { destruct (Z.lt_ge_cases n (Zdigits2 m)); [assumption|exfalso].
    pose proof (Zdigits2_gt m Hm).
    assert (2 ^ Zdigits2 m <= 2 ^ n)
      by (apply Z.pow_le_mono_r; [lia|assumption]).
    lia. }
  assert (Zdigits2 (m / 2 ^ n) <= Zdigits2 m - n); [|lia].
  apply Zdigits2_bound; [assumption|lia|].
  apply Z.div_lt_upper_bound; [lia|].
  rewrite <- Z.pow_add_r by lia.
  replace (n + (Zdigits2 m - n)) with (Zdigits2 m) by lia.
  apply Zdigits2_gt. assumption.
Qed.

Lemma fits_succ (m e k : Z) : fits m e k -> fits (m + 1) e (k + 1).
Proof.
  intros [Hm Hd]. split; [lia|].
  assert (Zdigits2 (m + 1) <= Zdigits2 m + 1); [|lia].
  apply Zdigits2_bound; [lia|pose proof (Zdigits2_nonneg m); lia|].
  pose proof (Zdigits2_gt m Hm).
  rewrite Z.pow_add_r by (pose proof (Zdigits2_nonneg m); lia). lia.
Qed.

Lemma fits_weaken (m e k k' : Z) : fits m e k -> k <= k' -> fits m e k'.
Proof. unfold fits. lia. Qed.


Lemma sf_bounded_weaken (k k' : Z) (x : spec_float) :
  sf_bounded k x -> k <= k' -> sf_bounded k' x.
Proof. destruct x; cbn; try tauto. lia. Qed.

Lemma shr_record_of_loc_m (m : Z) (l : location) :
  shr_m (shr_record_of_loc m l) = m.
Proof. destruct l as [|[]]; reflexivity. Qed.

Lemma fexp_le (E k : Z) : E <= k -> -1074 <= k -> fexp prec emax E <= k.
Proof. unfold fexp, emin, prec, emax. lia. Qed.

Lemma shr_fexp_fits (m e k : Z) (l : location) :
  fits m e k -> -1074 <= k ->
  fits (shr_m (fst (shr_fexp prec emax m e l)))
       (snd (shr_fexp prec emax m e l)) k.
Proof.
  intros Hf Hk. unfold shr_fexp, shr.
  pose proof (fexp_le (Zdigits2 m + e) k (proj2 Hf) Hk) as Hx.
  destruct (fexp prec emax (Zdigits2 m + e) - e) as [|p|p] eqn:En;
    cbn [fst snd]; rewrite ?shr_record_of_loc_m; try assumption.
  rewrite iter_pos_shr_m by (rewrite shr_record_of_loc_m; apply Hf).
  rewrite shr_record_of_loc_m.
  apply fits_shr; [assumption|lia|lia].
Qed.

Lemma round_fits (m e k : Z) (l : location) :
  fits m e k -> fits (round_nearest_even m l) e (k + 1).
Proof.
  intros Hf.
  destruct l as [|[]]; cbn [round_nearest_even];
    try destruct (Z.even m);
    try (apply fits_succ; assumption);
    apply fits_weaken with k; (assumption || lia).
Qed.

Lemma binary_round_aux_bounded (s : bool) (m e k : Z) (l : location) :
  fits m e k -> -1074 <= k <= 971 ->
  sf_bounded (k + 1) (binary_round_aux prec emax s m e l).
Proof.
  intros Hf Hk. unfold binary_round_aux.
  pose proof (shr_fexp_fits m e k l Hf (proj1 Hk)) as H1.
  destruct (shr_fexp prec emax m e l) as [mrs' e']. cbn [fst snd] in H1.
  apply round_fits with (l := loc_of_shr_record mrs') in H1.
  apply shr_fexp_fits with (l := loc_Exact) in H1; [|lia].
  destruct (shr_fexp prec emax
              (round_nearest_even (shr_m mrs') (loc_of_shr_record mrs'))
              e' loc_Exact) as [mrs'' e''].
  cbn [fst snd] in H1. destruct H1 as [H0 Hd].
  destruct (shr_m mrs'') as [|p|p]; [exact I| |lia].
  cbn [Zdigits2] in Hd.
  assert (e'' <= 971) by lia.
  replace (e'' <=? emax - prec) with true
    by (symmetry; apply Z.leb_le; unfold emax, prec; lia).
  cbn [sf_bounded]. exact Hd.
Qed.

Lemma digits2_iter_xO (m d : positive) :
  Zpos (digits2_pos (Pos.iter xO m d)) = Zpos (digits2_pos m) + Zpos d.
Proof.
  induction d as [|d IH] using Pos.peano_ind.
  - cbn. lia.
  - rewrite Pos.iter_succ. cbn [digits2_pos]. lia.
Qed.

Lemma iter_xO_mul (m d : positive) :
  Zpos (Pos.iter xO m d) = Zpos m * 2 ^ Zpos d.
Proof.
  induction d as [|d IH] using Pos.peano_ind.
  - cbn. lia.
  - rewrite Pos.iter_succ, Pos2Z.inj_xO, IH, Pos2Z.inj_succ.
    rewrite Z.pow_succ_r by lia. lia.
Qed.

Lemma binary_round_bounded (s : bool) (m : positive) (e k : Z) :
  Zpos (digits2_pos m) + e <= k -> -1074 <= k <= 971 ->
  sf_bounded (k + 1) (binary_round prec emax s m e).
Proof.
  intros Hd Hk. unfold binary_round, shl_align.
  destruct (fexp prec emax (Zpos (digits2_pos m) + e) - e) as [|p|p] eqn:En;
    apply binary_round_aux_bounded; try assumption;
    split; try lia; cbn [Zdigits2]; try lia.
  rewrite digits2_iter_xO. lia.
Qed.

Lemma binary_normalize_bounded (m e k : Z) (sz : bool) :
  Zdigits2 m + e <= k -> -1074 <= k <= 971 ->
  sf_bounded (k + 1) (binary_normalize prec emax m e sz).
Proof.
  intros Hd Hk. destruct m as [|p|p]; cbn [binary_normalize Zdigits2] in *.
  - exact I.
  - apply binary_round_bounded; assumption.
  - apply binary_round_bounded; assumption.
Qed.

Lemma digits2_mul (mx my : positive) :
  Zpos (digits2_pos (mx * my))
  <= Zpos (digits2_pos mx) + Zpos (digits2_pos my).
Proof.
  change (Zpos (digits2_pos (mx * my))) with (Zdigits2 (Zpos (mx * my))).
  apply Zdigits2_bound; [lia|lia|].
  pose proof (Zdigits2_gt (Zpos mx) ltac:(lia)) as Hx.
  pose proof (Zdigits2_gt (Zpos my) ltac:(lia)) as Hy.
  cbn [Zdigits2] in Hx, Hy.
  rewrite Z.pow_add_r by lia. rewrite Pos2Z.inj_mul.
  apply Z.mul_lt_mono_nonneg; lia.
Qed.

Lemma SFmul_bounded (a b : Z) (x y : spec_float) :
  sf_bounded a x -> sf_bounded b y -> -1074 <= a + b <= 971 ->
  sf_bounded (a + b + 1) (SFmul prec emax x y).
Proof.
  intros Hx Hy Hk.
  destruct x as [sx|sx| |sx mx ex]; destruct y as [sy|sy| |sy my ey];
    cbn [sf_bounded SFmul] in *; try tauto.
  apply binary_round_aux_bounded; [|assumption].
  split; [lia|]. cbn [Zdigits2]. pose proof (digits2_mul mx my). lia.
Qed.

(** [|z| < 2^j] bounds the digits of [z]. *)
Lemma Zdigits2_abs (z j : Z) : 0 <= j -> Z.abs z < 2 ^ j -> Zdigits2 z <= j.
Proof.
  intros Hj Hz.
  assert (E : Zdigits2 z = Zdigits2 (Z.abs z)) by (destruct z; reflexivity).
  rewrite E. apply Zdigits2_bound; [lia|lia|assumption].
Qed.

Lemma shl_align_value (m : positive) (e ez : Z) :
  ez <= e ->
  Zpos (fst (shl_align m e ez)) = Zpos m * 2 ^ (e - ez).
Proof.
  intros He. unfold shl_align.
  destruct (ez - e) as [|p|p] eqn:En; cbn [fst]; try lia.
  - replace (e - ez) with 0 by lia. cbn. lia.
  - rewrite iter_xO_mul. f_equal. f_equal. lia.
Qed.

Lemma aligned_lt (m : positive) (e ez a : Z) :
  ez <= e -> Zpos (digits2_pos m) + e <= a ->
  Zpos (fst (shl_align m e ez)) < 2 ^ (a - ez).
Proof.
  intros He Ha. rewrite shl_align_value by assumption.
  pose proof (Zdigits2_gt (Zpos m) ltac:(lia)) as Hm. cbn [Zdigits2] in Hm.
  apply Z.lt_le_trans with (2 ^ Zpos (digits2_pos m) * 2 ^ (e - ez)).
  - apply Z.mul_lt_mono_pos_r; [apply Z.pow_pos_nonneg; lia|assumption].
  - rewrite <- Z.pow_add_r by lia. apply Z.pow_le_mono_r; lia.
Qed.

Lemma cond_Zopp_abs (s : bool) (z : Z) : Z.abs (cond_Zopp s z) = Z.abs z.
Proof. destruct s; cbn; lia. Qed.

Lemma sum_bounded (A B ez a b : Z) (sz : bool) :
  Z.abs A < 2 ^ (a - ez) -> Z.abs B < 2 ^ (b - ez) ->
  ez < a -> ez < b -> -1074 <= Z.max a b + 1 <= 971 ->
  sf_bounded (Z.max a b + 2) (binary_normalize prec emax (A + B) ez sz) /\
  sf_bounded (Z.max a b + 2) (binary_normalize prec emax (A - B) ez sz).
Proof.
  intros HA HB Ea Eb Hk.
  assert (P : 2 ^ (a - ez) <= 2 ^ (Z.max a b - ez))
    by (apply Z.pow_le_mono_r; lia).
  assert (Q : 2 ^ (b - ez) <= 2 ^ (Z.max a b - ez))
    by (apply Z.pow_le_mono_r; lia).
  assert (R : 2 ^ (Z.max a b + 1 - ez) = 2 * 2 ^ (Z.max a b - ez)).
  { rewrite <- Z.pow_succ_r by lia. f_equal. lia. }
  replace (Z.max a b + 2) with (Z.max a b + 1 + 1) by lia.
  split; apply binary_normalize_bounded; try assumption.
  - assert (Zdigits2 (A + B) <= Z.max a b + 1 - ez); [|lia].
    apply Zdigits2_abs; lia.
  - assert (Zdigits2 (A - B) <= Z.max a b + 1 - ez); [|lia].
    apply Zdigits2_abs; lia.
Qed.

Lemma finite_exp_lt (m : positive) (e a : Z) :
  Zpos (digits2_pos m) + e <= a -> e < a.
Proof. lia. Qed.

Lemma SFadd_bounded (a b : Z) (x y : spec_float) :
  sf_bounded a x -> sf_bounded b y -> -1074 <= Z.max a b + 1 <= 971 ->
  sf_bounded (Z.max a b + 2) (SFadd prec emax x y).
Proof.
  intros Hx Hy Hk.
  destruct x as [sx|sx| |sx mx ex]; destruct y as [sy|sy| |sy my ey];
    cbn [sf_bounded SFadd] in *; try tauto.
  - destruct sx, sy; exact I.
  - lia.
  - lia.
  - apply (sum_bounded
             (cond_Zopp sx (Zpos (fst (shl_align mx ex (Z.min ex ey)))))
             (cond_Zopp sy (Zpos (fst (shl_align my ey (Z.min ex ey)))))
             (Z.min ex ey) a b false); try lia;
      rewrite cond_Zopp_abs; cbn [Z.abs]; apply aligned_lt; lia.
Qed.

Lemma SFsub_bounded (a b : Z) (x y : spec_float) :
  sf_bounded a x -> sf_bounded b y -> -1074 <= Z.max a b + 1 <= 971 ->
  sf_bounded (Z.max a b + 2) (SFsub prec emax x y).
Proof.
  intros Hx Hy Hk.
  destruct x as [sx|sx| |sx mx ex]; destruct y as [sy|sy| |sy my ey];
    cbn [sf_bounded SFsub] in *; try tauto.
  - destruct sx, sy; exact I.
  - lia.
  - lia.
  - apply (sum_bounded
             (cond_Zopp sx (Zpos (fst (shl_align mx ex (Z.min ex ey)))))
             (cond_Zopp sy (Zpos (fst (shl_align my ey (Z.min ex ey)))))
             (Z.min ex ey) a b false); try lia;
      rewrite cond_Zopp_abs; cbn [Z.abs]; apply aligned_lt; lia.
Qed.

Lemma SFdiv_core_fits (mx my : positive) (ex ey a b : Z) :
  Zpos (digits2_pos mx) + ex <= a ->
  b <= Zpos (digits2_pos my) + ey ->
  -1074 <= a - b + 1 ->
  let '(q, e', _) := SFdiv_core_binary prec emax (Zpos mx) ex (Zpos my) ey in
  fits q e' (a - b + 1).
Proof.
  intros Ha Hb Hk. unfold SFdiv_core_binary. cbn [Zdigits2].
  set (d1 := Zpos (digits2_pos mx)) in *.
  set (d2 := Zpos (digits2_pos my)) in *.
  set (e' := Z.min (fexp prec emax (d1 + ex - (d2 + ey))) (ex - ey)).
  assert (He' : e' <= fexp prec emax (d1 + ex - (d2 + ey))) by lia.
  assert (Hs : 0 <= ex - ey - e') by lia.
  pose proof (fexp_le (d1 + ex - (d2 + ey)) (a - b + 1) ltac:(lia) Hk) as Hx.
  set (m' := match ex - ey - e' with
             | 0 => Zpos mx
             | Zpos _ => Z.shiftl (Zpos mx) (ex - ey - e')
             | Zneg _ => 0
             end).
  assert (Em : m' = Zpos mx * 2 ^ (ex - ey - e')).
  { subst m'. destruct (ex - ey - e') as [|p|p] eqn:Es.
    - rewrite Z.pow_0_r. lia.
    - rewrite Z.shiftl_mul_pow2 by lia. reflexivity.
    - lia. }
  pose proof (Z_div_mod m' (Zpos my) ltac:(lia)) as Hdm.
  destruct (Z.div_eucl m' (Zpos my)) as [q r]. destruct Hdm as [Eq Hr].
  assert (Hm' : 0 < m').
  { rewrite Em. apply Z.mul_pos_pos; [lia|apply Z.pow_pos_nonneg; lia]. }
  assert (Hq : 0 <= q) by nia.
  split; [assumption|].
  destruct (Z.eq_dec q 0) as [->|Hq0]; [cbn; lia|].
  pose proof (Zdigits2_gt (Zpos mx) ltac:(lia)) as G1.
  pose proof (Zdigits2_le (Zpos my) ltac:(lia)) as L2.
  cbn [Zdigits2] in G1, L2. fold d1 in G1. fold d2 in L2.
  assert (Hm2 : m' < 2 ^ (d1 + (ex - ey - e'))).
  { rewrite Em, Z.pow_add_r by (subst d1; lia).
    apply Z.mul_lt_mono_pos_r; [apply Z.pow_pos_nonneg; lia|assumption]. }
  assert (Hlow : q * 2 ^ (d2 - 1) < 2 ^ (d1 + (ex - ey - e'))) by nia.
  assert (Hexp : d2 - 1 < d1 + (ex - ey - e')).
  { destruct (Z.lt_ge_cases (d2 - 1) (d1 + (ex - ey - e'))); [assumption|].
    assert (2 ^ (d1 + (ex - ey - e')) <= 2 ^ (d2 - 1))
      by (apply Z.pow_le_mono_r; lia).
    assert (0 < 2 ^ (d2 - 1)) by (apply Z.pow_pos_nonneg; subst d2; lia).
    nia. }
  assert (Zdigits2 q <= d1 + (ex - ey - e') - (d2 - 1)); [|lia].
  apply Zdigits2_bound; [assumption|lia|].
  assert (E2 : 2 ^ (d1 + (ex - ey - e'))
               = 2 ^ (d1 + (ex - ey - e') - (d2 - 1)) * 2 ^ (d2 - 1)).
  { rewrite <- Z.pow_add_r by (subst d2; lia). f_equal. lia. }
  rewrite E2 in Hlow.
  assert (0 < 2 ^ (d2 - 1)) by (apply Z.pow_pos_nonneg; subst d2; lia).
  nia.
Qed.

Lemma SFdiv_bounded (a b : Z) (x : spec_float) (sy : bool) (my : positive)
    (ey : Z) :
  sf_bounded a x ->
  b <= Zpos (digits2_pos my) + ey ->
  -1074 <= a - b + 1 <= 971 ->
  sf_bounded (a - b + 2) (SFdiv prec emax x (S754_finite sy my ey)).
Proof.
  intros Hx Hb Hk.
  destruct x as [sx|sx| |sx mx ex]; cbn [sf_bounded SFdiv] in *; try tauto.
  pose proof (SFdiv_core_fits mx my ex ey a b Hx Hb (proj1 Hk)) as Hc.
  destruct (SFdiv_core_binary prec emax (Zpos mx) ex (Zpos my) ey)
    as [[q e'] l].
  replace (a - b + 2) with (a - b + 1 + 1) by lia.
  apply binary_round_aux_bounded; assumption.
Qed.

End Magnitudes.

Section Binary64.

Import BME280.

Lemma divisors_nonzero_binary64 : divisors_nonzero PrimFloat.float.
Proof. repeat constructor. Qed.

Lemma valid_binary_round_sign (m : positive) (e : Z) :
  valid_binary (binary_round prec emax true m e)
  = valid_binary (binary_round prec emax false m e).
Proof.
  unfold binary_round, binary_round_aux.
  destruct (shl_align m e _) as [mz ez].
  destruct (shr_fexp prec emax (Zpos mz) ez loc_Exact) as [mrs' e'].
  destruct (shr_fexp prec emax _ e' loc_Exact) as [mrs'' e''].
  destruct (shr_m mrs''); try reflexivity.
  destruct (e'' <=? emax - prec); reflexivity.
Qed.

Lemma valid_normalize_nonneg (z : Z) :
  0 <= z < 2 ^ 63 ->
  valid_binary (binary_normalize prec emax z 0 false) = true.
Proof.
  intros Hz.
  assert (E : Uint63.to_Z (Uint63.of_Z z) = z).
  { rewrite Uint63.of_Z_spec. apply Z.mod_small. exact Hz. }
  rewrite <- E, <- of_uint63_spec. apply Prim2SF_valid.
Qed.

Lemma Prim2SF_of_Z (z : Z) :
  Z.abs z < 2 ^ 63 ->
  Prim2SF (binary64_of_Z z) = binary_normalize prec emax z 0 false.
Proof.
  intros Hz. unfold binary64_of_Z. apply Prim2SF_SF2Prim.
  destruct z as [|p|p].
  - reflexivity.
  - apply valid_normalize_nonneg. lia.
  - cbn [binary_normalize]. rewrite valid_binary_round_sign.
    apply (valid_normalize_nonneg (Zpos p)). lia.
Qed.


Lemma of_Z64 (j z : Z) :
  0 <= j <= 62 -> Z.abs z < 2 ^ j -> finite64 (j + 1) (binary64_of_Z z).
Proof.
  intros Hj Hz. unfold finite64.
  assert (2 ^ j <= 2 ^ 63) by (apply Z.pow_le_mono_r; lia).
  rewrite Prim2SF_of_Z by lia.
  apply binary_normalize_bounded; [|lia].
  pose proof (Zdigits2_abs z j ltac:(lia) Hz). lia.
Qed.

(** An int below [2^971] in absolute value converts; the threshold itself
    is [2^1024 - 2^970], the first int that rounds to [2^1024]. *)
Lemma converts64 (j z : Z) :
  0 <= j <= 971 -> Z.abs z < 2 ^ j -> overflows z = false.
Proof.
  intros Hj Hz. cbn [overflows PyFloat_binary64]. unfold binary64_overflows.
  pose proof (Zdigits2_abs z j ltac:(lia) Hz) as Hd.
  pose proof (binary_normalize_bounded z 0 j false ltac:(lia) ltac:(lia))
    as Hb.
  destruct (binary_normalize prec emax z 0 false); try reflexivity.
  contradiction.
Qed.

Lemma overflows_threshold :
  binary64_overflows (2 ^ 1024 - 2 ^ 970 - 1) = false /\
  binary64_overflows (2 ^ 1024 - 2 ^ 970) = true /\
  binary64_overflows (2 ^ 1024) = true /\
  binary64_overflows (- (2 ^ 1024 - 2 ^ 970 - 1)) = false /\
  binary64_overflows (- (2 ^ 1024 - 2 ^ 970)) = true.
Proof. vm_compute. repeat split. Qed.

Lemma mul64 (a b : Z) (x y : PrimFloat.float) :
  finite64 a x -> finite64 b y -> -1074 <= a + b <= 971 ->
  finite64 (a + b + 1) (x * y)%float.
Proof.
  unfold finite64. intros. rewrite mul_spec. now apply SFmul_bounded.
Qed.

Lemma add64 (a b : Z) (x y : PrimFloat.float) :
  finite64 a x -> finite64 b y -> -1074 <= Z.max a b + 1 <= 971 ->
  finite64 (Z.max a b + 2) (x + y)%float.
Proof.
  unfold finite64. intros. rewrite add_spec. now apply SFadd_bounded.
Qed.

Lemma sub64 (a b : Z) (x y : PrimFloat.float) :
  finite64 a x -> finite64 b y -> -1074 <= Z.max a b + 1 <= 971 ->
  finite64 (Z.max a b + 2) (x - y)%float.
Proof.
  unfold finite64. intros. rewrite sub_spec. now apply SFsub_bounded.
Qed.

Lemma div64 (a b : Z) (x y : PrimFloat.float) (sy : bool) (my : positive)
    (ey : Z) :
  finite64 a x ->
  Prim2SF y = S754_finite sy my ey ->
  b <= Zpos (digits2_pos my) + ey ->
  -1074 <= a - b + 1 <= 971 ->
  finite64 (a - b + 2) (x / y)%float.
Proof.
  unfold finite64. intros Hx Ey Hb Hk. rewrite div_spec, Ey.
  now apply SFdiv_bounded.
Qed.

Lemma finite64_weaken (k k' : Z) (x : PrimFloat.float) :
  finite64 k x -> k <= k' -> finite64 k' x.
Proof. apply sf_bounded_weaken. Qed.

Lemma SFcompare_antisym (x y : spec_float) :
  SFcompare y x = option_map CompOpp (SFcompare x y).
Proof.
  destruct x as [sx|sx| |sx mx ex]; destruct y as [sy|sy| |sy my ey];
    cbn [SFcompare option_map]; try reflexivity;
    try (destruct sx; reflexivity); try (destruct sy; reflexivity);
    try (destruct sx, sy; reflexivity).
  destruct sx, sy; cbn [CompOpp]; try reflexivity;
    rewrite (Z.compare_antisym ey ex);
    destruct (ey ?= ex); cbn [CompOpp]; try reflexivity;
    rewrite (Pos.compare_cont_antisym mx my Eq); reflexivity.
Qed.

Lemma finite64_leb (k : Z) (x y : PrimFloat.float) :
  finite64 k x -> Prim2SF y <> S754_nan ->
  (y <? x)%float = false -> (x <=? y)%float = true.
Proof.
  unfold finite64. rewrite ltb_spec, leb_spec. unfold SFltb, SFleb.
  rewrite (SFcompare_antisym (Prim2SF x) (Prim2SF y)).
  intros Hx Hy.
  destruct (Prim2SF x) as [sx|sx| |sx mx ex]; cbn in Hx; try tauto;
    destruct (Prim2SF y) as [sy|sy| |sy my ey]; try congruence;
    destruct (SFcompare _ _) as [[]|] eqn:E; cbn; try congruence;
    cbn in E; try discriminate.
Qed.

Lemma finite64_geb (k : Z) (x y : PrimFloat.float) :
  finite64 k x -> Prim2SF y <> S754_nan ->
  (x <? y)%float = false -> (y <=? x)%float = true.
Proof.
  unfold finite64. rewrite ltb_spec, leb_spec. unfold SFltb, SFleb.
  rewrite (SFcompare_antisym (Prim2SF x) (Prim2SF y)).
  intros Hx Hy.
  destruct (Prim2SF x) as [sx|sx| |sx mx ex]; cbn in Hx; try tauto;
    destruct (Prim2SF y) as [sy|sy| |sy my ey]; try congruence;
    destruct (SFcompare _ _) as [[]|] eqn:E; cbn; try congruence;
    cbn in E; try discriminate.
Qed.


Ltac literal :=
  unfold finite64;
  match goal with
  | |- sf_bounded _ (Prim2SF ?x) =>
      let v := eval vm_compute in (Prim2SF x) in
      change (Prim2SF x) with v
  end;
  cbn [sf_bounded]; cbv [digits2_pos Pos.succ]; apply Z.le_refl.

Ltac bound :=
  lazymatch goal with
  | |- finite64 _ (PrimFloat.mul _ _) =>
      eapply mul64; [bound | bound | cbn; lia]
  | |- finite64 _ (PrimFloat.add _ _) =>
      eapply add64; [bound | bound | cbn; lia]
  | |- finite64 _ (PrimFloat.sub _ _) =>
      eapply sub64; [bound | bound | cbn; lia]
  | |- finite64 _ (PrimFloat.div _ (binary64_of_Z ?n)) =>
      eapply div64;
      [ bound
      | let v := eval vm_compute in (Prim2SF (binary64_of_Z n)) in
        change (Prim2SF (binary64_of_Z n)) with v; reflexivity
      | cbv [digits2_pos Pos.succ]; apply Z.le_refl
      | cbn; lia ]
  | |- finite64 _ (binary64_of_Z ?n) =>
      first [ is_var n; eapply of_Z64; [|eassumption]; lia
            | match n with
              | context [_ _] => eapply of_Z64; [|eassumption]; lia
              end
            | literal ]
  end.




(** Evaluate a method body whose int operands are bounded by hypotheses. *)
Ltac convert64 :=
  repeat (run;
          match goal with
          | |- context [overflows ?n] =>
              let V := fresh "V" in
              assert (V : overflows n = false)
                by first [ eapply converts64; [|eassumption]; lia
                         | reflexivity ];
              rewrite V
          end);
  run.

Lemma humidity_raw_finite {I2C} (o : self_t PrimFloat.float) (c : I2C) (adc_h : Z) :
  humidity_range (cal o) -> Z.abs (t_fine o) < 2 ^ 62 ->
  Z.abs adc_h < 2 ^ 16 ->
  exists raw k,
    humidity_raw adc_h (o, c) = (Ok raw, (o, c)) /\
    finite64 k raw.
Proof.
  intros (H1 & H2 & H3 & H4 & H5 & H6) Ht Ha.
  pose proof divisors_nonzero_binary64 as Hd. literals Hd.
  unfold humidity_raw. convert64.
  eexists. eexists. split; [reflexivity|].
  cbn [fmul fadd fsub fdiv float PyFloat_binary64].
  bound.
Qed.

Lemma leb_not_ltb (x y : PrimFloat.float) :
  (x <=? y)%float = true -> (y <? x)%float = false.
Proof.
  rewrite ltb_spec, leb_spec. unfold SFltb, SFleb.
  rewrite (SFcompare_antisym (Prim2SF x) (Prim2SF y)).
  destruct (SFcompare (Prim2SF x) (Prim2SF y)) as [[]|];
    cbn; congruence.
Qed.

Lemma finite64_number (k : Z) (x : PrimFloat.float) :
  finite64 k x -> Prim2SF x <> S754_nan.
Proof.
  unfold finite64. destruct (Prim2SF x); cbn; (tauto || congruence).
Qed.

Lemma above_100_not_negative (x : PrimFloat.float) :
  (100 <? x)%float = true -> (x <? 0)%float = false.
Proof.
  rewrite !ltb_spec. unfold SFltb.
  let v := eval vm_compute in (Prim2SF 100%float) in
  change (Prim2SF 100%float) with v.
  let v := eval vm_compute in (Prim2SF 0%float) in
  change (Prim2SF 0%float) with v.
  destruct (Prim2SF x) as [s|s| |s m e]; cbn; try congruence;
    destruct s; cbn; congruence.
Qed.

(** The range test on a raw value that is a number. *)
Lemma clamp_in_range (k : Z) (raw : PrimFloat.float) :
  finite64 k raw ->
  let h := if (100 <? raw)%float then 100%float
           else if (raw <? 0)%float then 0%float else raw in
  (0 <=? h)%float = true /\ (h <=? 100)%float = true /\
  ((100 <? raw)%float = true -> h = 100%float) /\
  ((raw <? 0)%float = true -> h = 0%float) /\
  ((0 <=? raw)%float = true -> (raw <=? 100)%float = true -> h = raw).
Proof.
  intros Hk h. subst h.
  assert (N0 : Prim2SF 0%float <> S754_nan) by (vm_compute; discriminate).
  assert (N100 : Prim2SF 100%float <> S754_nan) by (vm_compute; discriminate).
  destruct (100 <? raw)%float eqn:E1; [|destruct (raw <? 0)%float eqn:E2].
  - repeat split; try reflexivity.
    + intros L. rewrite (above_100_not_negative raw E1) in L. discriminate.
    + intros _ L. apply leb_not_ltb in L. congruence.
  - repeat split; try reflexivity; try discriminate.
    intros L _. apply leb_not_ltb in L. congruence.
  - repeat split; try reflexivity; try discriminate.
    + apply (finite64_geb k raw 0%float Hk N0 E2).
    + apply (finite64_leb k raw 100%float Hk N100 E1).
Qed.

Lemma compensate_humidity_finite
    {I2C : Type} (o : self_t PrimFloat.float) (c : I2C) (adc_h : Z) :
  humidity_range (cal o) ->
  Z.abs (t_fine o) < 2 ^ 62 ->
  0 <= adc_h < 65536 ->
  exists raw k,
    finite64 k raw /\
    humidity_raw adc_h (o, c) = (Ok raw, (o, c)) /\
    _compensate_humidity adc_h (o, c)
    = (Ok (if (100 <? raw)%float then 100%float
           else if (raw <? 0)%float then 0%float else raw), (o, c)).
Proof.
  intros Hc Ht Ha.
  destruct (humidity_raw_finite o c adc_h Hc Ht) as (raw & k & Er & Hk);
    [change (2 ^ 16) with 65536; lia|].
  exists raw, k. split; [exact Hk|]. split; [exact Er|].
  unfold _compensate_humidity. unfold bind at 1. rewrite Er. reflexivity.
Qed.

(** C1.  For every calibration set (constants within the widths of their
    registers), every [adc_h] in the unsigned 16-bit range and every stored
    [t_fine] of up to 62 bits (temperature compensation leaves less than
    that), humidity compensation returns a value in the closed interval
    [0, 100]: a result of the raw formula above 100 is replaced by 100, one
    below 0 by 0, and one within the interval is returned as it is.  This
    is the statement in binary64, the arithmetic the code runs in. *)
Theorem compensate_humidity_clamped
    {I2C : Type} (o : self_t PrimFloat.float) (c : I2C) (adc_h : Z) :
  humidity_range (cal o) ->
  Z.abs (t_fine o) < 2 ^ 62 ->
  0 <= adc_h < 65536 ->
  exists raw h,
    humidity_raw adc_h (o, c) = (Ok raw, (o, c)) /\
    _compensate_humidity adc_h (o, c) = (Ok h, (o, c)) /\
    (0 <=? h)%float = true /\ (h <=? 100)%float = true /\
    ((100 <? raw)%float = true -> h = 100%float) /\
    ((raw <? 0)%float = true -> h = 0%float) /\
    ((0 <=? raw)%float = true -> (raw <=? 100)%float = true -> h = raw).
Proof.
  intros Hc Ht Ha.
  destruct (compensate_humidity_finite o c adc_h Hc Ht Ha)
    as (raw & k & Hk & Er & Eh).
  exists raw. eexists. split; [exact Er|]. split; [exact Eh|].
  exact (clamp_in_range k raw Hk).
Qed.

(** [int(x)] of a float below [2^k] is an integer below [2^k]. *)
Lemma int64_bound (k : Z) (x : PrimFloat.float) :
  finite64 k x -> 0 <= k ->
  exists z, binary64_int x = Ok z /\ Z.abs z < 2 ^ k.
Proof.
  unfold finite64, binary64_int. intros Hx Hk.
  assert (P : 0 < 2 ^ k) by (apply Z.pow_pos_nonneg; lia).
  destruct (Prim2SF x) as [s|s| |s m e]; cbn [sf_bounded] in Hx; try tauto.
  - exists 0. split; [reflexivity|]. cbn. lia.
  - eexists. split; [reflexivity|].
    pose proof (Zdigits2_gt (Zpos m) ltac:(lia)) as G. cbn [Zdigits2] in G.
    set (d := Zpos (digits2_pos m)) in *.
    assert (A : 0 <= (if 0 <=? e then Z.shiftl (Zpos m) e
                      else Z.shiftr (Zpos m) (- e)) < 2 ^ k).
    { destruct (Z.leb_spec 0 e) as [He|He].
      - rewrite Z.shiftl_mul_pow2 by lia.
        assert (0 < 2 ^ e) by (apply Z.pow_pos_nonneg; lia).
        assert (2 ^ d * 2 ^ e <= 2 ^ k).
        { rewrite <- Z.pow_add_r by (subst d; lia).
          apply Z.pow_le_mono_r; lia. }
        nia.
      - rewrite Z.shiftr_div_pow2 by lia.
        assert (0 < 2 ^ (- e)) by (apply Z.pow_pos_nonneg; lia).
        split; [apply Z.div_pos; lia|].
        apply Z.div_lt_upper_bound; [lia|].
        apply Z.lt_le_trans with (2 ^ d); [assumption|].
        rewrite <- Z.pow_add_r by lia.
        apply Z.pow_le_mono_r; lia. }
    destruct s; lia.
Qed.

(** Temperature compensation of a 20-bit reading leaves a [t_fine] well
    within the bound that humidity compensation asks for. *)
Lemma compensate_temperature_t_fine
    {I2C : Type} (o : self_t PrimFloat.float) (c : I2C) (adc_t : Z) :
  temperature_range (cal o) -> Z.abs adc_t < 2 ^ 20 ->
  exists t tf,
    _compensate_temperature adc_t (o, c) = (Ok t, (set_t_fine tf o, c)) /\
    Z.abs tf < 2 ^ 62.
Proof.
  intros (T1 & T2 & T3) Ha.
  pose proof divisors_nonzero_binary64 as Hd. literals Hd.
  unfold _compensate_temperature. convert64.
  cbn [fmul fadd fsub fdiv float int PyFloat_binary64].
  match goal with
  | |- context [binary64_int ?x] =>
      assert (B : exists k, finite64 k x /\ 0 <= k <= 62)
  end.
  { eexists. split; [bound|]. cbn. lia. }
  destruct B as (k & Bk & Hk).
  destruct (int64_bound _ _ Bk (proj1 Hk)) as (z & Ez & Hz).
  rewrite Ez. run.
  eexists. exists z. split; [reflexivity|].
  apply Z.lt_le_trans with (2 ^ k); [assumption|].
  apply Z.pow_le_mono_r; lia.
Qed.

(** X8.  Temperature compensation on what the registers can hold.  In
    binary64, for temperature constants of at most 16 bits and a reading
    [adc_t] of 20 bits, [_compensate_temperature] does not raise ([int] is
    never given an infinity or a NaN); it returns a finite temperature of
    magnitude below [2^24] and stores a [t_fine] of magnitude below
    [2^35], changing nothing else. *)
Theorem compensate_temperature_finite
    {I2C : Type} (o : self_t PrimFloat.float) (c : I2C) (adc_t : Z) :
  temperature_range (cal o) -> 0 <= adc_t < 2 ^ 20 ->
  exists t tf,
    _compensate_temperature adc_t (o, c) = (Ok t, (set_t_fine tf o, c)) /\
    finite64 24 t /\ Z.abs tf < 2 ^ 35.
Proof.
  intros (T1 & T2 & T3) Ha.
  assert (Ha' : Z.abs adc_t < 2 ^ 20) by lia.
  pose proof divisors_nonzero_binary64 as Hd. literals Hd.
  unfold _compensate_temperature. convert64.
  cbn [fmul fadd fsub fdiv float int PyFloat_binary64].
  match goal with
  | |- context [binary64_int ?x] =>
      assert (B : exists k, finite64 k x /\ 0 <= k <= 35)
  end.
  { eexists. split; [bound|]. cbn. lia. }
  destruct B as (k & Bk & Hk).
  destruct (int64_bound _ _ Bk (proj1 Hk)) as (z & Ez & Hz).
  rewrite Ez. run.
  eexists. exists z. split; [reflexivity|]. split.
  - eapply finite64_weaken; [bound|]. cbn. lia.
  - apply Z.lt_le_trans with (2 ^ k); [assumption|].
    apply Z.pow_le_mono_r; lia.
Qed.

Lemma lor_range (a b k : Z) :
  0 <= k -> 0 <= a < 2 ^ k -> 0 <= b < 2 ^ k -> 0 <= Z.lor a b < 2 ^ k.
Proof.
  intros Hk Ha Hb.
  assert (N : 0 <= Z.lor a b) by (apply Z.lor_nonneg; lia).
  split; [assumption|].
  destruct (Z.eq_dec a 0) as [->|Na]; [rewrite Z.lor_0_l; lia|].
  destruct (Z.eq_dec b 0) as [->|Nb]; [rewrite Z.lor_0_r; lia|].
  assert (P : 0 < Z.lor a b).
  { destruct (Z.eq_dec (Z.lor a b) 0) as [E|E]; [|lia].
    apply Z.lor_eq_0_iff in E. lia. }
  apply Z.log2_lt_pow2; [assumption|].
  rewrite Z.log2_lor by lia.
  apply Z.max_lub_lt; apply Z.log2_lt_pow2; lia.
Qed.

(** A sample assembled from register bytes: 20 bits of pressure and of
    temperature, 16 bits of humidity. *)
Lemma read_raw_sensor_data_run
    {F I2C : Type} `{I2CController I2C} (o : self_t F) (c c1 c2 c3 : I2C)
    (p1 p2 p3 t1 t2 t3 h1 h2 : Z) :
  read_i2c_block_data (addr o) REG_PRESS 3 c = (Ok [p1; p2; p3], c1) ->
  read_i2c_block_data (addr o) REG_TEMP 3 c1 = (Ok [t1; t2; t3], c2) ->
  read_i2c_block_data (addr o) REG_HUM 2 c2 = (Ok [h1; h2], c3) ->
  forallb is_byte [p1; p2; p3; t1; t2; t3; h1; h2] = true ->
  exists adc_p adc_t adc_h,
    _read_raw_sensor_data (o, c) = (Ok (adc_p, adc_t, adc_h), (o, c3)) /\
    0 <= adc_p < 2 ^ 20 /\ 0 <= adc_t < 2 ^ 20 /\ 0 <= adc_h < 2 ^ 16.
Proof.
  intros R1 R2 R3 B.
  cbn [forallb] in B. rewrite !andb_true_iff in B.
  destruct B as (B1 & B2 & B3 & B4 & B5 & B6 & B7 & B8 & _).
  apply is_byte_range in B1, B2, B3, B4, B5, B6, B7, B8.
  unfold _read_raw_sensor_data, bind, self, i2c_ctrl, lift, ret.
  cbn [fst snd]. rewrite R1. cbn [unpack3 fst snd]. rewrite R2.
  cbn [unpack3 fst snd]. rewrite R3. cbn [unpack2 fst snd].
  eexists. eexists. eexists. split; [reflexivity|].
  assert (S12 : forall b, 0 <= b < 256 -> 0 <= Z.shiftl b 12 < 2 ^ 20).
  { intros b Hb. rewrite Z.shiftl_mul_pow2 by lia.
    change (2 ^ 12) with 4096. change (2 ^ 20) with 1048576. lia. }
  assert (S4 : forall b, 0 <= b < 256 -> 0 <= Z.shiftl b 4 < 2 ^ 20).
  { intros b Hb. rewrite Z.shiftl_mul_pow2 by lia.
    change (2 ^ 4) with 16. change (2 ^ 20) with 1048576. lia. }
  assert (R4 : forall b, 0 <= b < 256 -> 0 <= Z.shiftr b 4 < 2 ^ 20).
  { intros b Hb. rewrite Z.shiftr_div_pow2 by lia.
    change (2 ^ 4) with 16. change (2 ^ 20) with 1048576.
    split; [apply Z.div_pos; lia|apply Z.div_lt_upper_bound; lia]. }
  assert (S8 : forall b, 0 <= b < 256 -> 0 <= Z.shiftl b 8 < 2 ^ 16).
  { intros b Hb. rewrite Z.shiftl_mul_pow2 by lia.
    change (2 ^ 8) with 256. change (2 ^ 16) with 65536. lia. }
  assert (B16 : forall b, 0 <= b < 256 -> 0 <= b < 2 ^ 16).
  { intros b Hb. change (2 ^ 16) with 65536. lia. }
  split; [|split]; repeat apply lor_range; auto; lia.
Qed.

(** With the pressure constants within sixteen bits, a [t_fine] of up to
    62 bits and a 20-bit reading, every int of the pressure formula
    converts; so do those of the humidity formula on its own ranges. *)
Lemma pressure_operands_convert
    (o : self_t PrimFloat.float) (adc_p : Z) :
  pressure_range (cal o) -> Z.abs (t_fine o) < 2 ^ 62 ->
  Z.abs adc_p < 2 ^ 20 ->
  converts PrimFloat.float (pressure_operands o adc_p).
Proof.
  intros (P1 & P2 & P3 & P4 & P5 & P6 & P7 & P8 & P9) Ht Ha.
  unfold converts, pressure_operands.
  repeat constructor; (eapply converts64; [|eassumption]; lia).
Qed.

Lemma humidity_operands_convert
    (o : self_t PrimFloat.float) (adc_h : Z) :
  humidity_range (cal o) -> Z.abs (t_fine o) < 2 ^ 62 ->
  Z.abs adc_h < 2 ^ 16 ->
  converts PrimFloat.float (humidity_operands o adc_h).
Proof.
  intros (H1 & H2 & H3 & H4 & H5 & H6) Ht Ha.
  unfold converts, humidity_operands.
  repeat constructor; (eapply converts64; [|eassumption]; lia).
Qed.

(** X9.  The humidity of the public operations, in binary64.  On a driver
    whose humidity and temperature constants are within the widths of
    their registers, and a controller that answers the three reads of a
    sample with bytes, [read_humidity] does not raise and returns a value
    in [0, 100]; when the pressure constants are within sixteen bits as
    well, [measure] does not raise and the humidity in its mapping is in
    [0, 100]. *)
Theorem public_humidity_in_range
    {I2C : Type} `{I2CController I2C}
    (o : self_t PrimFloat.float) (c c1 c2 c3 : I2C)
    (p1 p2 p3 t1 t2 t3 h1 h2 : Z) :
  humidity_range (cal o) -> temperature_range (cal o) ->
  read_i2c_block_data (addr o) REG_PRESS 3 c = (Ok [p1; p2; p3], c1) ->
  read_i2c_block_data (addr o) REG_TEMP 3 c1 = (Ok [t1; t2; t3], c2) ->
  read_i2c_block_data (addr o) REG_HUM 2 c2 = (Ok [h1; h2], c3) ->
  forallb is_byte [p1; p2; p3; t1; t2; t3; h1; h2] = true ->
  (exists h st,
     read_humidity (o, c) = (Ok h, st) /\
     (0 <=? h)%float = true /\ (h <=? 100)%float = true) /\
  (pressure_range (cal o) ->
   exists m st h,
     BME280.measure (o, c) = (Ok m, st) /\
     getitem m "humidity" = Some h /\
     (0 <=? h)%float = true /\ (h <=? 100)%float = true).
Proof.
  intros Hh Ht R1 R2 R3 B.
  destruct (read_raw_sensor_data_run o c c1 c2 c3 _ _ _ _ _ _ _ _ R1 R2 R3 B)
    as (adc_p & adc_t & adc_h & Er & Rp & Rt & Rh).
  destruct (compensate_temperature_t_fine o c3 adc_t Ht ltac:(lia))
    as (t & tf & Et & Htf).
  split.
  - destruct (compensate_humidity_finite (set_t_fine tf o) c3 adc_h
                Hh Htf ltac:(change 65536 with (2 ^ 16); lia))
      as (raw & k & Hk & _ & Eh).
    destruct (clamp_in_range k raw Hk) as (L0 & L1 & _).
    eexists. eexists. split; [|split; eassumption].
    unfold read_humidity. unfold bind. rewrite Er. cbn beta iota.
    rewrite Et. exact Eh.
  - intros Hp.
    destruct (compensate_pressure_run
                (o:=set_temperature t (set_t_fine tf o)) c3 (adc_p:=adc_p)
                divisors_nonzero_binary64
                (pressure_operands_convert
                   (set_temperature t (set_t_fine tf o)) adc_p
                   Hp Htf ltac:(lia)))
      as (v1 & v2 & p & _ & Ep & _).
    destruct (compensate_humidity_finite
                (set_pressure p (set_temperature t (set_t_fine tf o)))
                c3 adc_h Hh Htf ltac:(change 65536 with (2 ^ 16); lia))
      as (raw & k & Hk & _ & Eh).
    destruct (clamp_in_range k raw Hk) as (L0 & L1 & _).
    eexists. eexists. eexists. split; [|split; [|split; eassumption]].
    + unfold BME280.measure. unfold bind, assign, self, ret.
      rewrite Er. cbn beta iota. rewrite Et. cbn [fst snd].
      rewrite Ep. cbn [fst snd]. rewrite Eh. cbn [fst snd]. reflexivity.
    + reflexivity.
Qed.

End Binary64.

Set Implicit Arguments.

(** ** The acquisition loop *)

Section Scheduler.
Context {S K D : Type} `{Sensor S D} `{Handler K D}.

Import Application.

Lemma Qle_bool_refl (w : Q) : Qle_bool w w = true.
Proof. apply Qle_bool_iff. apply Qle_refl. Qed.

Lemma wake_pending (num : Z) (l : asyncio.loop_t) :
  pending num l ->
  asyncio.sleeps_forever l = false /\
  exists now,
    asyncio.wake l
    = ([num], asyncio.mkLoop [] [] false now (asyncio._reported l)).
Proof.
  intros (Hs & [(Hr & Ht)|(Hr & w & Ht)]);
    unfold asyncio.sleeps_forever, asyncio.wake; rewrite Hr, Ht, Hs.
  - split; [reflexivity|]. exists (asyncio.time l). reflexivity.
  - split; [reflexivity|]. cbn [filter map fst snd app].
    destruct (Qle_bool w (asyncio.time l)) eqn:E.
    + exists (asyncio.time l). rewrite E. reflexivity.
    + exists w. rewrite Qle_bool_refl. reflexivity.
Qed.

(** A cycle in which nothing raises: the measurement is handed over and the
    callback either re-arms itself or stops the loop. *)
Lemma callback_delivers (a : app_t S K D) (num : Z) (d : D) (s' : S) (k' : K) :
  sensor_measure (_sensor a) = (Ok d, s') ->
  _handle_data d (_this a) = (Ok tt, k') ->
  callback num a
  = (Ok tt,
     mkApp (_args a) s' k'
       (if ne_poll num (poll (_args a))
        then asyncio.call_later (interval (_args a)) (num + 1) (_loop a)
        else asyncio.stop (_loop a))
       ((journal a ++ [Measure (Ok d)]) ++ [HandleData d (Ok tt)])).
Proof.
  intros Em Eh.
  unfold callback, bind, measure, handle_data, get, on_loop, modify.
  rewrite Em. cbn. rewrite Eh. cbn.
  destruct (ne_poll num (poll (_args a))); reflexivity.
Qed.

(** A cycle whose measurement raises: nothing is handed over, nothing is
    scheduled, the loop is not stopped. *)
Lemma callback_measure_raises (a : app_t S K D) (num : Z) (e : exn) (s' : S) :
  sensor_measure (_sensor a) = (Raise e, s') ->
  callback num a
  = (Raise e,
     mkApp (_args a) s' (_this a) (_loop a)
           (journal a ++ [Measure (Raise e)])).
Proof.
  intros Em. unfold callback, bind, measure. rewrite Em. reflexivity.
Qed.

(** A cycle whose handler raises: the same, after the hand-over. *)
Lemma callback_handler_raises
    (a : app_t S K D) (num : Z) (d : D) (e : exn) (s' : S) (k' : K) :
  sensor_measure (_sensor a) = (Ok d, s') ->
  _handle_data d (_this a) = (Raise e, k') ->
  callback num a
  = (Raise e,
     mkApp (_args a) s' k' (_loop a)
           ((journal a ++ [Measure (Ok d)]) ++ [HandleData d (Raise e)])).
Proof.
  intros Em Eh. unfold callback, bind, measure, handle_data.
  rewrite Em. cbn. rewrite Eh. reflexivity.
Qed.

(** One iteration of the loop with [callback num] pending, in the three
    ways the callback can end. *)
Lemma run_once_delivers
    (a : app_t S K D) (num : Z) (d : D) (s' : S) (k' : K) :
  pending num (_loop a) ->
  sensor_measure (_sensor a) = (Ok d, s') ->
  _handle_data d (_this a) = (Ok tt, k') ->
  exists now,
    _run_once a
    = mkApp (_args a) s' k'
        (if ne_poll num (poll (_args a))
         then asyncio.mkLoop [] [((now + interval (_args a))%Q, num + 1)]
                false now (asyncio._reported (_loop a))
         else asyncio.mkLoop [] [] true now (asyncio._reported (_loop a)))
        ((journal a ++ [Measure (Ok d)]) ++ [HandleData d (Ok tt)]).
Proof.
  intros Hp Em Eh. destruct (wake_pending Hp) as (_ & now & Hw).
  exists now. unfold _run_once. rewrite Hw. cbn [fold_left].
  unfold _run. erewrite callback_delivers by eassumption.
  cbn. destruct (ne_poll num (poll (_args a))); reflexivity.
Qed.

Lemma run_once_measure_raises
    (a : app_t S K D) (num : Z) (e : exn) (s' : S) :
  pending num (_loop a) ->
  sensor_measure (_sensor a) = (Raise e, s') ->
  exists now,
    _run_once a
    = mkApp (_args a) s' (_this a)
        (asyncio.mkLoop [] [] false now (asyncio._reported (_loop a) ++ [e]))
        (journal a ++ [Measure (Raise e)]).
Proof.
  intros Hp Em. destruct (wake_pending Hp) as (_ & now & Hw).
  exists now. unfold _run_once. rewrite Hw. cbn [fold_left].
  unfold _run. erewrite callback_measure_raises by eassumption.
  reflexivity.
Qed.

Lemma run_once_handler_raises
    (a : app_t S K D) (num : Z) (d : D) (e : exn) (s' : S) (k' : K) :
  pending num (_loop a) ->
  sensor_measure (_sensor a) = (Ok d, s') ->
  _handle_data d (_this a) = (Raise e, k') ->
  exists now,
    _run_once a
    = mkApp (_args a) s' k'
        (asyncio.mkLoop [] [] false now (asyncio._reported (_loop a) ++ [e]))
        ((journal a ++ [Measure (Ok d)]) ++ [HandleData d (Raise e)]).
Proof.
  intros Hp Em Eh. destruct (wake_pending Hp) as (_ & now & Hw).
  exists now. unfold _run_once. rewrite Hw. cbn [fold_left].
  unfold _run. erewrite callback_handler_raises by eassumption.
  reflexivity.
Qed.

(** A loop with nothing to run never returns. *)
Lemma run_forever_asleep (a : app_t S K D) (fuel : nat) :
  asyncio.sleeps_forever (_loop a) = true ->
  (1 <= fuel)%nat ->
  run_forever fuel a = (Asleep, a).
Proof.
  intros Hs Hf. destruct fuel as [|fuel]; [lia|].
  cbn [run_forever]. rewrite Hs. reflexivity.
Qed.

(** After an iteration in which the callback raised, that is where the
    loop is. *)
Lemma run_forever_after_raise (a a1 : app_t S K D) (num : Z) (fuel : nat) :
  pending num (_loop a) ->
  _run_once a = a1 ->
  asyncio._ready (_loop a1) = [] ->
  asyncio._scheduled (_loop a1) = [] ->
  asyncio._stopping (_loop a1) = false ->
  (2 <= fuel)%nat ->
  run_forever fuel a = (Asleep, a1).
Proof.
  intros Hp E1 Hr Ht Hs Hf. destruct (wake_pending Hp) as (Hw & _).
  destruct fuel as [|fuel]; [lia|].
  cbn [run_forever]. rewrite Hw, E1, Hs.
  apply run_forever_asleep; [|lia].
  unfold asyncio.sleeps_forever. rewrite Hr, Ht, Hs. reflexivity.
Qed.

Lemma delivered_counts (ds : list D) :
  List.length (filter is_Measure (delivered ds)) = List.length ds /\
  List.length (filter is_HandleData (delivered ds)) = List.length ds.
Proof.
  induction ds as [|d ds [IHm IHh]]; [split; reflexivity|].
  change (delivered (d :: ds))
    with (Measure (Ok d) :: HandleData d (Ok tt) :: delivered ds).
  cbn [filter is_Measure is_HandleData List.length].
  rewrite IHm, IHh. split; reflexivity.
Qed.

Lemma ne_poll_same (n : Z) : ne_poll n (Some n) = false.
Proof. unfold ne_poll. rewrite Z.eqb_refl. reflexivity. Qed.

Lemma ne_poll_other (num n : Z) : num <> n -> ne_poll num (Some n) = true.
Proof.
  intros Hn. unfold ne_poll. apply Z.eqb_neq in Hn. rewrite Hn. reflexivity.
Qed.

(** What a run of cycles has called.  When nothing raised, [n] cycles have
    delivered [n] measurements; when the run ended with the exception [e],
    fewer than [n] cycles were completed before the one in which [measure]
    or [_handle_data] raised [e]. *)
Lemma cycles_calls (n : nat) :
  forall (s : S) (k : K),
    (failure (cycles n s k) = None ->
     exists ds, List.length ds = n /\ calls (cycles n s k) = delivered ds) /\
    (forall e, failure (cycles n s k) = Some e ->
     exists ds, (List.length ds < n)%nat /\
       (calls (cycles n s k) = delivered ds ++ [Measure (Raise e)] \/
        exists d, calls (cycles n s k)
                  = delivered ds ++ [Measure (Ok d); HandleData d (Raise e)])).
Proof.
  induction n as [|n IH]; intros s k; cbn [cycles].
  - split; [intros _; exists []; split; reflexivity|discriminate].
  - destruct (sensor_measure s) as [[d|e0] s'].
    + destruct (_handle_data d k) as [[[]|e0] k'].
      * destruct (IH s' k') as [IHn IHe]. cbn [failure calls]. split.
        -- intros Hf. destruct (IHn Hf) as (ds & Hl & Hc).
           exists (d :: ds). split; [cbn; lia|]. rewrite Hc. reflexivity.
        -- intros e Hf. destruct (IHe e Hf) as (ds & Hl & Hc).
           exists (d :: ds). split; [cbn; lia|].
           destruct Hc as [Hc|(d' & Hc)]; rewrite Hc.
           ++ left. reflexivity.
           ++ right. exists d'. reflexivity.
      * cbn [failure calls]. split; [discriminate|].
        intros e Hf. inversion Hf; subst. exists []. split; [cbn; lia|].
        right. exists d. reflexivity.
    + cbn [failure calls]. split; [discriminate|].
      intros e Hf. inversion Hf; subst. exists []. split; [cbn; lia|].
      left. reflexivity.
Qed.

(** With [callback num] pending and [m] more cycles to go after this one,
    the loop runs the cycles up to the first that raises.  Given [m + 1]
    iterations, and one more to find itself idle when it was the last cycle
    that raised, [run_forever] ends stopped if every cycle returned and
    idle for ever otherwise; either way with nothing ready and no timer. *)
Lemma run_counted (n : Z) (m : nat) :
  forall (num : Z) (a : app_t S K D) (fuel : nat),
    poll (_args a) = Some n -> num + Z.of_nat m = n ->
    pending num (_loop a) ->
    (m < fuel)%nat ->
    (failure (cycles (Datatypes.S m) (_sensor a) (_this a)) = None \/
     (Datatypes.S m < fuel)%nat) ->
    exists l,
      run_forever fuel a
      = (ending (failure (cycles (Datatypes.S m) (_sensor a) (_this a))),
         mkApp (_args a)
           (sensor_left (cycles (Datatypes.S m) (_sensor a) (_this a)))
           (handler_left (cycles (Datatypes.S m) (_sensor a) (_this a)))
           l
           (journal a
            ++ calls (cycles (Datatypes.S m) (_sensor a) (_this a)))) /\
      asyncio._ready l = [] /\ asyncio._scheduled l = [] /\
      asyncio._stopping l = false /\
      asyncio._reported l
      = asyncio._reported (_loop a)
        ++ reports (failure (cycles (Datatypes.S m) (_sensor a) (_this a))).
Proof.
  induction m as [|m IH]; intros num a fuel Hn Hm Hp Hf He;
    (destruct fuel as [|fuel]; [lia|]);
    destruct (wake_pending Hp) as (Hs & _);
    cbn [cycles] in *;
    destruct (sensor_measure (_sensor a)) as [[d|e] s'] eqn:Em;
    try (destruct (_handle_data d (_this a)) as [[[]|e] k'] eqn:Eh);
    cbn [failure calls sensor_left handler_left ending reports] in *.
  - destruct (run_once_delivers a Hp Em Eh) as (now & E1).
    cbn [run_forever]. rewrite Hs, E1. cbn [_loop _args]. rewrite Hn.
    assert (num = n) by lia. subst num.
    rewrite ne_poll_same. cbn [asyncio._stopping].
    eexists. split; [cbn; rewrite <- app_assoc; reflexivity|].
    cbn. rewrite app_nil_r. repeat split; reflexivity.
  - destruct (run_once_handler_raises a Hp Em Eh) as (now & E1).
    rewrite (@run_forever_after_raise a _ num (Datatypes.S fuel) Hp E1
               eq_refl eq_refl eq_refl)
      by (destruct He as [He|He]; [discriminate|lia]).
    eexists. split; [rewrite <- app_assoc; reflexivity|].
    cbn. repeat split; reflexivity.
  - destruct (run_once_measure_raises a Hp Em) as (now & E1).
    rewrite (@run_forever_after_raise a _ num (Datatypes.S fuel) Hp E1
               eq_refl eq_refl eq_refl)
      by (destruct He as [He|He]; [discriminate|lia]).
    eexists. split; [reflexivity|].
    cbn. repeat split; reflexivity.
  - destruct (run_once_delivers a Hp Em Eh) as (now & E1).
    cbn [run_forever]. rewrite Hs, E1. cbn [_loop _args]. rewrite Hn.
    rewrite ne_poll_other by lia. cbn [asyncio._stopping].
    match goal with
    | |- context [run_forever fuel ?x] => set (a1 := x)
    end.
    destruct (IH (num + 1) a1 fuel) as (l & Er & R1 & R2 & R3 & R4).
    + exact Hn.
    + lia.
    + split; [reflexivity|]. right. split; [reflexivity|].
      eexists. reflexivity.
    + lia.
    + destruct He as [He|He]; [left; exact He|right; lia].
    + exists l. split.
      * rewrite Er. subst a1. cbn [_args _sensor _this journal].
        rewrite <- !app_assoc. reflexivity.
      * subst a1. cbn [_loop _sensor _this asyncio._reported] in *.
        repeat split; assumption.
  - destruct (run_once_handler_raises a Hp Em Eh) as (now & E1).
    rewrite (@run_forever_after_raise a _ num (Datatypes.S fuel) Hp E1
               eq_refl eq_refl eq_refl) by lia.
    eexists. split; [rewrite <- app_assoc; reflexivity|].
    cbn. repeat split; reflexivity.
  - destruct (run_once_measure_raises a Hp Em) as (now & E1).
    rewrite (@run_forever_after_raise a _ num (Datatypes.S fuel) Hp E1
               eq_refl eq_refl eq_refl) by lia.
    eexists. split; [reflexivity|].
    cbn. repeat split; reflexivity.
Qed.

(** [m] cycles that all return and all re-arm the timer: the loop is still
    running, with the next callback pending. *)
Lemma cycles_running (m : nat) :
  forall (num : Z) (a : app_t S K D),
    pending num (_loop a) ->
    (forall i, (i < m)%nat ->
               ne_poll (num + Z.of_nat i) (poll (_args a)) = true) ->
    failure (cycles m (_sensor a) (_this a)) = None ->
    exists l,
      pending (num + Z.of_nat m) l /\
      asyncio._reported l = asyncio._reported (_loop a) /\
      run_forever m a
      = (Running,
         mkApp (_args a)
               (sensor_left (cycles m (_sensor a) (_this a)))
               (handler_left (cycles m (_sensor a) (_this a))) l
               (journal a ++ calls (cycles m (_sensor a) (_this a)))).
Proof.
  induction m as [|m IH]; intros num a Hp Hn Hc.
  - exists (_loop a). split; [rewrite Z.add_0_r; exact Hp|].
    split; [reflexivity|].
    cbn. rewrite app_nil_r. destruct a; reflexivity.
  - destruct (wake_pending Hp) as (Hs & _).
    cbn [cycles] in *.
    destruct (sensor_measure (_sensor a)) as [[d|e] s'] eqn:Em;
      [|discriminate].
    destruct (_handle_data d (_this a)) as [[[]|e] k'] eqn:Eh;
      [|discriminate].
    cbn [failure calls sensor_left handler_left] in *.
    destruct (run_once_delivers a Hp Em Eh) as (now & E1).
    pose proof (Hn O ltac:(lia)) as N0. rewrite Z.add_0_r in N0.
    rewrite N0 in E1.
    cbn [run_forever]. rewrite Hs, E1. cbn [_loop asyncio._stopping].
    match goal with
    | |- context [run_forever m ?x] => set (a1 := x)
    end.
    destruct (IH (num + 1) a1) as (l & Hl & Hr & Er).
    + split; [reflexivity|]. right. split; [reflexivity|].
      eexists. reflexivity.
    + intros i Hi. subst a1. cbn [_args].
      replace (num + 1 + Z.of_nat i) with (num + Z.of_nat (Datatypes.S i))
        by lia.
      apply Hn. lia.
    + exact Hc.
    + exists l. split; [|split].
      * replace (num + Z.of_nat (Datatypes.S m)) with (num + 1 + Z.of_nat m)
          by lia.
        exact Hl.
      * rewrite Hr. reflexivity.
      * rewrite Er. subst a1. cbn [_args _sensor _this journal].
        rewrite <- !app_assoc. reflexivity.
Qed.

(** C7, as the code has it.  For every finite cycle count [n >= 1] given as
    [poll], the acquisition loop started by [_start] runs cycles until one
    of them raises or [n] have been completed.  If [measure] and
    [_handle_data] return in each of the first [n] cycles, [measure] is
    called and its result handed to [_handle_data] exactly [n] times, the
    loop is still running during the first [n - 1] iterations, and the
    [n]-th cycle stops it instead of scheduling another tick.  If a cycle
    raises, it is the last: fewer than [n] cycles have been completed, no
    further tick is scheduled, [stop] is not called, and the loop stays
    idle for ever with the exception passed to its handler.  In both cases
    the sensor and the handler are left as the last call left them. *)
Theorem start_runs_poll_cycles
    (args : args_t) (s : S) (k : K) (n : Z) (fuel : nat) :
  1 <= n ->
  poll args = Some n ->
  ((fuel < Z.to_nat n)%nat ->
   failure (cycles fuel s k) = None ->
   fst (run fuel (init args s k)) = Running) /\
  ((Z.to_nat n <= fuel)%nat ->
   failure (cycles (Z.to_nat n) s k) = None \/ (Z.to_nat n < fuel)%nat ->
   exists a,
     run fuel (init args s k)
     = (ending (failure (cycles (Z.to_nat n) s k)), a) /\
     journal a = calls (cycles (Z.to_nat n) s k) /\
     _sensor a = sensor_left (cycles (Z.to_nat n) s k) /\
     _this a = handler_left (cycles (Z.to_nat n) s k) /\
     asyncio._ready (_loop a) = [] /\
     asyncio._scheduled (_loop a) = [] /\
     asyncio._reported (_loop a)
     = reports (failure (cycles (Z.to_nat n) s k))) /\
  (failure (cycles (Z.to_nat n) s k) = None ->
   exists ds,
     Z.of_nat (List.length ds) = n /\
     calls (cycles (Z.to_nat n) s k) = delivered ds /\
     List.length (filter is_Measure (calls (cycles (Z.to_nat n) s k)))
     = Z.to_nat n /\
     List.length (filter is_HandleData (calls (cycles (Z.to_nat n) s k)))
     = Z.to_nat n) /\
  (forall e,
     failure (cycles (Z.to_nat n) s k) = Some e ->
     exists ds,
       Z.of_nat (List.length ds) < n /\
       (calls (cycles (Z.to_nat n) s k) = delivered ds ++ [Measure (Raise e)]
        \/ exists d,
             calls (cycles (Z.to_nat n) s k)
             = delivered ds ++ [Measure (Ok d); HandleData d (Raise e)])).
Proof.
  intros Hn Hp.
  assert (P : pending 1 (_loop (snd (_start (init (D:=D) args s k))))).
  { split; [reflexivity|]. left. split; reflexivity. }
  split; [|split; [|split]].
  - intros Hf Hc. unfold run.
    destruct (@cycles_running fuel 1 (snd (_start (init (D:=D) args s k))) P)
      as (l & _ & _ & Er).
    + intros i Hi. cbn [_start on_loop modify snd _args init]. rewrite Hp.
      apply ne_poll_other. lia.
    + exact Hc.
    + rewrite Er. reflexivity.
  - intros Hf He. unfold run.
    replace (Z.to_nat n) with (Datatypes.S (Z.to_nat (n - 1))) in * by lia.
    destruct (@run_counted n (Z.to_nat (n - 1)) 1
                (snd (_start (init (D:=D) args s k))) fuel)
      as (l & Er & R1 & R2 & _ & R4).
    + exact Hp.
    + lia.
    + exact P.
    + lia.
    + exact He.
    + eexists. split; [exact Er|].
      cbn [journal _sensor _this _loop app]. repeat split; assumption.
  - intros Hc. destruct (cycles_calls (Z.to_nat n) s k) as [Hd _].
    destruct (Hd Hc) as (ds & Hl & Ec). exists ds.
    destruct (delivered_counts ds) as [Cm Ch].
    rewrite Ec, Cm, Ch, Hl. repeat split; try reflexivity; lia.
  - intros e Hc. destruct (cycles_calls (Z.to_nat n) s k) as [_ Hd].
    destruct (Hd e Hc) as (ds & Hl & Ec). exists ds. split; [lia|exact Ec].
Qed.

(** C8, as the code has it.  When [measure] raises, the exception leaves the
    callback at once: the measurement is not handed to [_handle_data], no
    further cycle is scheduled and [stop] is not called.  The event loop
    passes the exception to its handler and keeps running, but with nothing
    left to run: the acquisition has ended, and [run_forever] does not
    return. *)
Theorem failed_measurement_ends_polling
    (a : app_t S K D) (num : Z) (e : exn) (s' : S) :
  pending num (_loop a) ->
  sensor_measure (_sensor a) = (Raise e, s') ->
  callback num a
  = (Raise e,
     mkApp (_args a) s' (_this a) (_loop a)
           (journal a ++ [Measure (Raise e)])) /\
  forall fuel, (2 <= fuel)%nat ->
    exists now,
      run_forever fuel a
      = (Asleep,
         mkApp (_args a) s' (_this a)
           (asyncio.mkLoop [] [] false now
              (asyncio._reported (_loop a) ++ [e]))
           (journal a ++ [Measure (Raise e)])).
Proof.
  intros Hp Em. split.
  - apply callback_measure_raises. assumption.
  - intros fuel Hf.
    destruct (run_once_measure_raises a Hp Em) as (now & E1).
    exists now. eapply run_forever_after_raise; eauto.
Qed.

End Scheduler.

(** ** The fan-out of [SensorNode] *)

Section Fanout.
Context {S WS PUB D : Type}.
Context `{Sensor S D} `{WebServer WS D} `{Publisher PUB D}.

Import Application.
Import SensorNode.

Lemma handle_data_broadcast_raises
    (n : node_t WS PUB) (data : D) (ws ws' : WS) (e : exn) :
  _webserver n = Some ws ->
  broadcast data ws = (Raise e, ws') ->
  handle_data data n = (Raise e, mkNode (Some ws') (_publisher n)).
Proof.
  intros Ew Eb. unfold handle_data, bind, webserver_broadcast.
  rewrite Ew, Eb. reflexivity.
Qed.

Lemma handle_data_broadcast_returns
    (n : node_t WS PUB) (data : D) (ws ws' : WS) (pb pb' : PUB)
    (r : result unit) :
  _webserver n = Some ws ->
  broadcast data ws = (Ok tt, ws') ->
  _publisher n = Some pb ->
  publish data pb = (r, pb') ->
  handle_data data n = (r, mkNode (Some ws') (Some pb')).
Proof.
  intros Ew Eb Ep Epub.
  unfold handle_data, bind, webserver_broadcast, publisher_publish.
  rewrite Ew, Eb. cbn. rewrite Ep, Epub. reflexivity.
Qed.

(** C9, as the code has it.  [_handle_data] calls the web server and then
    the publisher, with nothing in between to catch an exception.  If
    [broadcast] raises, [publish] is not called for that measurement: the
    publisher is left as it was and the exception leaves [_handle_data].
    If [broadcast] returns, the measurement goes to the publisher, whose
    outcome is that of [_handle_data]; a failing publisher does not undo the
    broadcast.  Whichever sink raised, the exception leaves the scheduler
    callback too: no further cycle is scheduled and the acquisition ends. *)
Theorem sink_failure_aborts_delivery
    (a : app_t S (node_t WS PUB) D) (num : Z) (data : D) (s' : S) :
  pending num (_loop a) ->
  sensor_measure (_sensor a) = (Ok data, s') ->
  (forall ws ws' e,
     _webserver (_this a) = Some ws ->
     broadcast data ws = (Raise e, ws') ->
     handle_data data (_this a)
     = (Raise e, mkNode (Some ws') (_publisher (_this a)))) /\
  (forall ws ws' pb pb' r,
     _webserver (_this a) = Some ws ->
     broadcast data ws = (Ok tt, ws') ->
     _publisher (_this a) = Some pb ->
     publish data pb = (r, pb') ->
     handle_data data (_this a) = (r, mkNode (Some ws') (Some pb'))) /\
  (forall e n',
     handle_data data (_this a) = (Raise e, n') ->
     forall fuel, (2 <= fuel)%nat ->
       exists now,
         run_forever fuel a
         = (Asleep,
            mkApp (_args a) s' n'
              (asyncio.mkLoop [] [] false now
                 (asyncio._reported (_loop a) ++ [e]))
              ((journal a ++ [Measure (Ok data)])
               ++ [HandleData data (Raise e)]))).
Proof.
  intros Hp Em. split; [|split].
  - intros ws ws' e. apply handle_data_broadcast_raises.
  - intros ws ws' pb pb' r. apply handle_data_broadcast_returns.
  - intros e n' Eh fuel Hf.
    change (_handle_data data (_this a) = (Raise e, n')) in Eh.
    destruct (run_once_handler_raises a Hp Em Eh) as (now & E1).
    exists now. eapply run_forever_after_raise; eauto.
Qed.

End Fanout.

(** ** The BME280 driver: construction, decoding and the cache *)

Lemma lor_shiftl_byte (hi lo : Z) :
  0 <= lo < 256 -> Z.lor (Z.shiftl hi 8) lo = 256 * hi + lo.
Proof.
  intros Hlo. rewrite Z.shiftl_mul_pow2 by lia. change (2 ^ 8) with 256.
  assert (L : Z.land (hi * 256) lo = 0).
  { apply Z.bits_inj'. intros n Hn.
    rewrite Z.land_spec, Z.bits_0.
    destruct (Z.lt_ge_cases n 8) as [Lt|Ge].
    - change 256 with (2 ^ 8). rewrite Z.mul_pow2_bits_low by lia.
      reflexivity.
    - destruct (Z.eq_dec lo 0) as [->|Hz];
        [rewrite Z.bits_0, andb_false_r; reflexivity|].
      rewrite (Z.bits_above_log2 lo n), andb_false_r; [reflexivity|lia|].
      apply Z.lt_le_trans with 8; [|assumption].
      apply Z.log2_lt_pow2; [lia|]. change (2 ^ 8) with 256. lia. }
  rewrite <- Z.lxor_lor by assumption.
  rewrite <- Z.add_nocarry_lxor by assumption. lia.
Qed.

Section DecoderEdges.
Context {F : Type} `{PyFloat F}.
Context {I2C : Type} `{I2CController I2C}.

Import BME280.

Local Arguments is_byte : simpl never.
Local Arguments signed : simpl never.
Local Arguments le16 : simpl never.
Local Arguments Z.lor : simpl never.
Local Arguments Z.land : simpl never.
Local Arguments Z.shiftl : simpl never.
Local Arguments Z.shiftr : simpl never.

Ltac split_cond E :=
  match type of E with
  | context [if ?b then _ else _] => destruct b eqn:?; cbn in E
  end.

(** The bytes the decoder insists on: the whole first block, and all of
    the second but E5. *)
Lemma read_calibration_data_bytes (o : self_t F) (c c1 c2 : I2C) b88 bE1 st' :
  read_i2c_block_data (addr o) 0x88 26 c = (Ok b88, c1) ->
  read_i2c_block_data (addr o) 0xE1 7 c1 = (Ok bE1, c2) ->
  _read_calibration_data (o, c) = (Ok tt, st') ->
  forallb is_byte b88 = true /\
  forall i, (i < 7)%nat -> i <> 4%nat -> is_byte (nth i bE1 0) = true.
Proof.
  intros R1 R2 E.
  unfold _read_calibration_data, bind, self, i2c_ctrl, lift, assign_cal,
    assign, raise in E.
  cbn [fst snd] in E. rewrite R1 in E.
  destruct (bytearray b88) as [l|] eqn:B; cbn [rbind] in E; [|discriminate].
  apply bytearray_inv in B. destruct B as [-> B].
  split; [exact B|].
  do 26 (destruct b88 as [|? b88]; [cbn in E; discriminate|]).
  destruct b88; [|cbn in E; discriminate].
  cbn [unpack rbind fst snd] in E. rewrite R2 in E.
  unfold unpack_b, bytearray in E.
  destruct bE1 as [|e1 [|e2 [|e3 [|e4 [|e5 [|e6 [|e7 rest]]]]]]];
    cbn in E; repeat split_cond E; try discriminate.
  repeat match goal with
         | Hb : (_ && _)%bool = true |- _ =>
             apply andb_true_iff in Hb; destruct Hb
         end.
  intros i Hi Hn.
  do 7 (destruct i as [|i]; [cbn [nth]; (assumption || congruence)|]).
  lia.
Qed.

(** X5.  Whenever [_read_calibration_data] returns, every constant lies in
    the range of its register: dig_T1 and dig_P1 are unsigned 16-bit, the
    other words at 0x88 and dig_H2 signed 16-bit, dig_H1 and dig_H3 unsigned
    bytes, dig_H4 and dig_H5 signed 12-bit, dig_H6 a signed byte.  The
    decoder itself refuses any item outside [range(256)] among those it
    uses, except E5 (the fifth item of the block at 0xE1), which it masks
    and shifts as it comes: that one is assumed to be a byte. *)
Theorem calibration_within_register_ranges
    (o : self_t F) (c c1 c2 : I2C) (b88 bE1 : list Z) (st' : self_t F * I2C) :
  read_i2c_block_data (addr o) 0x88 26 c = (Ok b88, c1) ->
  read_i2c_block_data (addr o) 0xE1 7 c1 = (Ok bE1, c2) ->
  is_byte (nth 4 bE1 0) = true ->
  _read_calibration_data (o, c) = (Ok tt, st') ->
  let k := cal (fst st') in
  0 <= dig_T1 k < 65536 /\ 0 <= dig_P1 k < 65536 /\
  (forall f : s16_field, -32768 <= s16_value f k < 32768) /\
  0 <= dig_H1 k < 256 /\ 0 <= dig_H3 k < 256 /\
  -2048 <= dig_H4 k < 2048 /\ -2048 <= dig_H5 k < 2048 /\
  -128 <= dig_H6 k < 128.
Proof.
  intros R1 R2 B5 E k. subst k.
  destruct (read_calibration_data_bytes o c R1 R2 E) as [B1 B2].
  destruct (read_calibration_data_inv o c R1 R2 E) as (-> & _ & _).
  cbn [fst snd cal set_cal].
  pose proof (fun i => nth_is_byte b88 i B1) as N1.
  assert (N2 : forall i, (i < 7)%nat -> 0 <= nth i bE1 0 < 256).
  { intros i Hi. apply is_byte_range.
    destruct (Nat.eq_dec i 4) as [->|Hn]; [exact B5|apply B2; assumption]. }
  pose proof (fun i j => le16_range (N1 i) (N1 j)) as U1.
  pose proof (fun i j => signed16_range (U1 i j)) as S1.
  assert (E5 : 0 <= nth 4 bE1 0 < 256) by (apply N2; lia).
  assert (H4 : 0 <= Z.land (nth 4 bE1 0) 15 < 16).
  { change 15 with (Z.ones 4). rewrite Z.land_ones by lia.
    change (2 ^ 4) with 16. apply Z.mod_pos_bound. lia. }
  assert (H5 : 0 <= Z.shiftr (nth 4 bE1 0) 4 < 16).
  { rewrite Z.shiftr_div_pow2 by lia. change (2 ^ 4) with 16.
    split; [apply Z.div_pos; lia | apply Z.div_lt_upper_bound; lia]. }
  unfold register_map.
  cbn [dig_T1 dig_P1 dig_H1 dig_H3 dig_H4 dig_H5 dig_H6].
  rewrite !lor_shiftl_nibble by assumption.
  pose proof (signed8_range (N2 3%nat ltac:(lia))).
  pose proof (signed8_range (N2 5%nat ltac:(lia))).
  pose proof (signed8_range (N2 6%nat ltac:(lia))).
  pose proof (N2 2%nat ltac:(lia)).
  repeat split; try apply U1; try apply N1; try lia.
  - destruct f; cbn [s16_value dig_T2 dig_T3 dig_P2 dig_P3 dig_P4 dig_P5
                      dig_P6 dig_P7 dig_P8 dig_P9 dig_H2];
      try apply S1.
    apply signed16_range, le16_range; apply N2; lia.
  - destruct f; cbn [s16_value dig_T2 dig_T3 dig_P2 dig_P3 dig_P4 dig_P5
                      dig_P6 dig_P7 dig_P8 dig_P9 dig_H2];
      try apply S1.
    apply signed16_range, le16_range; apply N2; lia.
Qed.

Lemma le16_sum (lo hi : Z) : 0 <= lo < 256 -> le16 lo hi = lo + 256 * hi.
Proof.
  intros Hlo. unfold le16. rewrite Z.lor_comm.
  rewrite lor_shiftl_byte by assumption. lia.
Qed.

(** X6.  The fields that are not sign-extended.  On well-formed register
    blocks dig_T1 and dig_P1 are the unsigned little-endian words at 0x88
    and 0x8E (low byte plus 256 times high byte, so [0xFF, 0xFF] is 65535),
    dig_H1 is the byte at 0xA1 (the last of the first block; the byte at
    0xA0 is skipped), dig_H3 the unsigned byte at 0xE3, and dig_H6 the
    signed byte at 0xE7. *)
Theorem calibration_unsigned_fields
    (o : self_t F) (c c1 c2 : I2C) (b88 bE1 : list Z) :
  read_i2c_block_data (addr o) 0x88 26 c = (Ok b88, c1) ->
  read_i2c_block_data (addr o) 0xE1 7 c1 = (Ok bE1, c2) ->
  List.length b88 = 26%nat -> forallb is_byte b88 = true ->
  List.length bE1 = 7%nat -> forallb is_byte bE1 = true ->
  let r := _read_calibration_data (o, c) in
  let k := cal (fst (snd r)) in
  fst r = Ok tt /\
  dig_T1 k = nth 0 b88 0 + 256 * nth 1 b88 0 /\
  dig_P1 k = nth 6 b88 0 + 256 * nth 7 b88 0 /\
  dig_H1 k = nth 25 b88 0 /\
  dig_H3 k = nth 2 bE1 0 /\
  dig_H6 k = signed 8 (nth 6 bE1 0).
Proof.
  intros R1 R2 L1 B1 L2 B2 r k. subst k r.
  rewrite (read_calibration_data_run o c R1 R2 L1 B1 L2 B2).
  cbn [fst snd cal set_cal]. unfold register_map.
  cbn [dig_T1 dig_P1 dig_H1 dig_H3 dig_H6].
  pose proof (fun i => nth_is_byte b88 i B1) as N1.
  rewrite !le16_sum by apply N1.
  pose proof (N1 0%nat). pose proof (N1 1%nat).
  pose proof (N1 6%nat). pose proof (N1 7%nat).
  repeat split; lia.
Qed.

End DecoderEdges.

Lemma lor_shiftl_low (a b n : Z) :
  0 <= n -> 0 <= b < 2 ^ n -> Z.lor (Z.shiftl a n) b = a * 2 ^ n + b.
Proof.
  intros Hn Hb. rewrite Z.shiftl_mul_pow2 by lia.
  assert (L : Z.land (a * 2 ^ n) b = 0).
  { apply Z.bits_inj'. intros i Hi.
    rewrite Z.land_spec, Z.bits_0.
    destruct (Z.lt_ge_cases i n) as [Lt|Ge].
    - rewrite Z.mul_pow2_bits_low by lia. reflexivity.
    - destruct (Z.eq_dec b 0) as [->|Hz];
        [rewrite Z.bits_0, andb_false_r; reflexivity|].
      rewrite (Z.bits_above_log2 b i), andb_false_r; [reflexivity|lia|].
      apply Z.lt_le_trans with n; [|assumption].
      apply Z.log2_lt_pow2; lia. }
  rewrite <- Z.lxor_lor by assumption.
  rewrite <- Z.add_nocarry_lxor by assumption. reflexivity.
Qed.

Section Constructor.
Context {F : Type} `{PyFloat F}.
Context {I2C : Type} `{I2CController I2C}.

Import BME280.

Local Arguments is_byte : simpl never.
Local Arguments signed : simpl never.
Local Arguments le16 : simpl never.
Local Arguments Z.lor : simpl never.
Local Arguments Z.land : simpl never.
Local Arguments Z.shiftl : simpl never.
Local Arguments Z.shiftr : simpl never.

Lemma unpack_88_length (bs : list Z) :
  List.length bs <> 26%nat ->
  unpack [fmt_H; fmt_h; fmt_h; fmt_H; fmt_h; fmt_h; fmt_h;
          fmt_h; fmt_h; fmt_h; fmt_h; fmt_h; fmt_B; fmt_B] bs
  = Raise StructError.
Proof.
  intros L.
  do 26 (destruct bs as [|? bs]; [reflexivity|]).
  destruct bs; [cbn in L; lia|reflexivity].
Qed.

Lemma new_unfold (a : Z) (c : I2C) :
  new (F:=F) a c
  = match (_read_calibration_data ;;
           assign (set_settings 1 1 1 3 0 5) ;;
           _set_meas_and_hum ;;
           _set_config)%py (blank a, c) with
    | (Ok _, (o, c')) => (Ok o, c')
    | (Raise e, (_, c')) => (Raise e, c')
    end.
Proof. reflexivity. Qed.

(** X2.  Construction checks the first calibration block.  If the
    controller answers the read at 0x88 with a list holding an item outside
    [range(256)], [BME280(...)] raises [ValueError]; if the items are bytes
    but not 26 of them, it raises [struct.error].  In both cases the second
    block is not read and no register is written: the controller is left
    as the first read left it. *)
Theorem constructor_refuses_malformed_first_block
    (a : Z) (c c1 : I2C) (b88 : list Z) :
  read_i2c_block_data a 0x88 26 c = (Ok b88, c1) ->
  (forallb is_byte b88 = false -> new (F:=F) a c = (Raise ValueError, c1)) /\
  (forallb is_byte b88 = true -> List.length b88 <> 26%nat ->
   new (F:=F) a c = (Raise StructError, c1)).
Proof.
  intros R1. split.
  - intros B. rewrite new_unfold.
    unfold _read_calibration_data, bind, self, i2c_ctrl, lift.
    cbn [fst snd addr blank]. rewrite R1. unfold bytearray. rewrite B.
    reflexivity.
  - intros B L. rewrite new_unfold.
    unfold _read_calibration_data, bind, self, i2c_ctrl, lift.
    cbn [fst snd addr blank]. rewrite R1. unfold bytearray at 1. rewrite B.
    cbn [rbind]. rewrite (unpack_88_length b88 L). reflexivity.
Qed.

(** X3.  Construction fails on a short second calibration block.  With a
    well-formed first block and a block at 0xE1 of fewer than seven bytes,
    [BME280(...)] raises [struct.error] when there are fewer than three
    bytes (the slice for dig_H2 and dig_H3 is too short) and [IndexError]
    otherwise (the first missing item is indexed); no settings register is
    written. *)
Theorem constructor_refuses_short_second_block
    (a : Z) (c c1 c2 : I2C) (b88 bE1 : list Z) :
  read_i2c_block_data a 0x88 26 c = (Ok b88, c1) ->
  read_i2c_block_data a 0xE1 7 c1 = (Ok bE1, c2) ->
  List.length b88 = 26%nat -> forallb is_byte b88 = true ->
  forallb is_byte bE1 = true ->
  (List.length bE1 < 7)%nat ->
  new (F:=F) a c
  = (Raise (if (List.length bE1 <? 3)%nat then StructError else IndexError),
     c2).
Proof.
  intros R1 R2 L1 B1 B2 L2.
  do 26 (destruct b88 as [|? b88]; [discriminate|]).
  destruct b88; [|discriminate].
  rewrite new_unfold.
  unfold _read_calibration_data, bind, self, i2c_ctrl, lift, assign_cal,
    assign, raise.
  cbn [fst snd addr blank]. rewrite R1. unfold bytearray at 1. rewrite B1.
  cbn [unpack rbind fst snd addr set_cal]. rewrite R2.
  unfold unpack_b, bytearray.
  destruct bE1 as [|e1 [|e2 [|e3 [|e4 [|e5 [|e6 [|e7 rest]]]]]]];
    cbn [List.length] in L2; try lia;
    cbn [forallb] in B2; rewrite ?andb_true_iff in B2;
    repeat match goal with
           | Hb : _ /\ _ |- _ => destruct Hb
           end;
    repeat (cbn;
            match goal with
            | Hb : is_byte ?x = true |- context [is_byte ?x] => rewrite Hb
            end);
    reflexivity.
Qed.

End Constructor.

Section Settings.
Context {F : Type} `{PyFloat F}.
Context {I2C : Type} `{I2CController I2C}.

Import BME280.

Lemma pack3 (a b c : Z) :
  0 <= b < 8 -> 0 <= c < 4 ->
  Z.lor (Z.lor (Z.lor 0 (Z.shiftl a 5)) (Z.shiftl b 2)) c
  = 32 * a + 4 * b + c.
Proof.
  intros Hb Hc. rewrite Z.lor_0_l.
  replace (Z.shiftl a 5) with (Z.shiftl (Z.shiftl a 3) 2)
    by (rewrite Z.shiftl_shiftl by lia; reflexivity).
  rewrite <- Z.shiftl_lor.
  rewrite (@lor_shiftl_low a b 3) by (change (2 ^ 3) with 8; lia).
  rewrite lor_shiftl_low by (change (2 ^ 2) with 4; lia).
  change (2 ^ 3) with 8. change (2 ^ 2) with 4. lia.
Qed.

Lemma unpack3_fields (a b c : Z) :
  0 <= a -> 0 <= b < 8 -> 0 <= c < 4 ->
  let v := 32 * a + 4 * b + c in
  Z.shiftr v 5 = a /\ Z.land (Z.shiftr v 2) 7 = b /\ Z.land v 3 = c.
Proof.
  intros Ha Hb Hc v. subst v.
  rewrite !Z.shiftr_div_pow2 by lia.
  change 7 with (Z.ones 3). change 3 with (Z.ones 2) at 2.
  rewrite !Z.land_ones by lia.
  change (2 ^ 5) with 32. change (2 ^ 2) with 4. change (2 ^ 3) with 8.
  repeat split.
  - symmetry. apply (Z.div_unique _ 32 a (4 * b + c)); lia.
  - replace ((32 * a + 4 * b + c) / 4) with (8 * a + b)
      by (apply (Z.div_unique _ 4 _ c); lia).
    symmetry. apply (Z.mod_unique _ 8 a b); lia.
  - symmetry. apply (Z.mod_unique _ 4 (8 * a + b) c); lia.
Qed.

(** X4.  The settings bytes.  With the fields within their widths (three
    bits for osrs_t, osrs_p, t_sb and filter, two for the power mode),
    [_set_meas] writes [32 * osrs_t + 4 * osrs_p + power_mode] to 0xF4,
    [_set_config] writes [32 * t_sb + 4 * filter] to 0xF5 and [_set_hum]
    writes osrs_h to 0xF2; each value is a byte, each field is recovered
    from it by the shift and mask of its position, and the two low bits of
    the config byte are never set. *)
Theorem settings_registers_encoding (o : self_t F) (c : I2C) :
  0 <= osrs_t o < 8 -> 0 <= osrs_p o < 8 -> 0 <= power_mode o < 4 ->
  0 <= t_sb o < 8 -> 0 <= filter o < 8 ->
  let meas := 32 * osrs_t o + 4 * osrs_p o + power_mode o in
  let config := 32 * t_sb o + 4 * filter o in
  _set_meas (o, c)
  = i2c_ctrl (write_byte_data (addr o) REG_CTRL_MEAS meas) (o, c) /\
  _set_config (o, c)
  = i2c_ctrl (write_byte_data (addr o) REG_CONFIG config) (o, c) /\
  _set_hum (o, c)
  = i2c_ctrl (write_byte_data (addr o) REG_CTRL_HUM (osrs_h o)) (o, c) /\
  0 <= meas < 256 /\ 0 <= config < 256 /\
  Z.shiftr meas 5 = osrs_t o /\ Z.land (Z.shiftr meas 2) 7 = osrs_p o /\
  Z.land meas 3 = power_mode o /\
  Z.shiftr config 5 = t_sb o /\ Z.land (Z.shiftr config 2) 7 = filter o /\
  Z.land config 3 = 0.
Proof.
  intros Ht Hp Hm Hs Hf meas config. subst meas config.
  destruct (@unpack3_fields (osrs_t o) (osrs_p o) (power_mode o)
              (proj1 Ht) Hp Hm) as (D1 & D2 & D3).
  destruct (@unpack3_fields (t_sb o) (filter o) 0 (proj1 Hs) Hf ltac:(lia))
    as (D4 & D5 & D6).
  rewrite Z.add_0_r in D4, D5, D6.
  repeat split; try assumption; try lia.
  - unfold _set_meas, bind, self. cbn [fst snd]. cbv zeta.
    rewrite pack3 by assumption. reflexivity.
  - unfold _set_config, bind, self. cbn [fst snd]. cbv zeta.
    pose proof (@pack3 (t_sb o) (filter o) 0 Hf ltac:(lia)) as P.
    rewrite Z.lor_0_r, Z.add_0_r in P. rewrite P. reflexivity.
Qed.

(** X1.  Construction on a device that answers.  [BME280(i2c_ctrl, addr)]
    reads the two calibration blocks, then writes 0x01 to ctrl_hum (0xF2),
    0x27 to ctrl_meas (0xF4) and 0xA0 to config (0xF5), in that order, the
    humidity register before ctrl_meas.  The object it returns holds the
    calibration of the register map, [t_fine] and the three cached readings
    at zero, and the settings (1, 1, 1, 3, 0, 5). *)
Theorem constructor_on_answering_device
    (a : Z) (c c1 c2 c3 c4 c5 : I2C) (b88 bE1 : list Z) :
  read_i2c_block_data a 0x88 26 c = (Ok b88, c1) ->
  read_i2c_block_data a 0xE1 7 c1 = (Ok bE1, c2) ->
  List.length b88 = 26%nat -> forallb is_byte b88 = true ->
  List.length bE1 = 7%nat -> forallb is_byte bE1 = true ->
  write_byte_data a REG_CTRL_HUM 0x01 c2 = (Ok tt, c3) ->
  write_byte_data a REG_CTRL_MEAS 0x27 c3 = (Ok tt, c4) ->
  write_byte_data a REG_CONFIG 0xA0 c4 = (Ok tt, c5) ->
  new (F:=F) a c
  = (Ok (mkSelf a (register_map b88 bE1) 0 (float 0) (float 0) (float 0)
                1 1 1 3 0 5),
     c5).
Proof.
  intros R1 R2 L1 B1 L2 B2 W1 W2 W3.
  rewrite new_unfold. unfold bind at 1.
  rewrite (read_calibration_data_run (blank a) c R1 R2 L1 B1 L2 B2).
  unfold _set_meas_and_hum, _set_hum, _set_meas, _set_config, assign, self,
    i2c_ctrl.
  repeat (unfold bind;
          cbn [fst snd addr set_cal set_settings blank osrs_h osrs_t osrs_p
               power_mode filter t_sb]).
  change (Z.lor 0 1) with 1. rewrite W1.
  cbn [fst snd addr set_cal set_settings blank osrs_h osrs_t osrs_p
       power_mode filter t_sb].
  change (Z.lor (Z.lor (Z.lor 0 (Z.shiftl 1 5)) (Z.shiftl 1 2)) 3) with 0x27.
  rewrite W2.
  cbn [fst snd addr set_cal set_settings blank osrs_h osrs_t osrs_p
       power_mode filter t_sb].
  change (Z.lor (Z.lor 0 (Z.shiftl 5 5)) (Z.shiftl 0 2)) with 0xA0.
  rewrite W3. reflexivity.
Qed.

(** X7.  The raw sample.  [_read_raw_sensor_data] reads three bytes at
    0xF7, three at 0xFA and two at 0xFD, in that order, and returns
    [adc_p = 4096 * msb + 16 * lsb + xlsb // 16], the same for [adc_t], and
    [adc_h = 256 * msb + lsb]: the low four bits of each xlsb byte do not
    enter the sample, and the object is not changed. *)
Theorem raw_sample_layout
    (o : self_t F) (c c1 c2 c3 : I2C) (p1 p2 p3 t1 t2 t3 h1 h2 : Z) :
  read_i2c_block_data (addr o) REG_PRESS 3 c = (Ok [p1; p2; p3], c1) ->
  read_i2c_block_data (addr o) REG_TEMP 3 c1 = (Ok [t1; t2; t3], c2) ->
  read_i2c_block_data (addr o) REG_HUM 2 c2 = (Ok [h1; h2], c3) ->
  forallb is_byte [p1; p2; p3; t1; t2; t3; h1; h2] = true ->
  _read_raw_sensor_data (o, c)
  = (Ok (4096 * p1 + 16 * p2 + p3 / 16,
         4096 * t1 + 16 * t2 + t3 / 16,
         256 * h1 + h2),
     (o, c3)).
Proof.
  intros R1 R2 R3 B.
  cbn [forallb] in B. rewrite !andb_true_iff in B.
  destruct B as (B1 & B2 & B3 & B4 & B5 & B6 & B7 & B8 & _).
  apply is_byte_range in B1, B2, B3, B4, B5, B6, B7, B8.
  unfold _read_raw_sensor_data, bind, self, i2c_ctrl, lift, ret.
  cbn [fst snd]. rewrite R1. cbn [unpack3 fst snd]. rewrite R2.
  cbn [unpack3 fst snd]. rewrite R3. cbn [unpack2 fst snd].
  assert (A : forall m l x, 0 <= l < 256 -> 0 <= x < 256 ->
              Z.lor (Z.lor (Z.shiftl m 12) (Z.shiftl l 4)) (Z.shiftr x 4)
              = 4096 * m + 16 * l + x / 16).
  { intros m l x Hl Hx.
    replace (Z.shiftl m 12) with (Z.shiftl (Z.shiftl m 8) 4)
      by (rewrite Z.shiftl_shiftl by lia; reflexivity).
    rewrite <- Z.shiftl_lor.
    rewrite (@lor_shiftl_low m l 8) by (change (2 ^ 8) with 256; lia).
    rewrite Z.shiftr_div_pow2 by lia. change (2 ^ 4) with 16.
    rewrite lor_shiftl_low;
      [change (2 ^ 8) with 256; change (2 ^ 4) with 16; lia|lia|].
    change (2 ^ 4) with 16.
    split; [apply Z.div_pos; lia|apply Z.div_lt_upper_bound; lia]. }
  rewrite !A by assumption.
  rewrite (@lor_shiftl_low h1 h2 8) by (change (2 ^ 8) with 256; lia).
  change (2 ^ 8) with 256.
  replace (h1 * 256 + h2) with (256 * h1 + h2) by lia.
  reflexivity.
Qed.

End Settings.

Section Cache.
Context {F : Type} `{PyFloat F}.
Context {I2C : Type} `{I2CController I2C}.

Import BME280.

Lemma set_t_fine_same (o : self_t F) : set_t_fine (t_fine o) o = o.
Proof. destruct o. reflexivity. Qed.

(** Temperature compensation assigns [t_fine] and nothing else. *)
Lemma compensate_temperature_object (o : self_t F) (c : I2C) (adc_t : Z) :
  exists tf, snd (_compensate_temperature adc_t (o, c)) = (set_t_fine tf o, c).
Proof.
  unfold _compensate_temperature, bind, self, lift, assign, ret.
  cbn [fst snd].
  repeat match goal with
         | |- context [match ?e with Ok _ => _ | Raise _ => _ end] =>
             destruct e
         end;
    cbn [fst snd];
    first [ eexists; reflexivity
          | exists (t_fine o); rewrite set_t_fine_same; reflexivity ].
Qed.

(** With divisors that are not zero it fails before the assignment or not
    at all. *)
Lemma compensate_temperature_outcome (o : self_t F) (c : I2C) (adc_t : Z) :
  divisors_nonzero F ->
  (exists t tf,
     _compensate_temperature adc_t (o, c) = (Ok t, (set_t_fine tf o, c)))
  \/ (exists e, _compensate_temperature adc_t (o, c) = (Raise e, (o, c))).
Proof.
  intros Hd. literals Hd. unfold _compensate_temperature.
  repeat (run;
          match goal with
          | |- context [overflows ?n] => destruct (overflows n) eqn:?
          | |- context [int ?x] => destruct (int x) as [tf|e]
          end);
    run;
    first [ left; eexists; eexists; reflexivity
          | right; eexists; reflexivity ].
Qed.

Lemma read_raw_sensor_data_object (o : self_t F) (c : I2C) :
  fst (snd (_read_raw_sensor_data (o, c))) = o.
Proof.
  destruct (read_raw_sensor_data_frame o c) as (r & c' & E & _).
  rewrite E. reflexivity.
Qed.

(** X10.  The [read_] methods bypass the cache.  Whatever the controller
    answers, and whether they return or raise, [read_temperature],
    [read_pressure] and [read_humidity] change no attribute of the object
    other than [t_fine]: the accessors [temperature], [pressure] and
    [humidity] called afterwards still return the values cached by the last
    [measure] (the 0.0 of the constructor if there was none). *)
Theorem bme280_reads_bypass_cache (o : self_t F) (c : I2C) :
  let s1 := snd (read_temperature (o, c)) in
  let s2 := snd (read_pressure (o, c)) in
  let s3 := snd (read_humidity (o, c)) in
  (exists tf, fst s1 = set_t_fine tf o) /\
  (exists tf, fst s2 = set_t_fine tf o) /\
  (exists tf, fst s3 = set_t_fine tf o) /\
  fst (temperature s1) = Ok (_temperature o) /\
  fst (pressure s2) = Ok (_pressure o) /\
  fst (humidity s3) = Ok (_humidity o).
Proof.
  cbv zeta.
  assert (R : (exists tf, fst (snd (read_temperature (o, c)))
                          = set_t_fine tf o) /\
              (exists tf, fst (snd (read_pressure (o, c)))
                          = set_t_fine tf o) /\
              (exists tf, fst (snd (read_humidity (o, c)))
                          = set_t_fine tf o)).
  { destruct (read_raw_sensor_data_frame o c) as (r & c' & E & _).
    assert (Same : exists tf, o = set_t_fine tf o)
      by (exists (t_fine o); rewrite set_t_fine_same; reflexivity).
    unfold read_temperature, read_pressure, read_humidity.
    split; [|split]; unfold bind at 1; rewrite E;
      (destruct r as [[[adc_p adc_t] adc_h]|e]; [|exact Same]);
      destruct (compensate_temperature_object o c' adc_t) as (tf & Et);
      exists tf.
    - rewrite Et. reflexivity.
    - unfold bind.
      destruct (_compensate_temperature adc_t (o, c')) as [[t|e] s1];
        cbn [snd] in Et; subst s1; [|reflexivity].
      rewrite compensate_pressure_pure. reflexivity.
    - unfold bind.
      destruct (_compensate_temperature adc_t (o, c')) as [[t|e] s1];
        cbn [snd] in Et; subst s1; [|reflexivity].
      rewrite compensate_humidity_pure. reflexivity. }
  destruct R as ((t1 & E1) & (t2 & E2) & (t3 & E3)).
  split; [exists t1; exact E1|]. split; [exists t2; exact E2|].
  split; [exists t3; exact E3|].
  unfold temperature, pressure, humidity, bind, self, ret. cbn [fst snd].
  rewrite E1, E2, E3. repeat split; reflexivity.
Qed.

(** X11.  What a measurement that fails has assigned.  In an arithmetic
    whose divisor literals are not zero, if [measure] raises, then either
    no attribute has been assigned ([t_fine] and the three cached readings
    are those from before the call: the controller failed, a block had the
    wrong length, or temperature compensation raised), or the exception is
    the [OverflowError] of an int too large for the pressure or the
    humidity formula, raised after temperature compensation has returned:
    then [t_fine] and the cached temperature are those of the new sample,
    and so is the cached pressure when it was the humidity that failed,
    while the remaining readings are the old ones. *)
Theorem bme280_failed_measure_assignments
    (o o' : self_t F) (c c' : I2C) (e : exn) :
  divisors_nonzero F ->
  measure (o, c) = (Raise e, (o', c')) ->
  o' = o \/
  (e = OverflowError /\
   exists adc_p adc_t adc_h c1 t tf,
     _read_raw_sensor_data (o, c) = (Ok (adc_p, adc_t, adc_h), (o, c1)) /\
     _compensate_temperature adc_t (o, c1) = (Ok t, (set_t_fine tf o, c1)) /\
     c' = c1 /\
     ((o' = set_temperature t (set_t_fine tf o) /\
       ~ converts F (pressure_operands o' adc_p)) \/
      (exists p,
         _compensate_pressure adc_p (set_temperature t (set_t_fine tf o), c1)
         = (Ok p, (set_temperature t (set_t_fine tf o), c1)) /\
         o' = set_pressure p (set_temperature t (set_t_fine tf o)) /\
         ~ converts F (humidity_operands o' adc_h)))).
Proof.
  intros Hd E.
  destruct (read_raw_sensor_data_frame o c) as (r & c1 & E0 & _).
  unfold measure in E. unfold bind at 1 in E. rewrite E0 in E.
  destruct r as [[[adc_p adc_t] adc_h]|e0]; [|left; congruence].
  unfold bind at 1 in E.
  destruct (compensate_temperature_outcome o c1 adc_t Hd)
    as [(t & tf & Et)|(e1 & Et)]; rewrite Et in E; [|left; congruence].
  right.
  unfold bind at 1 in E. unfold assign at 1 in E. cbn [fst snd] in E.
  unfold bind at 1 in E.
  set (o1 := set_temperature t (set_t_fine tf o)) in *.
  destruct (compensate_pressure_outcome o1 c1 adc_p Hd) as [(p & Ep)|Ep];
    rewrite Ep in E.
  - unfold bind at 1 in E. unfold assign at 1 in E. cbn [fst snd] in E.
    unfold bind at 1 in E.
    set (o2 := set_pressure p o1) in *.
    destruct (compensate_humidity_outcome o2 c1 adc_h Hd) as [(h & Eh)|Eh];
      rewrite Eh in E.
    + unfold bind, assign, self, ret in E. cbn [fst snd] in E. discriminate.
    + inversion E; subst e o' c'. split; [reflexivity|].
      exists adc_p, adc_t, adc_h, c1, t, tf.
      split; [assumption|]. split; [assumption|]. split; [reflexivity|].
      right. exists p. split; [assumption|]. split; [reflexivity|].
      intros Hc. destruct (compensate_humidity_run c1 Hd Hc) as (? & _ & Eh').
      congruence.
  - inversion E; subst e o' c'. split; [reflexivity|].
    exists adc_p, adc_t, adc_h, c1, t, tf.
    split; [assumption|]. split; [assumption|]. split; [reflexivity|].
    left. split; [reflexivity|].
    intros Hc.
    destruct (compensate_pressure_run c1 Hd Hc) as (? & ? & p & _ & Ep' & _).
    congruence.
Qed.

End Cache.

Section Agreement.
Context {F : Type} `{PyFloat F}.
Context {I2C : Type} `{I2CController I2C}.

Import BME280.

(** X12.  [measure] and the three [read_] methods agree.  When [measure]
    returns, its mapping holds exactly the keys temperature, humidity and
    pressure, in that order, and each value is what the corresponding
    [read_] method returns when called on the same object and the same
    state of the controller. *)
Theorem measure_agrees_with_reads
    (o : self_t F) (c : I2C) (m : dict F) (st : self_t F * I2C) :
  measure (o, c) = (Ok m, st) ->
  exists t p h,
    m = [("temperature"%string, t); ("humidity"%string, h);
         ("pressure"%string, p)] /\
    fst (read_temperature (o, c)) = Ok t /\
    fst (read_pressure (o, c)) = Ok p /\
    fst (read_humidity (o, c)) = Ok h.
Proof.
  intros E.
  destruct (read_raw_sensor_data_frame o c) as (r & c1 & E0 & _).
  unfold measure in E. unfold bind at 1 in E. rewrite E0 in E.
  destruct r as [[[adc_p adc_t] adc_h]|e0]; [|discriminate].
  unfold bind at 1 in E.
  destruct (_compensate_temperature adc_t (o, c1)) as [[t|e1] [o1 c2]] eqn:Et;
    [|discriminate].
  unfold bind at 1 in E. unfold assign at 1 in E. cbn [fst snd] in E.
  unfold bind at 1 in E.
  pose proof (@compensate_pressure_frame _ _ _ o1 (set_temperature t o1)
                c2 c2 adc_p eq_refl eq_refl) as Fp.
  pose proof (compensate_pressure_pure (set_temperature t o1, c2) adc_p)
    as Pp.
  destruct (_compensate_pressure adc_p (set_temperature t o1, c2))
    as [[p|e] s2]; [|discriminate].
  cbn [fst snd] in Fp, Pp. subst s2.
  unfold bind at 1 in E. unfold assign at 1 in E. cbn [fst snd] in E.
  unfold bind at 1 in E.
  pose proof (@compensate_humidity_frame _ _ _ o1
                (set_pressure p (set_temperature t o1)) c2 c2
                adc_h eq_refl eq_refl) as Fh.
  pose proof (compensate_humidity_pure
                (set_pressure p (set_temperature t o1), c2) adc_h) as Ph.
  destruct (_compensate_humidity adc_h
              (set_pressure p (set_temperature t o1), c2))
    as [[h|e] s3]; [|discriminate].
  cbn [fst snd] in Fh, Ph. subst s3.
  unfold bind, assign, self, ret in E. cbn [fst snd] in E.
  inversion E; subst m st; clear E.
  exists t, p, h. split; [reflexivity|].
  unfold read_temperature, read_pressure, read_humidity, bind.
  rewrite E0, Et. cbn [fst]. repeat split; congruence.
Qed.

End Agreement.

(** ** The SI7021 driver *)

Lemma all_codes_spec (p : Z -> bool) (k : nat) :
  forall base, all_codes k base p = true ->
  forall d, base <= d < base + 2 ^ Z.of_nat k -> p d = true.
Proof.
  induction k as [|k IH]; intros base Ha d Hd.
  - cbn in Hd. assert (d = base) by lia. subst. exact Ha.
  - cbn [all_codes] in Ha. apply andb_true_iff in Ha. destruct Ha as [H1 H2].
    rewrite Nat2Z.inj_succ, Z.pow_succ_r in Hd by lia.
    destruct (Z.lt_ge_cases d (base + 2 ^ Z.of_nat k)).
    + apply (IH base H1). lia.
    + apply (IH _ H2). lia.
Qed.

Lemma f64_of_Z (z : Z) : 0 <= z < 2 ^ 63 -> binary64_of_Z z = f64 z.
Proof.
  intros Hz. apply Prim2SF_inj. unfold f64.
  rewrite of_uint63_spec, Prim2SF_of_Z by lia.
  rewrite Uint63.of_Z_spec, Z.mod_small by exact Hz. reflexivity.
Qed.


Lemma temperature_codes_ok : all_codes 16 0 temperature_code_ok = true.
Proof. vm_compute. reflexivity. Qed.


Section SI7021_binary64.
Context {W : Type} `{SMBus W} `{Clock W PrimFloat.float}.

Import SI7021.

Lemma code_range (msb lsb : Z) :
  is_byte msb = true -> is_byte lsb = true ->
  Z.lor (Z.shiftl msb 8) lsb = 256 * msb + lsb /\
  0 <= 256 * msb + lsb < 0 + 2 ^ Z.of_nat 16.
Proof.
  intros Bm Bl. apply is_byte_range in Bm, Bl.
  split; [apply lor_shiftl_byte; assumption|].
  change (2 ^ Z.of_nat 16) with 65536. lia.
Qed.


(** X14.  The temperature of the SI7021 over all codes.  In binary64,
    when the bus answers with the bytes [msb] and [lsb], [read_temperature]
    returns a value from -46.85 up to, but not including, 128.87; it is
    negative exactly for the codes [256 * msb + lsb] up to 17473; the
    object is not changed. *)
Theorem si7021_temperature_range
    (o : self_t PrimFloat.float) (w w1 w2 w3 w4 : W) (msb lsb : Z) :
  write_byte (addr o) CMD_MEASURE_TEMP w = (Ok tt, w1) ->
  sleep (decimal 5 100) w1 = (Ok tt, w2) ->
  read_byte (addr o) w2 = (Ok msb, w3) ->
  read_byte (addr o) w3 = (Ok lsb, w4) ->
  is_byte msb = true -> is_byte lsb = true ->
  exists t,
    read_temperature (o, w) = (Ok t, (o, w4)) /\
    (- decimal 4685 100 <=? t)%float = true /\
    (t <? decimal 12887 100)%float = true /\
    ((t <? 0)%float = true <-> 256 * msb + lsb <= 17473).
Proof.
  intros Ew Es Em El Bm Bl.
  destruct (code_range msb lsb Bm Bl) as [Ed Hd].
  exists (temperature_of_code (256 * msb + lsb)). split.
  - unfold read_temperature, bind, self, world, lift, ret. cbn [fst snd].
    rewrite Ew; cbn [fst snd]. rewrite Es; cbn [fst snd].
    rewrite Em; cbn [fst snd]. rewrite El; cbn [fst snd]. rewrite Ed.
    assert (V : overflows (F:=PrimFloat.float) (256 * msb + lsb) = false)
      by (apply (converts64 16); change (2 ^ Z.of_nat 16) with 65536 in Hd;
          lia).
    assert (E0 : feqb (float 65536) (float (F:=PrimFloat.float) 0) = false)
      by reflexivity.
    unfold evalf, lit, val, ival.
    cbn [rbind lift2 truediv as_float]. rewrite V.
    cbn [rbind lift2 truediv as_float]. rewrite E0.
    cbn [rbind lift2 truediv as_float fst snd fsub fdiv fmul float
         PyFloat_binary64].
    unfold temperature_of_code, decimal.
    cbn [fdiv float PyFloat_binary64].
    rewrite !f64_of_Z by (change (2 ^ Z.of_nat 16) with 65536 in Hd; lia).
    reflexivity.
  - pose proof (@all_codes_spec temperature_code_ok 16 0 temperature_codes_ok
                  _ Hd) as C.
    unfold temperature_code_ok in C. cbv zeta in C.
    rewrite !andb_true_iff in C. destruct C as [[C1 C2] C3].
    apply eqb_prop in C3.
    unfold decimal. cbn [fdiv float PyFloat_binary64].
    rewrite !f64_of_Z by lia.
    split; [exact C1|]. split; [exact C2|].
    rewrite C3. apply Z.leb_le.
Qed.

End SI7021_binary64.

Section SI7021_any.
Context {F : Type} `{PyFloat F}.
Context {W : Type} `{SMBus W} `{Clock W F}.

Import SI7021.

Ltac steps :=
  repeat (unfold bind, self, lift, ret, assign, raise, world;
          cbn [fst snd];
          match goal with
          | |- context [write_byte ?a ?v ?w] =>
              destruct (write_byte a v w) as [[?|?] ?]
          | |- context [read_byte ?a ?w] =>
              destruct (read_byte a w) as [[?|?] ?]
          | |- context [sleep ?d ?w] =>
              destruct (sleep d w) as [[?|?] ?]
          | |- context [match ?e with Ok _ => _ | Raise _ => _ end] =>
              destruct e eqn:?
          end).

Lemma read_temperature_object (s : self_t F * W) :
  fst (snd (read_temperature s)) = fst s.
Proof. destruct s as [o w]. unfold read_temperature. steps; reflexivity. Qed.

Lemma read_humidity_object (s : self_t F * W) :
  fst (snd (read_humidity s)) = fst s.
Proof. destruct s as [o w]. unfold read_humidity. steps; reflexivity. Qed.

(** X15.  [read_temperature] and [read_humidity] bypass the cache.
    Whatever the bus does, and whether they return or raise, they assign no
    attribute: the accessors [temperature] and [humidity] called afterwards
    return the values cached by the last [measure]. *)
Theorem si7021_reads_bypass_cache (s : self_t F * W) :
  let s1 := snd (read_temperature s) in
  let s2 := snd (read_humidity s) in
  fst s1 = fst s /\ fst s2 = fst s /\
  fst (temperature s1) = Ok (_temperature (fst s)) /\
  fst (humidity s2) = Ok (_humidity (fst s)).
Proof.
  cbv zeta. pose proof (read_temperature_object s) as Et.
  pose proof (read_humidity_object s) as Eh.
  unfold temperature, humidity, bind, self, ret. cbn [fst snd].
  rewrite Et, Eh. repeat split; reflexivity.
Qed.

(** X16.  A measurement of the SI7021 is not atomic.  [measure] reads the
    humidity first and stores it before it turns to the temperature.  If
    the humidity is read, the pause of 0.01 s passes, and reading the
    temperature then raises, [measure] raises that exception and leaves an
    object whose cached humidity is the new one while its cached
    temperature is still the old one. *)
Theorem si7021_measure_not_atomic
    (o : self_t F) (w w2 : W) (h : F) (s1 s3 : self_t F * W) (e : exn) :
  read_humidity (o, w) = (Ok h, s1) ->
  sleep (decimal 1 100) (snd s1) = (Ok tt, w2) ->
  read_temperature (set_humidity h o, w2) = (Raise e, s3) ->
  measure (o, w) = (Raise e, s3) /\
  fst s3 = set_humidity h o /\
  fst (humidity s3) = Ok h /\
  fst (temperature s3) = Ok (_temperature o).
Proof.
  intros Eh Es Et.
  pose proof (read_humidity_object (o, w)) as Oh. rewrite Eh in Oh.
  pose proof (read_temperature_object (set_humidity h o, w2)) as Ot.
  rewrite Et in Ot. cbn [fst snd] in Oh, Ot.
  destruct s1 as [o1 w1]. cbn [fst snd] in *. subst o1.
  split; [|split; [exact Ot|]].
  - unfold measure. unfold bind at 1. rewrite Eh.
    unfold bind at 1. unfold assign at 1. cbn [fst snd].
    unfold bind at 1. unfold world at 1. cbn [fst snd]. rewrite Es.
    unfold bind at 1. rewrite Et. reflexivity.
  - unfold humidity, temperature, bind, self, ret. cbn [fst snd].
    rewrite Ot. split; reflexivity.
Qed.

(** X17.  What [measure] of the SI7021 returns.  When it returns, the
    mapping holds exactly the keys temperature and humidity, in that order,
    and the accessors [temperature] and [humidity] return those two values
    and change nothing. *)
Theorem si7021_accessors_agree_with_measure
    (s s' : self_t F * W) (m : dict F) :
  measure s = (Ok m, s') ->
  exists t h,
    m = [("temperature"%string, t); ("humidity"%string, h)] /\
    temperature s' = (Ok t, s') /\
    humidity s' = (Ok h, s').
Proof.
  intros E. unfold measure in E.
  do 5 (apply bind_inv_ok in E; destruct E as (? & ? & _ & E)).
  apply bind_inv_ok in E. destruct E as (o' & s1 & Es & E).
  unfold self in Es. unfold ret in E.
  inversion Es; subst; clear Es. inversion E; subst; clear E.
  destruct s' as [o' w']. exists (_temperature o'), (_humidity o').
  repeat split; reflexivity.
Qed.

End SI7021_any.

(** ** The acquisition loop, cycle by cycle *)

Section Polling.
Context {S K D : Type} `{Sensor S D} `{Handler K D}.

Import Application.

Lemma start_pending (args : args_t) (s : S) (k : K) :
  pending 1 (_loop (snd (_start (init (D:=D) args s k)))).
Proof. split; [reflexivity|]. left. split; reflexivity. Qed.

(** Cycles that all return are the readings of the sensor, each taken in
    the state the one before left it in, handed to the handler in that
    order. *)
Lemma cycles_readings (n : nat) :
  forall (s : S) (k : K),
    failure (cycles n s k) = None ->
    List.length (fst (readings n s)) = n /\
    calls (cycles n s k) = delivered (fst (readings n s)) /\
    sensor_left (cycles n s k) = snd (readings n s) /\
    handler_left (cycles n s k) = handled (fst (readings n s)) k.
Proof.
  induction n as [|n IH]; intros s k Hc; cbn [cycles readings] in *.
  - repeat split; reflexivity.
  - destruct (sensor_measure s) as [[d|e] s']; [|discriminate].
    destruct (_handle_data d k) as [[[]|e] k'] eqn:Eh; [|discriminate].
    cbn [failure calls sensor_left handler_left] in *.
    destruct (IH s' k' Hc) as (Hl & Ec & Es & Ek).
    destruct (readings n s') as [ds s'']. cbn [fst snd] in *.
    split; [cbn; lia|]. split; [rewrite Ec; reflexivity|].
    split; [exact Es|].
    rewrite Ek. unfold handled. cbn [fold_left]. rewrite Eh. reflexivity.
Qed.

(** A callback that re-arms its timer whenever it returns never stops the
    loop, whatever the sensor and the handler do. *)
Lemma never_stopped (m : nat) :
  forall (num : Z) (a : app_t S K D),
    pending num (_loop a) ->
    (forall i, ne_poll (num + Z.of_nat i) (poll (_args a)) = true) ->
    fst (run_forever m a) <> Stopped.
Proof.
  induction m as [|m IH]; intros num a Hp Hn; [discriminate|].
  destruct (wake_pending Hp) as (Hs & _).
  pose proof (Hn O) as N0. rewrite Z.add_0_r in N0.
  cbn [run_forever]. rewrite Hs.
  destruct (sensor_measure (_sensor a)) as [[d|e] s'] eqn:Em;
    [destruct (_handle_data d (_this a)) as [[[]|e] k'] eqn:Eh|].
  - destruct (run_once_delivers a Hp Em Eh) as (now & E1).
    rewrite N0 in E1. rewrite E1. cbn [_loop asyncio._stopping].
    apply IH with (num := num + 1).
    + split; [reflexivity|]. right. split; [reflexivity|].
      eexists. reflexivity.
    + intros i. cbn [_args].
      replace (num + 1 + Z.of_nat i) with (num + Z.of_nat (Datatypes.S i))
        by lia.
      apply Hn.
  - destruct (run_once_handler_raises a Hp Em Eh) as (now & E1).
    rewrite E1. cbn [_loop asyncio._stopping].
    destruct m; [discriminate|]. cbn. discriminate.
  - destruct (run_once_measure_raises a Hp Em) as (now & E1).
    rewrite E1. cbn [_loop asyncio._stopping].
    destruct m; [discriminate|]. cbn. discriminate.
Qed.

(** With the timer re-armed after every cycle that returns, a cycle that
    raises leaves the loop idle for ever. *)
Lemma cycles_asleep (m : nat) :
  forall (num : Z) (a : app_t S K D) (fuel : nat) (e : exn),
    pending num (_loop a) ->
    (forall i, ne_poll (num + Z.of_nat i) (poll (_args a)) = true) ->
    failure (cycles m (_sensor a) (_this a)) = Some e ->
    (m < fuel)%nat ->
    exists l,
      run_forever fuel a
      = (Asleep,
         mkApp (_args a)
               (sensor_left (cycles m (_sensor a) (_this a)))
               (handler_left (cycles m (_sensor a) (_this a))) l
               (journal a ++ calls (cycles m (_sensor a) (_this a)))) /\
      asyncio._ready l = [] /\ asyncio._scheduled l = [] /\
      asyncio._reported l = asyncio._reported (_loop a) ++ [e].
Proof.
  induction m as [|m IH]; intros num a fuel e Hp Hn Hc Hf;
    [discriminate|].
  destruct fuel as [|fuel]; [lia|].
  destruct (wake_pending Hp) as (Hs & _).
  pose proof (Hn O) as N0. rewrite Z.add_0_r in N0.
  cbn [cycles] in *.
  destruct (sensor_measure (_sensor a)) as [[d|e0] s'] eqn:Em;
    [destruct (_handle_data d (_this a)) as [[[]|e0] k'] eqn:Eh|];
    cbn [failure calls sensor_left handler_left] in *.
  - destruct (run_once_delivers a Hp Em Eh) as (now & E1).
    rewrite N0 in E1.
    cbn [run_forever]. rewrite Hs, E1. cbn [_loop asyncio._stopping].
    match goal with
    | |- context [run_forever fuel ?x] => set (a1 := x)
    end.
    destruct (IH (num + 1) a1 fuel e) as (l & Er & R1 & R2 & R3).
    + split; [reflexivity|]. right. split; [reflexivity|].
      eexists. reflexivity.
    + intros i. subst a1. cbn [_args].
      replace (num + 1 + Z.of_nat i) with (num + Z.of_nat (Datatypes.S i))
        by lia.
      apply Hn.
    + exact Hc.
    + lia.
    + exists l. split.
      * rewrite Er. subst a1. cbn [_args _sensor _this journal].
        rewrite <- !app_assoc. reflexivity.
      * subst a1. cbn [_loop asyncio._reported] in R3.
        repeat split; assumption.
  - inversion Hc; subst e0.
    destruct (run_once_handler_raises a Hp Em Eh) as (now & E1).
    rewrite (@run_forever_after_raise _ _ _ _ _ a _ num (Datatypes.S fuel)
               Hp E1 eq_refl eq_refl eq_refl) by lia.
    eexists. split; [rewrite <- app_assoc; reflexivity|].
    cbn. repeat split; reflexivity.
  - inversion Hc; subst e0.
    destruct (run_once_measure_raises a Hp Em) as (now & E1).
    rewrite (@run_forever_after_raise _ _ _ _ _ a _ num (Datatypes.S fuel)
               Hp E1 eq_refl eq_refl eq_refl) by lia.
    eexists. split; [reflexivity|].
    cbn. repeat split; reflexivity.
Qed.

(** X18.  Without a positive cycle count the acquisition is never
    stopped.  When [poll] is [None] (the option given without a value) or
    an integer below 1 (the -1 that [Application] falls back to, or 0),
    the callback re-arms its timer in every cycle that returns, and
    [stop] is never called: whatever the sensor and the handler do,
    [run_forever] does not return after any number of iterations.  As long
    as the cycles return, the loop is neither stopped nor idle and has
    delivered one measurement per iteration; the first cycle that raises
    leaves it idle for ever. *)
Theorem polling_without_count_never_stops
    (args : args_t) (s : S) (k : K) (fuel : nat) :
  (forall n, poll args = Some n -> n < 1) ->
  fst (run fuel (init args s k)) <> Stopped /\
  (failure (cycles fuel s k) = None ->
   exists a,
     run fuel (init args s k) = (Running, a) /\
     journal a = delivered (fst (readings fuel s)) /\
     List.length (fst (readings fuel s)) = fuel /\
     _sensor a = snd (readings fuel s) /\
     _this a = handled (fst (readings fuel s)) k /\
     asyncio.sleeps_forever (_loop a) = false /\
     asyncio._stopping (_loop a) = false) /\
  (forall e more,
     failure (cycles fuel s k) = Some e ->
     (fuel < more)%nat ->
     exists a,
       run more (init args s k) = (Asleep, a) /\
       journal a = calls (cycles fuel s k) /\
       _sensor a = sensor_left (cycles fuel s k) /\
       _this a = handler_left (cycles fuel s k) /\
       asyncio._reported (_loop a) = [e]).
Proof.
  intros Hp.
  assert (Hn : forall i,
             ne_poll (1 + Z.of_nat i)
               (poll (_args (snd (_start (init (D:=D) args s k))))) = true).
  { intros i. cbn [_start on_loop modify snd _args init].
    destruct (poll args) as [n|] eqn:E; [|reflexivity].
    apply ne_poll_other. specialize (Hp n eq_refl). lia. }
  split; [|split].
  - unfold run. apply never_stopped with (num := 1).
    + apply start_pending.
    + exact Hn.
  - intros Hc.
    destruct (@cycles_running _ _ _ _ _ fuel 1
                (snd (_start (init (D:=D) args s k)))
                (start_pending args s k)) as (l & Hl & _ & Er).
    + intros i _. apply Hn.
    + exact Hc.
    + destruct (cycles_readings fuel s k Hc) as (Ll & Ec & Es & Ek).
      eexists. unfold run. split; [exact Er|].
      cbn [journal _loop _sensor _this _start on_loop modify snd init app].
      split; [exact Ec|]. split; [exact Ll|]. split; [exact Es|].
      split; [exact Ek|].
      destruct (wake_pending Hl) as (Hs & _).
      split; [exact Hs|apply Hl].
  - intros e more Hc Hf.
    destruct (@cycles_asleep fuel 1 (snd (_start (init (D:=D) args s k)))
                more e (start_pending args s k) Hn Hc Hf)
      as (l & Er & _ & _ & R3).
    eexists. unfold run. split; [exact Er|].
    cbn [journal _loop _sensor _this _start on_loop modify snd init app].
    repeat split. exact R3.
Qed.

(** X19.  The cycles of a counted acquisition follow one another.  For
    [poll = n >= 1], when the first [n] cycles return, the loop stops
    after them; the measurements delivered are the first [n] readings of
    the sensor, each taken in the state the previous one left the sensor
    in, and the handler has been given them in that order, each call
    acting on the attributes left by the call before. *)
Theorem polling_threads_sensor_and_handler
    (args : args_t) (s : S) (k : K) (n : Z) (fuel : nat) :
  1 <= n ->
  poll args = Some n ->
  (Z.to_nat n <= fuel)%nat ->
  failure (cycles (Z.to_nat n) s k) = None ->
  exists a,
    run fuel (init args s k) = (Stopped, a) /\
    List.length (fst (readings (Z.to_nat n) s)) = Z.to_nat n /\
    journal a = delivered (fst (readings (Z.to_nat n) s)) /\
    _sensor a = snd (readings (Z.to_nat n) s) /\
    _this a = handled (fst (readings (Z.to_nat n) s)) k.
Proof.
  intros Hn Hp Hf Hc.
  destruct (cycles_readings (Z.to_nat n) s k Hc) as (Ll & Ec & Es & Ek).
  revert Hc Ll Ec Es Ek.
  replace (Z.to_nat n) with (Datatypes.S (Z.to_nat (n - 1))) in * by lia.
  intros Hc Ll Ec Es Ek.
  destruct (@run_counted _ _ _ _ _ n (Z.to_nat (n - 1)) 1
              (snd (_start (init (D:=D) args s k))) fuel)
    as (l & Er & _).
  - exact Hp.
  - lia.
  - apply start_pending.
  - lia.
  - left. exact Hc.
  - cbn [_sensor _this _start on_loop modify snd init] in Er.
    rewrite Hc in Er.
    eexists. unfold run. split; [exact Er|].
    cbn [journal _sensor _this app]. repeat split; assumption.
Qed.

End Polling.

(** ** The output of [SenlibCLI] *)

(** *** The order of keys *)

Lemma ascii_compare_N (a b : Ascii.ascii) :
  Ascii.compare a b = N.compare (Ascii.N_of_ascii a) (Ascii.N_of_ascii b).
Proof. reflexivity. Qed.

Lemma ascii_compare_refl (a : Ascii.ascii) : Ascii.compare a a = Eq.
Proof. rewrite ascii_compare_N. apply N.compare_refl. Qed.

Lemma ascii_compare_trans (a b c : Ascii.ascii) :
  Ascii.compare a b = Lt -> Ascii.compare b c = Lt -> Ascii.compare a c = Lt.
Proof.
  rewrite !ascii_compare_N, !N.compare_lt_iff. apply N.lt_trans.
Qed.

Lemma string_compare_trans (s1 : string) :
  forall s2 s3,
    String.compare s1 s2 = Lt -> String.compare s2 s3 = Lt ->
    String.compare s1 s3 = Lt.
Proof.
  induction s1 as [|a s1 IH]; intros [|b s2] [|c s3]; cbn;
    try congruence.
  destruct (Ascii.compare a b) eqn:Eab; try discriminate;
    destruct (Ascii.compare b c) eqn:Ebc; try discriminate.
  - apply Ascii.compare_eq_iff in Eab, Ebc. subst.
    rewrite ascii_compare_refl. apply IH.
  - apply Ascii.compare_eq_iff in Eab. subst. rewrite Ebc. reflexivity.
  - apply Ascii.compare_eq_iff in Ebc. subst. rewrite Eab. reflexivity.
  - rewrite (ascii_compare_trans a b c Eab Ebc). reflexivity.
Qed.

Lemma ltb_trans (s1 s2 s3 : string) :
  String.ltb s1 s2 = true -> String.ltb s2 s3 = true ->
  String.ltb s1 s3 = true.
Proof.
  unfold String.ltb. intros E1 E2.
  destruct (String.compare s1 s2) eqn:C1; try discriminate.
  destruct (String.compare s2 s3) eqn:C2; try discriminate.
  rewrite (string_compare_trans _ _ _ C1 C2). reflexivity.
Qed.

Lemma ltb_asym (s1 s2 : string) :
  String.ltb s1 s2 = true -> String.ltb s2 s1 = false.
Proof.
  unfold String.ltb. rewrite (String.compare_antisym s2 s1).
  destruct (String.compare s1 s2); cbn; congruence.
Qed.

Lemma ltb_total (s1 s2 : string) :
  s1 <> s2 -> String.ltb s1 s2 = false -> String.ltb s2 s1 = true.
Proof.
  unfold String.ltb. intros Hn. rewrite (String.compare_antisym s2 s1).
  destruct (String.compare s1 s2) eqn:C; cbn; try congruence.
  apply String.compare_eq_iff in C. contradiction.
Qed.

Ltac order :=
  repeat (cbn [insert_item];
          match goal with
          | E : String.ltb ?a ?b = _ |- context [String.ltb ?a ?b] =>
              rewrite E
          end).

Section Sorting.
Context {V : Type}.


Lemma insert_item_perm (x : string * V) (l : list (string * V)) :
  Permutation (insert_item x l) (x :: l).
Proof.
  induction l as [|y l IH]; cbn; [reflexivity|].
  destruct (String.ltb (fst x) (fst y)); [reflexivity|].
  rewrite IH. apply perm_swap.
Qed.

Lemma sorted_items_perm (d : dict V) : Permutation (sorted_items d) d.
Proof.
  induction d as [|x d IH]; cbn; [reflexivity|].
  change (fold_right insert_item [] d) with (sorted_items d).
  rewrite insert_item_perm. apply perm_skip. exact IH.
Qed.

Lemma insert_item_comm (x y : string * V) (l : list (string * V)) :
  fst x <> fst y ->
  insert_item x (insert_item y l) = insert_item y (insert_item x l).
Proof.
  intros Hn.
  assert (Hn' : fst y <> fst x) by congruence.
  induction l as [|c l IH].
  - destruct (String.ltb (fst x) (fst y)) eqn:Exy.
    + pose proof (ltb_asym _ _ Exy) as Eyx. order. reflexivity.
    + pose proof (ltb_total Hn Exy) as Eyx. order. reflexivity.
  - destruct (String.ltb (fst y) (fst c)) eqn:Eyc;
      destruct (String.ltb (fst x) (fst c)) eqn:Exc.
    + destruct (String.ltb (fst x) (fst y)) eqn:Exy.
      * pose proof (ltb_asym _ _ Exy) as Eyx. order. reflexivity.
      * pose proof (ltb_total Hn Exy) as Eyx. order. reflexivity.
    + destruct (String.ltb (fst x) (fst y)) eqn:Exy.
      * rewrite (ltb_trans _ _ _ Exy Eyc) in Exc. discriminate.
      * order. reflexivity.
    + destruct (String.ltb (fst y) (fst x)) eqn:Eyx.
      * rewrite (ltb_trans _ _ _ Eyx Exc) in Eyc. discriminate.
      * order. reflexivity.
    + order. rewrite IH. reflexivity.
Qed.

Lemma sorted_items_permutation (d1 d2 : dict V) :
  Permutation d1 d2 -> NoDup (map fst d1) ->
  sorted_items d1 = sorted_items d2.
Proof.
  induction 1 as [|x l l' P IH|x y l|l l' l'' P1 IH1 P2 IH2]; intros Hd.
  - reflexivity.
  - cbn. inversion Hd; subst.
    change (fold_right insert_item [] l) with (sorted_items l).
    change (fold_right insert_item [] l') with (sorted_items l').
    rewrite IH by assumption. reflexivity.
  - cbn. apply insert_item_comm.
    inversion Hd as [|? ? Hin _]; subst. cbn in Hin. intros E. apply Hin.
    left. symmetry. exact E.
  - rewrite IH1 by assumption. apply IH2.
    apply (Permutation_NoDup (Permutation_map fst P1) Hd).
Qed.

Lemma insert_item_sorted (x : string * V) (l : list (string * V)) :
  ~ In (fst x) (map fst l) ->
  StronglySorted (fun a b => String.ltb (fst a) (fst b) = true) l ->
  StronglySorted (fun a b => String.ltb (fst a) (fst b) = true)
                 (insert_item x l).
Proof.
  intros Hn Hs. induction Hs as [|c l Hs IH Hc]; cbn.
  - repeat constructor.
  - destruct (String.ltb (fst x) (fst c)) eqn:Exc.
    + constructor; [constructor; assumption|].
      constructor; [exact Exc|].
      apply Forall_forall. intros z Hz.
      apply ltb_trans with (fst c); [exact Exc|].
      rewrite Forall_forall in Hc. apply Hc. exact Hz.
    + constructor.
      * apply IH. intros Hin. apply Hn. right. exact Hin.
      * apply (Permutation_Forall (Permutation_sym (insert_item_perm x l))).
        constructor; [|exact Hc].
        apply ltb_total; [|exact Exc].
        intros E. apply Hn. left. symmetry. exact E.
Qed.

Lemma sorted_items_sorted (d : dict V) :
  NoDup (map fst d) ->
  StronglySorted (fun a b => String.ltb (fst a) (fst b) = true)
                 (sorted_items d).
Proof.
  induction d as [|x d IH]; intros Hd; cbn; [constructor|].
  inversion Hd as [|? ? Hin Hd']; subst.
  change (fold_right insert_item [] d) with (sorted_items d).
  apply insert_item_sorted; [|apply IH; exact Hd'].
  intros Hi. apply Hin.
  apply (Permutation_in _ (Permutation_map fst (sorted_items_perm d)) Hi).
Qed.

(** Filling an empty dict from items with distinct keys keeps them all, in
    the order given. *)
Lemma setitem_new (d : dict V) (k : string) (v : V) :
  ~ In k (map fst d) -> setitem d k v = d ++ [(k, v)].
Proof.
  induction d as [|[k' v'] d IH]; intros Hn; cbn; [reflexivity|].
  destruct (String.eqb k' k) eqn:E.
  - apply String.eqb_eq in E. subst. exfalso. apply Hn. left. reflexivity.
  - rewrite IH; [reflexivity|]. intros Hi. apply Hn. right. exact Hi.
Qed.

Lemma fill_distinct (l : list (string * V)) :
  forall acc : dict V,
    NoDup (map fst (acc ++ l)) ->
    fold_left (fun m kv => setitem m (fst kv) (snd kv)) l acc = acc ++ l.
Proof.
  induction l as [|[k v] l IH]; intros acc Hd; cbn [fold_left fst snd].
  - rewrite app_nil_r. reflexivity.
  - rewrite setitem_new.
    + rewrite IH; rewrite <- app_assoc; [reflexivity|exact Hd].
    + rewrite map_app in Hd. cbn in Hd.
      apply NoDup_remove_2 in Hd. intros Hi. apply Hd.
      apply in_or_app. left. exact Hi.
Qed.

End Sorting.

Lemma append_assoc (a b c : string) :
  ((a ++ b) ++ c = a ++ (b ++ c))%string.
Proof. induction a as [|x a IH]; cbn; [reflexivity|]. rewrite IH. reflexivity. Qed.

Lemma append_nil_r (a : string) : (a ++ EmptyString = a)%string.
Proof. induction a as [|x a IH]; cbn; [reflexivity|]. rewrite IH. reflexivity. Qed.

Section Output.
Context {V : Type} `{PyStr V} `{Serializers V}.
Context {W : Type} `{Console W}.

Import SenlibCLI.

Lemma text_loop (ms : list (string * V)) :
  forall out : string,
    fold_left (fun out kv =>
                 (out ++ (fst kv ++ ": " ++ format_value (snd kv)
                          ++ newline))%string) ms out
    = (out ++ text_lines ms)%string.
Proof.
  induction ms as [|kv ms IH]; intros out; cbn [fold_left text_lines fold_right].
  - rewrite append_nil_r. reflexivity.
  - rewrite IH. rewrite append_assoc. reflexivity.
Qed.

Lemma measurements_filled (d : dict V) :
  NoDup (map fst d) ->
  fold_left (fun m kv => setitem m (fst kv) (snd kv)) (sorted_items d) []
  = sorted_items d.
Proof.
  intros Hd. apply (fill_distinct (sorted_items d) []). cbn [app].
  apply (Permutation_NoDup
           (Permutation_sym (Permutation_map fst (sorted_items_perm d))) Hd).
Qed.

(** X20.  The output does not depend on the order of the driver's dict.
    [_handle_data] hands the measurement to [_generate_output], which sorts
    its items by key before it renders them: two measurements with the same items in a different order
    are printed identically, in every format. *)
Theorem output_independent_of_dict_order
    {S : Type} (args : args_t) (sensor_ : S) (d1 d2 : dict V) (w : W) :
  NoDup (map fst d1) -> Permutation d1 d2 ->
  _handle_data args sensor_ d1 w = _handle_data args sensor_ d2 w.
Proof.
  intros Hd P. unfold _handle_data, _generate_output.
  rewrite (sorted_items_permutation P Hd). reflexivity.
Qed.

(** X21.  The text format.  For a format other than json and xml,
    [_generate_output] prints one string: the line [timestamp: ...] with
    the time of the call, then one line [key: value] per measurement, in
    strictly ascending order of the keys, each ended by a newline.  The
    sensor's name is not printed. *)
Theorem text_output_lists_measurements_by_key
    {S : Type} (args : args_t) (sensor_ : S) (d : dict V) (w w1 : W)
    (ts : string) :
  String.eqb (format args) "json" = false ->
  String.eqb (format args) "xml" = false ->
  NoDup (map fst d) ->
  datetime_now w = (Ok ts, w1) ->
  _generate_output args sensor_ d w
  = print (Str ("timestamp: " ++ ts ++ newline
                ++ text_lines (sorted_items d))) w1 /\
  ascending (sorted_items d) /\
  Permutation (sorted_items d) d.
Proof.
  intros Fj Fx Hd En. split; [|split].
  - unfold _generate_output, bind, lift. rewrite En, Fj, Fx.
    rewrite (measurements_filled d Hd).
    unfold _generate_text. cbn [doc_timestamp doc_measurements].
    rewrite text_loop. rewrite !append_assoc. reflexivity.
  - apply sorted_items_sorted. exact Hd.
  - apply sorted_items_perm.
Qed.

End Output.

(** ** The model at work

    Runs of the model on the devices, sensors and sinks of [Bench], in
    binary64 arithmetic unless said otherwise. *)

Section Runs.
Import BME280 Application SensorNode Bench Breadboard.

(** Construction decodes the calibration and writes the three settings
    registers. *)
Example new_bme280 :
  new (F:=PrimFloat.float) 0x77 bme280_device
  = (Ok (bme280_object PrimFloat.float),
     (0xF5, [160]) :: (0xF4, [39]) :: (0xF2, [1]) :: bme280_device).
Proof. reflexivity. Qed.

(** With no device answering, construction fails on the first read. *)
Example new_dead : new (F:=PrimFloat.float) 0x77 dead = (Raise OSError, dead).
Proof. reflexivity. Qed.

(** The sample of the data sheet.  CPython prints the three values as
    25.08247793081682, 54.43754670353356 and 100653.25814481472. *)
Example measure_bme280 :
  fst (BME280.measure (bme280_object PrimFloat.float, bme280_device))
  = Ok [("temperature"%string, 0x1.9151d460f8p+4%float);
        ("humidity"%string, 0x1.b380187c7131bp+5%float);
        ("pressure"%string, 0x1.892d4215c750ep+16%float)].
Proof. vm_compute. reflexivity. Qed.

(** A calibration with [dig_P1 = 0] makes the normalization factor zero. *)
Example pressure_zero_factor :
  _compensate_pressure 415148 (blank (F:=PrimFloat.float) 0x77, dead)
  = (Ok 0%float, (blank 0x77, dead)).
Proof. reflexivity. Qed.

(** The sample of [bme280_device] on the object as constructed: the raw
    formula gives 53.47, within the interval. *)
Lemma compensate_humidity_clamped_witness :
  exists raw h,
    humidity_raw 30000 (bme280_object PrimFloat.float, bme280_device)
    = (Ok raw, (bme280_object PrimFloat.float, bme280_device)) /\
    _compensate_humidity 30000 (bme280_object PrimFloat.float, bme280_device)
    = (Ok h, (bme280_object PrimFloat.float, bme280_device)) /\
    (0 <=? h)%float = true /\ (h <=? 100)%float = true /\
    ((100 <? raw)%float = true -> h = 100%float) /\
    ((raw <? 0)%float = true -> h = 0%float) /\
    ((0 <=? raw)%float = true -> (raw <=? 100)%float = true -> h = raw).
Proof.
  apply (compensate_humidity_clamped
           (bme280_object PrimFloat.float) bme280_device 30000).
  - repeat split.
  - reflexivity.
  - lia.
Defined.

(** On the same object a reading of 0 counts drives the raw formula to
    -108.2 and one of 65535 counts to 235.4; the method returns 0 and 100. *)
Example humidity_clamped_below :
  fst (humidity_raw 0 (bme280_object PrimFloat.float, bme280_device))
  = Ok (-0x1.b0cf751e9a1c9p+6)%float /\
  fst (_compensate_humidity 0 (bme280_object PrimFloat.float, bme280_device))
  = Ok 0%float.
Proof. vm_compute. split; reflexivity. Qed.

Example humidity_clamped_above :
  fst (humidity_raw 65535 (bme280_object PrimFloat.float, bme280_device))
  = Ok 0x1.d6e1b3d64d98p+7%float /\
  fst (_compensate_humidity 65535
         (bme280_object PrimFloat.float, bme280_device))
  = Ok 100%float.
Proof. vm_compute. split; reflexivity. Qed.

(** Outside the register widths the interval property is lost: with
    constants of a thousand bits the formula overflows, multiplies an
    infinity by zero, and the range test lets the NaN through. *)
Example humidity_nan_outside_range :
  match fst (_compensate_humidity 30000
               (set_cal (mkCal 0 0 0 0 0 0 0 0 0 0 0 0
                               0 0 (2 ^ 1000) 0 0 (2 ^ 1000))
                        (blank (F:=PrimFloat.float) 0x77), dead)) with
  | Ok h => PrimFloat.is_nan h
  | Raise _ => false
  end = true.
Proof. vm_compute. reflexivity. Qed.

(** The decoder on a device whose signed words are all [0xFF, 0xFF], and on
    one where they are all [0x00, 0x80]. *)
Lemma calibration_s16_sign_extension_witness :
  s16_value T2
    (cal (fst (snd (_read_calibration_data
                      (blank (F:=PrimFloat.float) 0x77, ones_device))))) = -1
  /\
  s16_value H2
    (cal (fst (snd (_read_calibration_data
                      (blank (F:=PrimFloat.float) 0x77, min_device)))))
  = -32768.
Proof.
  split.
  - refine (proj1 (proj2 (calibration_s16_sign_extension
              (F:=PrimFloat.float) (blank 0x77) ones_device
              (c1:=ones_device) (c2:=ones_device) T2 _ _ _ _ _ _)) _);
      reflexivity.
  - refine (proj2 (proj2 (calibration_s16_sign_extension
              (F:=PrimFloat.float) (blank 0x77) min_device
              (c1:=min_device) (c2:=min_device) H2 _ _ _ _ _ _)) _);
      reflexivity.
Defined.

(** E4 = 19, E5 = 43, E6 = 3 give dig_H4 = 315 and dig_H5 = 50. *)
Lemma calibration_H4_H5_packing_witness :
  let r := _read_calibration_data
             (blank (F:=PrimFloat.float) 0x77, bme280_device) in
  fst r = Ok tt /\
  dig_H4 (cal (fst (snd r))) = signed 8 19 * 16 + Z.land 43 0x0F /\
  dig_H5 (cal (fst (snd r))) = signed 8 3 * 16 + Z.shiftr 43 4.
Proof.
  refine (calibration_H4_H5_packing
            (F:=PrimFloat.float) (blank 0x77) bme280_device
            (c1:=bme280_device) (c2:=bme280_device) _ _ _ _ _);
    reflexivity.
Defined.

(** An object whose calibration is all zero: [dig_P1 = 0] makes [var1]
    zero and the method returns 0. *)
Lemma compensate_pressure_zero_guard_witness :
  _compensate_pressure 415148 (blank (F:=PrimFloat.float) 0x77, dead)
  = (Ok (float 0), (blank 0x77, dead)) /\
  fst (_compensate_pressure 415148 (blank (F:=PrimFloat.float) 0x77, dead))
  <> Raise ZeroDivisionError.
Proof.
  destruct (compensate_pressure_zero_guard
              (blank (F:=PrimFloat.float) 0x77) dead 415148
              ltac:(repeat constructor))
    as (G & _ & _ & N & _).
  split; [|exact N].
  eapply G; [vm_compute; reflexivity|reflexivity].
Defined.

(** Ints that no float can hold: an [adc_p] of [2^1024] on the object of
    [bme280_device], and a [dig_P6] of [2^1024].  The conversion raises
    [OverflowError]; with [dig_P1 = 0] too, it is raised before the test of
    [var1] is reached. *)
Example pressure_overflow :
  _compensate_pressure (2 ^ 1024)
    (bme280_object PrimFloat.float, bme280_device)
  = (Raise OverflowError, (bme280_object PrimFloat.float, bme280_device)) /\
  _compensate_pressure 415148
    (oversized_object PrimFloat.float, bme280_device)
  = (Raise OverflowError, (oversized_object PrimFloat.float, bme280_device))
  /\
  fst (_compensate_pressure 415148
         (set_cal (mkCal 0 0 0 0 0 0 (2 ^ 2000) 0 0 0 0 0 0 0 0 0 0 0)
                  (blank (F:=PrimFloat.float) 0x77), dead))
  = Raise OverflowError.
Proof. vm_compute. repeat split; reflexivity. Qed.

(** Reading the sample of [bme280_device] on an object that still holds a
    [t_fine] of 0. *)
Lemma t_fine_from_same_sample_witness :
  read_pressure (bme280_object PrimFloat.float, bme280_device)
  = _compensate_pressure 415148
      (set_t_fine 128422 (bme280_object PrimFloat.float), bme280_device)
  /\
  read_humidity (bme280_object PrimFloat.float, bme280_device)
  = _compensate_humidity 30000
      (set_t_fine 128422 (bme280_object PrimFloat.float), bme280_device).
Proof.
  assert (E0 : _read_raw_sensor_data
                 (bme280_object PrimFloat.float, bme280_device)
               = (Ok (415148, 519888, 30000),
                  (bme280_object PrimFloat.float, bme280_device)))
    by (vm_compute; reflexivity).
  assert (Et : _compensate_temperature 519888
                 (bme280_object PrimFloat.float, bme280_device)
               = (Ok 0x1.9151d460f8p+4%float,
                  (set_t_fine 128422 (bme280_object PrimFloat.float),
                   bme280_device)))
    by (vm_compute; reflexivity).
  destruct (proj2 (t_fine_from_same_sample
                     (bme280_object PrimFloat.float) bme280_device)
              _ _ _ _ _ _ E0 Et) as (Ep & Eh & _).
  split; assumption.
Defined.

Lemma accessors_agree_with_measure_witness :
  exists t p h,
    getitem [("temperature"%string, 0x1.9151d460f8p+4%float);
             ("humidity"%string, 0x1.b380187c7131bp+5%float);
             ("pressure"%string, 0x1.892d4215c750ep+16%float)]
            "temperature" = Some t /\
    getitem [("temperature"%string, 0x1.9151d460f8p+4%float);
             ("humidity"%string, 0x1.b380187c7131bp+5%float);
             ("pressure"%string, 0x1.892d4215c750ep+16%float)]
            "pressure" = Some p /\
    getitem [("temperature"%string, 0x1.9151d460f8p+4%float);
             ("humidity"%string, 0x1.b380187c7131bp+5%float);
             ("pressure"%string, 0x1.892d4215c750ep+16%float)]
            "humidity" = Some h /\
    temperature (snd (BME280.measure
                        (bme280_object PrimFloat.float, bme280_device)))
    = (Ok t, snd (BME280.measure
                    (bme280_object PrimFloat.float, bme280_device))) /\
    pressure (snd (BME280.measure
                     (bme280_object PrimFloat.float, bme280_device)))
    = (Ok p, snd (BME280.measure
                    (bme280_object PrimFloat.float, bme280_device))) /\
    humidity (snd (BME280.measure
                     (bme280_object PrimFloat.float, bme280_device)))
    = (Ok h, snd (BME280.measure
                    (bme280_object PrimFloat.float, bme280_device))).
Proof.
  apply (accessors_agree_with_measure
           (bme280_object PrimFloat.float) bme280_device).
  vm_compute. reflexivity.
Defined.

(** C6 fails on the code: the object [BME280(i2c_ctrl, 0x77)] has just been
    constructed, no temperature compensation has run on it, and pressure and
    humidity compensation return a number (96821.06 and 53.47, from the
    [t_fine] of 0 the constructor left) where the claim has them fail with a
    [CompensationError]. *)
Lemma compensation_without_temperature_counterexample :
  fst (new (F:=PrimFloat.float) 0x77 bme280_device)
  = Ok (bme280_object PrimFloat.float) /\
  t_fine (bme280_object PrimFloat.float) = 0 /\
  fst (_compensate_pressure 415148
         (bme280_object PrimFloat.float, bme280_device))
  = Ok 0x1.7a35109a7bbf9p+16%float /\
  fst (_compensate_humidity 30000
         (bme280_object PrimFloat.float, bme280_device))
  = Ok 0x1.abc2fa53272a7p+5%float.
Proof. vm_compute. repeat split; reflexivity. Qed.

Lemma compensation_uses_stored_t_fine_witness :
  (exists p, _compensate_pressure 415148
               (bme280_object PrimFloat.float, bme280_device)
             = (Ok p, (bme280_object PrimFloat.float, bme280_device))) /\
  (exists h, _compensate_humidity 30000
               (bme280_object PrimFloat.float, bme280_device)
             = (Ok h, (bme280_object PrimFloat.float, bme280_device))).
Proof.
  destruct (compensation_uses_stored_t_fine
              (bme280_object PrimFloat.float) bme280_device 415148 30000
              ltac:(repeat constructor))
    as (_ & _ & Ep & Eh & _).
  split; [apply Ep|apply Eh]; repeat constructor.
Defined.

(** Three cycles of an SI7021 on its bus into a recording handler: the
    loop stops after the third, the handler holds three measurements and
    the device has answered eighteen transfers. *)
Lemma start_runs_poll_cycles_witness :
  exists a,
    run 3 (init (D:=dict PrimFloat.float) (mkArgs (Some 3) 2)
             (SI7021.new (F:=PrimFloat.float) 0x40,
              Breadboard.si7021_device PrimFloat.float)
             ([] : list (dict PrimFloat.float)))
    = (Stopped, a) /\
    List.length (List.filter is_Measure (journal a)) = 3%nat /\
    List.length (List.filter is_HandleData (journal a)) = 3%nat /\
    List.length (_this a) = 3%nat /\
    Breadboard.budget (snd (_sensor a)) = 82%nat /\
    asyncio._ready (_loop a) = [] /\
    asyncio._scheduled (_loop a) = [].
Proof.
  destruct (start_runs_poll_cycles (D:=dict PrimFloat.float)
              (mkArgs (Some 3) 2)
              (SI7021.new (F:=PrimFloat.float) 0x40,
               Breadboard.si7021_device PrimFloat.float)
              ([] : list (dict PrimFloat.float)) (n:=3) 3
              ltac:(lia) eq_refl)
    as (_ & R & _ & _).
  destruct R as (a & Er & Ej & Es & Ek & R1 & R2 & _);
    [cbn; lia|left; vm_compute; reflexivity|].
  exists a. split; [exact Er|].
  rewrite Ej, Es, Ek. repeat split; try assumption; vm_compute; reflexivity.
Defined.

(** C7 fails on the code: an SI7021 that drops off the bus in its second
    measurement, polled with [poll = 3].  [measure] is called twice and
    [_handle_data] once, not three times each; the third cycle is never
    scheduled, [stop] is never called, and the loop is idle however long it
    is left to run. *)
Lemma poll_count_not_reached_counterexample :
  let r := run 100 (init (D:=dict PrimFloat.float) (mkArgs (Some 3) 2)
                      (SI7021.new (F:=PrimFloat.float) 0x40,
                       Breadboard.mkDevice 26739 26376 [] 9 [])
                      ([] : list (dict PrimFloat.float))) in
  fst r = Asleep /\
  List.length (List.filter is_Measure (journal (snd r))) = 2%nat /\
  List.length (List.filter is_HandleData (journal (snd r))) = 1%nat /\
  List.length (_this (snd r)) = 1%nat /\
  asyncio._ready (_loop (snd r)) = [] /\
  asyncio._scheduled (_loop (snd r)) = [] /\
  asyncio._reported (_loop (snd r)) = [OSError].
Proof. vm_compute. repeat split; reflexivity. Qed.

(** C8 fails on the code: with [poll = 3] and a sensor whose second
    measurement raises, the third cycle is never scheduled.  After the
    exception the loop has nothing ready and no timer, however long it is
    left to run, and [measure] has been called twice only. *)
Lemma failed_cycle_counterexample :
  let r := run 100 (init (mkArgs (Some 3) 2) 0%nat ([] : list (dict Q))) in
  fst r = Asleep /\
  journal (snd r)
  = [Measure (Ok [("temperature"%string, Qmake 57 2)]);
     HandleData [("temperature"%string, Qmake 57 2)] (Ok tt);
     Measure (Raise OSError)] /\
  asyncio._ready (_loop (snd r)) = [] /\
  asyncio._scheduled (_loop (snd r)) = [] /\
  asyncio._reported (_loop (snd r)) = [OSError].
Proof. vm_compute. repeat split; reflexivity. Qed.

Lemma failed_measurement_ends_polling_witness :
  callback 2 (mkApp (mkArgs (Some 3) 2) 1%nat ([] : list (dict Q))
                (asyncio.call_soon 2 asyncio.new_event_loop) [])
  = (Raise OSError,
     mkApp (mkArgs (Some 3) 2) 2%nat []
       (asyncio.call_soon 2 asyncio.new_event_loop)
       [Measure (Raise OSError)]).
Proof.
  refine (proj1 (failed_measurement_ends_polling
                   (mkApp (mkArgs (Some 3) 2) 1%nat ([] : list (dict Q))
                      (asyncio.call_soon 2 asyncio.new_event_loop) [])
                   (num:=2) (e:=OSError) (s':=2%nat) _ _)).
  - split; [reflexivity|]. left. split; reflexivity.
  - reflexivity.
Defined.

(** C9 fails on the code: a node with a web server that always fails and a
    healthy publisher, polling with the [poll = -1] a node always has.  The
    publisher receives nothing, not even the first measurement, and the
    acquisition ends with the first cycle. *)
Lemma failing_sink_counterexample :
  let r := run 100 (init (mkArgs (Some (-1)) 2) tt
                      (mkNode (Some broken)
                              (Some ([] : list (dict PrimFloat.float))))) in
  fst r = Asleep /\
  _publisher (_this (snd r)) = Some [] /\
  List.length (List.filter is_Measure (journal (snd r))) = 1%nat /\
  asyncio._scheduled (_loop (snd r)) = [] /\
  asyncio._reported (_loop (snd r)) = [Exception "ConnectionError"].
Proof. vm_compute. repeat split; reflexivity. Qed.

Lemma sink_failure_aborts_delivery_witness :
  handle_data (Mock.measure_data PrimFloat.float)
    (mkNode (Some broken) (Some ([] : list (dict PrimFloat.float))))
  = (Raise (Exception "ConnectionError"), mkNode (Some broken) (Some [])).
Proof.
  refine (proj1 (sink_failure_aborts_delivery
                   (snd (_start (init (mkArgs (Some (-1)) 2) tt
                      (mkNode (Some broken)
                         (Some ([] : list (dict PrimFloat.float)))))))
                   (num:=1) (data:=Mock.measure_data PrimFloat.float)
                   (s':=tt) _ _)
                broken broken (Exception "ConnectionError") _ _).
  - split; [reflexivity|]. left. split; reflexivity.
  - reflexivity.
  - reflexivity.
  - reflexivity.
Defined.

End Runs.

(** ** More runs of the model

    The properties of the last four parts on the devices of [Bench],
    [Faults], [Breadboard] and [Desk]. *)

Section Construction.
Import BME280 Bench Faults.

Lemma constructor_on_answering_device_witness :
  new (F:=PrimFloat.float) 0x77 bme280_device
  = (Ok (mkSelf 0x77
           (register_map (block bme280_device 0x88 26)
                         (block bme280_device 0xE1 7))
           0 (float 0) (float 0) (float 0) 1 1 1 3 0 5),
     (0xF5, [0xA0]) :: (0xF4, [0x27]) :: (0xF2, [0x01]) :: bme280_device).
Proof.
  refine (constructor_on_answering_device (F:=PrimFloat.float) 0x77
            bme280_device (c1:=bme280_device) (c2:=bme280_device)
            _ _ _ _ _ _ _ _ _);
    reflexivity.
Defined.

(** A first block with an item of 300, and one of twenty bytes. *)
Lemma constructor_refuses_malformed_first_block_witness :
  new (F:=PrimFloat.float) 0x77 [(0x88, [300])]
  = (Raise ValueError, [(0x88, [300])]) /\
  new (F:=PrimFloat.float) 0x77 (mkClipped [20%nat] bme280_device)
  = (Raise StructError, mkClipped [] bme280_device).
Proof.
  split.
  - refine (proj1 (constructor_refuses_malformed_first_block
                     (F:=PrimFloat.float) 0x77 [(0x88, [300])]
                     (b88:=block [(0x88, [300])] 0x88 26) _) _);
      reflexivity.
  - refine (proj2 (constructor_refuses_malformed_first_block
                     (F:=PrimFloat.float) 0x77
                     (mkClipped [20%nat] bme280_device)
                     (b88:=firstn 20 (block bme280_device 0x88 26)) _) _ _);
      [reflexivity|reflexivity|cbn; lia].
Defined.

(** A second block of five bytes. *)
Lemma constructor_refuses_short_second_block_witness :
  new (F:=PrimFloat.float) 0x77 (mkClipped [26%nat; 5%nat] bme280_device)
  = (Raise IndexError, mkClipped [] bme280_device).
Proof.
  refine (constructor_refuses_short_second_block (F:=PrimFloat.float) 0x77
            (mkClipped [26%nat; 5%nat] bme280_device)
            (c1:=mkClipped [5%nat] bme280_device)
            (b88:=block bme280_device 0x88 26)
            (bE1:=firstn 5 (block bme280_device 0xE1 7))
            _ _ _ _ _ _);
    try reflexivity.
  cbn. lia.
Defined.

End Construction.

Section Registers.
Import BME280 Bench Faults.

(** The settings of a new object: 0x27 and 0xA0. *)
Lemma settings_registers_encoding_witness :
  _set_meas (bme280_object PrimFloat.float, bme280_device)
  = (Ok tt, (bme280_object PrimFloat.float,
             (0xF4, [0x27]) :: bme280_device)) /\
  _set_config (bme280_object PrimFloat.float, bme280_device)
  = (Ok tt, (bme280_object PrimFloat.float,
             (0xF5, [0xA0]) :: bme280_device)).
Proof.
  destruct (settings_registers_encoding
              (bme280_object PrimFloat.float) bme280_device)
    as (E1 & E2 & _); try (cbn; lia).
  rewrite E1, E2. split; reflexivity.
Defined.

Lemma calibration_within_register_ranges_witness :
  let k := cal (fst (snd (_read_calibration_data
                            (blank (F:=PrimFloat.float) 0x77,
                             saturated_device)))) in
  0 <= dig_T1 k < 65536 /\ 0 <= dig_P1 k < 65536 /\
  (forall f : s16_field, -32768 <= s16_value f k < 32768) /\
  0 <= dig_H1 k < 256 /\ 0 <= dig_H3 k < 256 /\
  -2048 <= dig_H4 k < 2048 /\ -2048 <= dig_H5 k < 2048 /\
  -128 <= dig_H6 k < 128.
Proof.
  refine (calibration_within_register_ranges
            (F:=PrimFloat.float) (blank 0x77) saturated_device
            (c1:=saturated_device) (c2:=saturated_device)
            (b88:=block saturated_device 0x88 26)
            (bE1:=block saturated_device 0xE1 7) _ _ _ _);
    reflexivity.
Defined.

(** With every register at [0xFF] the unsigned words are 65535 where the
    signed ones are -1. *)
Lemma calibration_unsigned_fields_witness :
  let k := cal (fst (snd (_read_calibration_data
                            (blank (F:=PrimFloat.float) 0x77,
                             saturated_device)))) in
  dig_T1 k = 65535 /\ dig_P1 k = 65535 /\ dig_H1 k = 255 /\
  dig_H3 k = 255 /\ dig_H6 k = -1.
Proof.
  destruct (calibration_unsigned_fields
              (F:=PrimFloat.float) (blank 0x77) saturated_device
              (c1:=saturated_device) (c2:=saturated_device)
              (b88:=block saturated_device 0x88 26)
              (bE1:=block saturated_device 0xE1 7))
    as (_ & E1 & E2 & E3 & E4 & E5); try reflexivity.
  cbv zeta. rewrite E1, E2, E3, E4, E5. repeat split; reflexivity.
Defined.

Lemma raw_sample_layout_witness :
  _read_raw_sensor_data (bme280_object PrimFloat.float, bme280_device)
  = (Ok (4096 * 101 + 16 * 90 + 192 / 16,
         4096 * 126 + 16 * 237 + 0 / 16,
         256 * 117 + 48),
     (bme280_object PrimFloat.float, bme280_device)).
Proof.
  refine (raw_sample_layout (bme280_object PrimFloat.float) bme280_device
            (c1:=bme280_device) (c2:=bme280_device) _ _ _ _);
    reflexivity.
Defined.

End Registers.

Section Readings.
Import BME280 Bench Faults.

Lemma compensate_temperature_finite_witness :
  exists t tf,
    _compensate_temperature 519888
      (bme280_object PrimFloat.float, bme280_device)
    = (Ok t, (set_t_fine tf (bme280_object PrimFloat.float), bme280_device))
    /\ finite64 24 t /\ Z.abs tf < 2 ^ 35.
Proof.
  apply (compensate_temperature_finite
           (bme280_object PrimFloat.float) bme280_device 519888).
  - repeat split.
  - lia.
Defined.

Lemma public_humidity_in_range_witness :
  (exists h st,
     read_humidity (bme280_object PrimFloat.float, bme280_device)
     = (Ok h, st) /\
     (0 <=? h)%float = true /\ (h <=? 100)%float = true) /\
  (exists m st h,
     BME280.measure (bme280_object PrimFloat.float, bme280_device)
     = (Ok m, st) /\
     getitem m "humidity" = Some h /\
     (0 <=? h)%float = true /\ (h <=? 100)%float = true).
Proof.
  destruct (public_humidity_in_range
              (bme280_object PrimFloat.float) bme280_device
              bme280_device bme280_device bme280_device
              101 90 192 126 237 0 117 48)
    as (Rh & Rm); try reflexivity; try (repeat split).
  - exact Rh.
  - apply Rm. repeat split.
Defined.

(** A [dig_P6] that no float can hold: [measure] raises [OverflowError]
    in the pressure formula, after [t_fine] and the cached temperature have
    been assigned; the cached pressure and humidity are the old ones. *)
Lemma bme280_failed_measure_assignments_witness :
  let r := BME280.measure (oversized_object PrimFloat.float, bme280_device) in
  fst r = Raise OverflowError /\
  t_fine (fst (snd r)) = 128422 /\
  _temperature (fst (snd r)) = 0x1.9151d460f8p+4%float /\
  _pressure (fst (snd r)) = 0%float /\
  _humidity (fst (snd r)) = 0%float /\
  (fst (snd r) = oversized_object PrimFloat.float \/
   ~ converts PrimFloat.float (pressure_operands (fst (snd r)) 415148) \/
   ~ converts PrimFloat.float (humidity_operands (fst (snd r)) 30000)).
Proof.
  cbv zeta.
  split; [vm_compute; reflexivity|].
  split; [vm_compute; reflexivity|].
  split; [vm_compute; reflexivity|].
  split; [vm_compute; reflexivity|].
  split; [vm_compute; reflexivity|].
  destruct (bme280_failed_measure_assignments
              (oversized_object PrimFloat.float)
              (o':=fst (snd (BME280.measure
                               (oversized_object PrimFloat.float,
                                bme280_device))))
              bme280_device (c':=bme280_device) (e:=OverflowError)
              ltac:(repeat constructor) ltac:(vm_compute; reflexivity))
    as [E|(_ & adc_p & adc_t & adc_h & c1 & t & tf & Er & _ & _ & Hc)].
  - left. exact E.
  - right.
    assert (Ea : adc_p = 415148 /\ adc_h = 30000).
    { assert (Er' : _read_raw_sensor_data
                      (oversized_object PrimFloat.float, bme280_device)
                    = (Ok (415148, 519888, 30000),
                       (oversized_object PrimFloat.float, bme280_device)))
        by (vm_compute; reflexivity).
      rewrite Er' in Er. inversion Er. split; reflexivity. }
    destruct Ea as [-> ->].
    destruct Hc as [(_ & Hc)|(p & _ & _ & Hc)]; [left|right]; exact Hc.
Defined.

(** The temperature block comes back one byte short: [measure] raises
    before anything is assigned and the object still holds what it held. *)
Example bme280_failed_read_changes_nothing :
  BME280.measure (bme280_object PrimFloat.float,
                  mkClipped [3%nat; 2%nat] bme280_device)
  = (Raise ValueError,
     (bme280_object PrimFloat.float, mkClipped [] bme280_device)).
Proof. vm_compute. reflexivity. Qed.

Lemma measure_agrees_with_reads_witness :
  exists t p h,
    [("temperature"%string, 0x1.9151d460f8p+4%float);
     ("humidity"%string, 0x1.b380187c7131bp+5%float);
     ("pressure"%string, 0x1.892d4215c750ep+16%float)]
    = [("temperature"%string, t); ("humidity"%string, h);
       ("pressure"%string, p)] /\
    fst (read_temperature (bme280_object PrimFloat.float, bme280_device))
    = Ok t /\
    fst (read_pressure (bme280_object PrimFloat.float, bme280_device))
    = Ok p /\
    fst (read_humidity (bme280_object PrimFloat.float, bme280_device))
    = Ok h.
Proof.
  apply (measure_agrees_with_reads
           (bme280_object PrimFloat.float) bme280_device
           (st:=snd (BME280.measure
                       (bme280_object PrimFloat.float, bme280_device)))).
  vm_compute. reflexivity.
Defined.

End Readings.

Section SI7021_runs.
Import SI7021 Breadboard.


Lemma si7021_temperature_range_witness :
  exists t,
    fst (read_temperature (new (F:=PrimFloat.float) 0x40,
                           si7021_device PrimFloat.float))
    = Ok t /\
    (- decimal 4685 100 <=? t)%float = true /\
    (t <? decimal 12887 100)%float = true.
Proof.
  edestruct (si7021_temperature_range
               (new (F:=PrimFloat.float) 0x40)
               (si7021_device PrimFloat.float))
    as (t & E & L & U & _); try reflexivity.
  exists t. rewrite E. split; [reflexivity|]. split; assumption.
Defined.

(** A device that drops off the bus after the humidity has been read. *)
Lemma si7021_measure_not_atomic_witness :
  let r := SI7021.measure (new (F:=PrimFloat.float) 0x40,
                           mkDevice 26739 26376 [] 3 []) in
  fst r = Raise OSError /\
  fst (humidity (snd r)) = Ok 0x1.6801380000000p+5%float /\
  fst (temperature (snd r)) = Ok 0%float.
Proof.
  cbv zeta.
  edestruct (si7021_measure_not_atomic
               (new (F:=PrimFloat.float) 0x40)
               (mkDevice 26739 26376 [] 3 []))
    as (E & _ & Eh & Et); try reflexivity.
  rewrite E. split; [reflexivity|]. split; [exact Eh|exact Et].
Defined.

Lemma si7021_accessors_agree_with_measure_witness :
  exists t h,
    [("temperature"%string, 0x1.7df0d1eb851eap+4%float);
     ("humidity"%string, 0x1.6801380000000p+5%float)]
    = [("temperature"%string, t); ("humidity"%string, h)] /\
    temperature (snd (SI7021.measure (new (F:=PrimFloat.float) 0x40,
                                      si7021_device PrimFloat.float)))
    = (Ok t, snd (SI7021.measure (new (F:=PrimFloat.float) 0x40,
                                  si7021_device PrimFloat.float))) /\
    humidity (snd (SI7021.measure (new (F:=PrimFloat.float) 0x40,
                                   si7021_device PrimFloat.float)))
    = (Ok h, snd (SI7021.measure (new (F:=PrimFloat.float) 0x40,
                                  si7021_device PrimFloat.float))).
Proof.
  apply (si7021_accessors_agree_with_measure
           (new (F:=PrimFloat.float) 0x40, si7021_device PrimFloat.float)).
  vm_compute. reflexivity.
Defined.

End SI7021_runs.

Section Polling_runs.
Import Application SensorNode Bench Breadboard.

(** An SI7021 polled without a cycle count: still running after five
    iterations, with five measurements delivered and thirty transfers
    answered.  On a device that drops off the bus in the second
    measurement the loop is idle, never stopped. *)
Lemma polling_without_count_never_stops_witness :
  (exists a,
     run 5 (init (D:=dict PrimFloat.float) (mkArgs None 2)
              (SI7021.new (F:=PrimFloat.float) 0x40,
               Breadboard.si7021_device PrimFloat.float)
              ([] : list (dict PrimFloat.float)))
     = (Running, a) /\
     List.length (_this a) = 5%nat /\
     Breadboard.budget (snd (_sensor a)) = 70%nat /\
     asyncio.sleeps_forever (_loop a) = false) /\
  (exists a,
     run 5 (init (D:=dict PrimFloat.float) (mkArgs None 2)
              (SI7021.new (F:=PrimFloat.float) 0x40,
               Breadboard.mkDevice 26739 26376 [] 9 [])
              ([] : list (dict PrimFloat.float)))
     = (Asleep, a) /\
     List.length (_this a) = 1%nat /\
     asyncio._reported (_loop a) = [OSError]).
Proof.
  split.
  - destruct (polling_without_count_never_stops
                (D:=dict PrimFloat.float) (mkArgs None 2)
                (SI7021.new (F:=PrimFloat.float) 0x40,
                 Breadboard.si7021_device PrimFloat.float)
                ([] : list (dict PrimFloat.float)) 5
                ltac:(intros n E; discriminate))
      as (_ & R & _).
    destruct R as (a & Er & _ & _ & Es & Ek & Hs & _);
      [vm_compute; reflexivity|].
    exists a. split; [exact Er|]. rewrite Es, Ek.
    split; [vm_compute; reflexivity|]. split; [vm_compute; reflexivity|].
    exact Hs.
  - destruct (polling_without_count_never_stops
                (D:=dict PrimFloat.float) (mkArgs None 2)
                (SI7021.new (F:=PrimFloat.float) 0x40,
                 Breadboard.mkDevice 26739 26376 [] 9 [])
                ([] : list (dict PrimFloat.float)) 2
                ltac:(intros n E; discriminate))
      as (_ & _ & R).
    destruct (R OSError 5%nat) as (a & Er & _ & _ & Ek & Ee);
      [vm_compute; reflexivity|lia|].
    exists a. split; [exact Er|]. rewrite Ek.
    split; [vm_compute; reflexivity|exact Ee].
Defined.

(** Three cycles of an SI7021 into a handler that keeps what it is given:
    it ends up with the three measurements in the order they were taken,
    and the device with the eighteen transfers of three measurements
    behind it. *)
Lemma polling_threads_sensor_and_handler_witness :
  exists a,
    run 3 (init (D:=dict PrimFloat.float) (mkArgs (Some 3) 2)
             (SI7021.new (F:=PrimFloat.float) 0x40,
              Breadboard.si7021_device PrimFloat.float)
             ([] : list (dict PrimFloat.float)))
    = (Stopped, a) /\
    _this a
    = repeat [("temperature"%string, 0x1.7df0d1eb851eap+4%float);
              ("humidity"%string, 0x1.6801380000000p+5%float)] 3 /\
    Breadboard.budget (snd (_sensor a)) = 82%nat /\
    List.length (Breadboard.trace (snd (_sensor a))) = 27%nat /\
    SI7021._humidity (fst (_sensor a)) = 0x1.6801380000000p+5%float.
Proof.
  destruct (polling_threads_sensor_and_handler
              (D:=dict PrimFloat.float) (mkArgs (Some 3) 2)
              (SI7021.new (F:=PrimFloat.float) 0x40,
               Breadboard.si7021_device PrimFloat.float)
              ([] : list (dict PrimFloat.float))
              (n:=3) (fuel:=3%nat))
    as (a & Er & _ & _ & Es & Ek).
  - lia.
  - reflexivity.
  - cbn. lia.
  - vm_compute. reflexivity.
  - exists a. split; [exact Er|]. rewrite Es, Ek.
    repeat split; vm_compute; reflexivity.
Defined.

End Polling_runs.

Section Output_runs.
Import SenlibCLI Desk.

Lemma output_independent_of_dict_order_witness :
  _handle_data (mkArgs "bme280" "txt" false None) tt
    [("temperature", "25.08"); ("humidity", "54.43");
     ("pressure", "100653.25")]%string
    (mkConsole "2024-01-01 00:00:00" [])
  = _handle_data (mkArgs "bme280" "txt" false None) tt
      [("pressure", "100653.25"); ("temperature", "25.08");
       ("humidity", "54.43")]%string
      (mkConsole "2024-01-01 00:00:00" []).
Proof.
  apply output_independent_of_dict_order.
  - repeat constructor; cbn; intuition discriminate.
  - apply Permutation_sym.
    apply (Permutation_cons_append
             [("temperature", "25.08"); ("humidity", "54.43")]%string
             ("pressure", "100653.25")%string).
Defined.

Lemma text_output_lists_measurements_by_key_witness :
  _generate_output (mkArgs "bme280" "txt" false None) tt
    [("temperature", "25.08"); ("humidity", "54.43");
     ("pressure", "100653.25")]%string
    (mkConsole "2024-01-01 00:00:00" [])
  = (Ok tt,
     mkConsole "2024-01-01 00:00:00"
       [Str ("timestamp: 2024-01-01 00:00:00" ++ newline
             ++ "humidity: 54.43" ++ newline
             ++ "pressure: 100653.25" ++ newline
             ++ "temperature: 25.08" ++ newline)]).
Proof.
  destruct (text_output_lists_measurements_by_key
              (mkArgs "bme280" "txt" false None) tt
              [("temperature", "25.08"); ("humidity", "54.43");
               ("pressure", "100653.25")]%string
              (mkConsole "2024-01-01 00:00:00" [])
              (w1:=mkConsole "2024-01-01 00:00:00" [])
              (ts:="2024-01-01 00:00:00"))
    as (E & _ & _).
  - reflexivity.
  - reflexivity.
  - repeat constructor; cbn; intuition discriminate.
  - reflexivity.
  - rewrite E. reflexivity.
Defined.

End Output_runs.
